(** * Pulp-manager: task model, workflow controllers and their properties

    A shallow embedding of the parts of [pulp_manager] that the task
    engine and the workflow controllers are made of:

    - [pulp_manager/app/models/task.py]        (module [Enum], [TaskType], [TaskState], [Task], [TaskStage])
    - [pulp_manager/app/models/repo.py], [pulp_server.py]   ([RepoHealthStatus], [PulpServerRepo], [PulpServer])
    - [pulp_manager/app/services/task_service.py]            ([TaskService])
    - [pulp_manager/app/services/pulp_helpers.py]            ([PulpHelpers])
    - [pulp_manager/app/services/repo_syncher.py]            ([RepoSyncher])
    - [pulp_manager/app/services/snapshotter.py]             ([Snapshotter])
    - [pulp_manager/app/services/repo_remover.py]            ([RepoRemover])
    - [pulp_manager/app/tasks/remove_content_task.py]        ([RemoveContentTask])
    - [pulp3_bindings/pulp3]                                 ([Pulp])

    Conventions.  Python exceptions are values of [exn] and fallible code
    returns [result].  JSON objects ([task_args], [detail], [error]) are
    finite maps from keys to strings.  The database session is explicit:
    a [Session.t] holds the rows as the running transaction sees them and
    the rows as last committed.  [datetime.utcnow()] is an argument [now].
    Calls into the Pulp server go through a record of responses (the
    backend of one controller step); strings are ASCII. *)

From Stdlib Require Import ZArith String Ascii List Bool Lia.
From stdpp Require Import base option list gmap strings pretty.

Local Open Scope Z_scope.
Local Open Scope string_scope.

(** ** Exceptions and results *)

Inductive exn : Type :=
| ValueError (msg : string)
| TypeError (msg : string)
| KeyError (key : string)
| IndexError (msg : string)
| PulpManagerValueError (msg : string)
| PulpManagerSnapshotError (msg : string)
| PulpManagerEntityNotFoundError (msg : string)
| PulpManagerTaskNotFoundError (msg : string)
| PulpManagerPulpTaskError (msg : string)
| AttributeError (msg : string)
| PulpV3InvalidArgumentError (msg : string)
| PulpV3InvalidTypeError (msg : string)
| PulpV3APIError (msg : string).

(** [str(exception)] *)
Definition exn_str (e : exn) : string :=
  match e with
  | ValueError m | TypeError m | KeyError m | IndexError m
  | PulpManagerValueError m | PulpManagerSnapshotError m
  | PulpManagerEntityNotFoundError m | PulpManagerTaskNotFoundError m
  | PulpManagerPulpTaskError m | AttributeError m
  | PulpV3InvalidArgumentError m | PulpV3InvalidTypeError m | PulpV3APIError m => m
  end.

(** [isinstance(e, PulpManagerTaskNotFoundError)] and
    [isinstance(e, PulpManagerPulpTaskError)], used by [except] clauses. *)
Definition is_task_not_found (e : exn) : bool :=
  match e with PulpManagerTaskNotFoundError _ => true | _ => false end.

Definition is_pulp_task_error (e : exn) : bool :=
  match e with PulpManagerPulpTaskError _ => true | _ => false end.

Inductive result (A : Type) : Type :=
| Ok (a : A)
| Raise (e : exn).

Arguments Ok {A} a.
Arguments Raise {A} e.

Definition rbind {A B : Type} (r : result A) (k : A -> result B) : result B :=
  match r with
  | Ok a => k a
  | Raise e => Raise e
  end.

Notation "'let*' x ':=' r 'in' k" := (rbind r (fun x => k))
  (at level 10, x pattern, r at level 100, k at level 200).

Definition is_ok {A : Type} (r : result A) : bool :=
  match r with Ok _ => true | Raise _ => false end.

(** ** Python values that reach the model's property setters *)

Inductive pyval : Type :=
| PyInt (z : Z)          (* int; bool counts as int, True = 1 *)
| PyStr (s : string)
| PyOther (tyname : string).   (* None, float, list, ...: the type's name *)

(** JSON objects with string values. *)
Abbreviation json := (gmap string string).

(** [str.lower()] on ASCII text. *)
Definition lower_ascii (c : ascii) : ascii :=
  let n := nat_of_ascii c in
  if (Nat.leb 65 n && Nat.leb n 90)%bool then ascii_of_nat (n + 32) else c.

Fixpoint lower (s : string) : string :=
  match s with
  | EmptyString => EmptyString
  | String c rest => String (lower_ascii c) (lower rest)
  end.

(** [needle in haystack] for strings. *)
Fixpoint contains (needle haystack : string) : bool :=
  String.prefix needle haystack ||
  match haystack with
  | EmptyString => false
  | String _ rest => contains needle rest
  end.

(** [s.endswith(suffix)] *)
Definition endswith (s suffix : string) : bool :=
  let n := String.length s in
  let k := String.length suffix in
  (Nat.leb k n && String.eqb (String.substring (n - k) k s) suffix)%bool.

(** [", ".join(l)] *)
Fixpoint join (sep : string) (l : list string) : string :=
  match l with
  | [] => EmptyString
  | [x] => x
  | x :: rest => x +:+ sep +:+ join sep rest
  end.

(** ** Python [Enum] classes

    An enumeration is its list of [(name, value)] definitions in source
    order.  [Cls[name]] looks a name up among all definitions (aliases
    included); [Cls(value)] returns the first definition with that value,
    which is the canonical member: a later definition with the same value
    is an alias of it. *)
Module Enum.

Definition t := list (string * Z).

(** [Cls[name].value]; [KeyError] when absent. *)
Definition by_name (cls : t) (n : string) : option Z :=
  snd <$> List.find (fun d => String.eqb (fst d) n) cls.

(** [Cls(value).name]; [ValueError] when absent. *)
Definition by_value (cls : t) (v : Z) : option string :=
  fst <$> List.find (fun d => Z.eqb (snd d) v) cls.

(** [value in Cls._value2member_map_] *)
Definition has_value (cls : t) (v : Z) : bool :=
  existsb (fun d => Z.eqb (snd d) v) cls.

(** [[m.name for m in Cls]]: iteration skips aliases. *)
Fixpoint member_names_from (seen : list Z) (cls : t) : list string :=
  match cls with
  | [] => []
  | (n, v) :: rest =>
      if existsb (Z.eqb v) seen then member_names_from seen rest
      else n :: member_names_from (v :: seen) rest
  end.

Definition member_names (cls : t) : list string := member_names_from [] cls.

End Enum.

(** [class TaskType(Enum)] *)
Definition TaskType : Enum.t :=
  [ ("repo_sync", 1); ("repo_group_sync", 2); ("repo_snapshot", 3);
    ("repo_creation_from_git", 4); ("repo_removal", 5); ("remove_repo_content", 5) ].

(** [class TaskState(Enum)] *)
Definition TaskState : Enum.t :=
  [ ("queued", 1); ("running", 2); ("completed", 3); ("failed", 4);
    ("canceled", 5); ("failed_to_start", 6); ("skipped", 7) ].

(** [class RepoHealthStatus(Enum)] *)
Definition RepoHealthStatus : Enum.t :=
  [ ("green", 1); ("amber", 2); ("red", 3) ].

(** ** [class Task] *)
Module Task.

Record t : Type := mk {
  id : Z;
  name : string;
  parent_task_id : option Z;
  task_type_id : option Z;
  task_args_str : option json;
  date_started : option Z;
  date_finished : option Z;
  date_last_updated : option Z;
  state_id : option Z;
  worker_name : option string;
  worker_job_id : option string;
  error_str : option json
}.

Definition with_task_type_id (v : option Z) (k : t) : t :=
  mk (id k) (name k) (parent_task_id k) v (task_args_str k) (date_started k)
     (date_finished k) (date_last_updated k) (state_id k) (worker_name k)
     (worker_job_id k) (error_str k).

Definition with_task_args_str (v : option json) (k : t) : t :=
  mk (id k) (name k) (parent_task_id k) (task_type_id k) v (date_started k)
     (date_finished k) (date_last_updated k) (state_id k) (worker_name k)
     (worker_job_id k) (error_str k).

Definition with_date_started (v : option Z) (k : t) : t :=
  mk (id k) (name k) (parent_task_id k) (task_type_id k) (task_args_str k) v
     (date_finished k) (date_last_updated k) (state_id k) (worker_name k)
     (worker_job_id k) (error_str k).

Definition with_date_finished (v : option Z) (k : t) : t :=
  mk (id k) (name k) (parent_task_id k) (task_type_id k) (task_args_str k)
     (date_started k) v (date_last_updated k) (state_id k) (worker_name k)
     (worker_job_id k) (error_str k).

Definition with_date_last_updated (v : option Z) (k : t) : t :=
  mk (id k) (name k) (parent_task_id k) (task_type_id k) (task_args_str k)
     (date_started k) (date_finished k) v (state_id k) (worker_name k)
     (worker_job_id k) (error_str k).

Definition with_state_id (v : option Z) (k : t) : t :=
  mk (id k) (name k) (parent_task_id k) (task_type_id k) (task_args_str k)
     (date_started k) (date_finished k) (date_last_updated k) v (worker_name k)
     (worker_job_id k) (error_str k).

Definition with_worker_name (v : option string) (k : t) : t :=
  mk (id k) (name k) (parent_task_id k) (task_type_id k) (task_args_str k)
     (date_started k) (date_finished k) (date_last_updated k) (state_id k) v
     (worker_job_id k) (error_str k).

Definition with_worker_job_id (v : option string) (k : t) : t :=
  mk (id k) (name k) (parent_task_id k) (task_type_id k) (task_args_str k)
     (date_started k) (date_finished k) (date_last_updated k) (state_id k)
     (worker_name k) v (error_str k).

Definition with_error_str (v : option json) (k : t) : t :=
  mk (id k) (name k) (parent_task_id k) (task_type_id k) (task_args_str k)
     (date_started k) (date_finished k) (date_last_updated k) (state_id k)
     (worker_name k) (worker_job_id k) v.

(** [@property task_type] *)
Definition task_type (k : t) : result (option string) :=
  match task_type_id k with
  | Some v =>
      match Enum.by_value TaskType v with
      | Some n => Ok (Some n)
      | None => Raise (ValueError (pretty v +:+ " is not a valid TaskType"))
      end
  | None => Ok None
  end.

(** [@task_type.setter] *)
Definition set_task_type (value : pyval) (k : t) : result t :=
  match value with
  | PyInt v =>
      if Enum.has_value TaskType v then Ok (with_task_type_id (Some v) k)
      else Raise (ValueError ("Invalid task type ID: " +:+ pretty v))
  | PyStr s =>
      match Enum.by_name TaskType (lower s) with
      | Some v => Ok (with_task_type_id (Some v) k)
      | None => Raise (ValueError ("Invalid task type specified: " +:+ s))
      end
  | PyOther ty =>
      Raise (TypeError ("Expected string or integer for task type, got " +:+ ty))
  end.

(** [@property state] *)
Definition state (k : t) : result (option string) :=
  match state_id k with
  | Some v =>
      match Enum.by_value TaskState v with
      | Some n => Ok (Some n)
      | None => Raise (ValueError (pretty v +:+ " is not a valid TaskState"))
      end
  | None => Ok None
  end.

(** [@state.setter] *)
Definition set_state (value : pyval) (k : t) : result t :=
  match value with
  | PyInt v =>
      if Enum.has_value TaskState v then Ok (with_state_id (Some v) k)
      else Raise (ValueError ("Invalid task state ID: " +:+ pretty v))
  | PyStr s =>
      match Enum.by_name TaskState (lower s) with
      | Some v => Ok (with_state_id (Some v) k)
      | None => Raise (ValueError ("Invalid task state specified: " +:+ s))
      end
  | PyOther ty =>
      Raise (TypeError ("Expected string or integer for task state, got " +:+ ty))
  end.

(** [@property task_args] *)
Definition task_args (k : t) : json :=
  match task_args_str k with Some j => j | None => ∅ end.

(** [@task_args.setter] *)
Definition set_task_args (value : json) (k : t) : t :=
  with_task_args_str (Some value) k.

(** [@property error] *)
Definition error (k : t) : json :=
  match error_str k with Some j => j | None => ∅ end.

(** [@error.setter] *)
Definition set_error (value : json) (k : t) : t :=
  with_error_str (Some value) k.

End Task.

(** ** [class TaskStage] *)
Module TaskStage.

Record t : Type := mk {
  id : nat;                         (* position in the [task_stages] table *)
  task_id : Z;
  name : string;
  detail_str : option json;
  error_str : option json;
  date_last_updated : option Z
}.

(** [@property detail] *)
Definition detail (s : t) : json :=
  match detail_str s with Some j => j | None => ∅ end.

(** [@property error] *)
Definition error (s : t) : json :=
  match error_str s with Some j => j | None => ∅ end.

(** The keyword arguments the controllers pass to [update]. *)
Inductive kwarg : Type :=
| kw_detail (v : json)
| kw_error (v : json)
| kw_date_last_updated (v : Z).

Definition setattr (a : kwarg) (s : t) : t :=
  match a with
  | kw_detail v => mk (id s) (task_id s) (name s) (Some v) (error_str s) (date_last_updated s)
  | kw_error v => mk (id s) (task_id s) (name s) (detail_str s) (Some v) (date_last_updated s)
  | kw_date_last_updated v => mk (id s) (task_id s) (name s) (detail_str s) (error_str s) (Some v)
  end.

End TaskStage.

(** [class PulpServerRepo], with the [repo] relationship's [name] and
    [repo_type] inlined. *)
Module PulpServerRepo.

Record t : Type := mk {
  id : Z;
  name : string;                    (* repo.repo.name *)
  repo_type : string;               (* repo.repo.repo_type *)
  repo_href : string;
  remote_href : option string;
  remote_feed : option string;
  distribution_href : option string;
  repo_sync_health_id : option Z;
  repo_sync_health_date : option Z
}.

(** [@property repo_sync_health] *)
Definition repo_sync_health (r : t) : result (option string) :=
  match repo_sync_health_id r with
  | Some v =>
      match Enum.by_value RepoHealthStatus v with
      | Some n => Ok (Some n)
      | None => Raise (ValueError (pretty v +:+ " is not a valid RepoHealthStatus"))
      end
  | None => Ok None
  end.

(** [@repo_sync_health.setter] *)
Definition set_repo_sync_health (value : string) (r : t) : result t :=
  match Enum.by_name RepoHealthStatus (lower value) with
  | Some v =>
      Ok (mk (id r) (name r) (repo_type r) (repo_href r) (remote_href r)
             (remote_feed r) (distribution_href r) (Some v) (repo_sync_health_date r))
  | None => Raise (KeyError (lower value))
  end.

Definition set_repo_sync_health_date (v : Z) (r : t) : t :=
  mk (id r) (name r) (repo_type r) (repo_href r) (remote_href r)
     (remote_feed r) (distribution_href r) (repo_sync_health_id r) (Some v).

End PulpServerRepo.

(** [class PulpServer]; its [repos] relationship is the [repos] table of
    the database below (one server per controller instance). *)
Module PulpServer.

Record t : Type := mk {
  name : string;
  snapshot_supported : option bool;
  max_concurrent_snapshots : option Z;
  repo_sync_health_rollup_id : option Z;
  repo_sync_health_rollup_date : option Z
}.

(** [@property repo_sync_health_rollup] *)
Definition repo_sync_health_rollup (p : t) : result (option string) :=
  match repo_sync_health_rollup_id p with
  | Some v =>
      match Enum.by_value RepoHealthStatus v with
      | Some n => Ok (Some n)
      | None => Raise (ValueError (pretty v +:+ " is not a valid RepoHealthStatus"))
      end
  | None => Ok None
  end.

(** [@repo_sync_health_rollup.setter] *)
Definition set_repo_sync_health_rollup (value : string) (p : t) : result t :=
  match Enum.by_name RepoHealthStatus (lower value) with
  | Some v =>
      Ok (mk (name p) (snapshot_supported p) (max_concurrent_snapshots p)
             (Some v) (repo_sync_health_rollup_date p))
  | None => Raise (KeyError (lower value))
  end.

Definition set_repo_sync_health_rollup_date (v : Z) (p : t) : t :=
  mk (name p) (snapshot_supported p) (max_concurrent_snapshots p)
     (repo_sync_health_rollup_id p) (Some v).

End PulpServer.

(** [class PulpServerRepoTask]: the association row and its creation date. *)
Module PulpServerRepoTask.

Record t : Type := mk {
  pulp_server_repo_id : Z;
  task_id : Z;
  date_created : Z
}.

End PulpServerRepoTask.

(** ** The database session *)
Module Db.

Record t : Type := mk {
  tasks : gmap Z Task.t;
  next_task_id : Z;
  task_stages : list TaskStage.t;
  pulp_server : PulpServer.t;
  repos : list PulpServerRepo.t;               (* pulp_server.repos *)
  pulp_server_repo_tasks : list PulpServerRepoTask.t
}.

Definition with_tasks (v : gmap Z Task.t) (d : t) : t :=
  mk v (next_task_id d) (task_stages d) (pulp_server d) (repos d) (pulp_server_repo_tasks d).

Definition with_next_task_id (v : Z) (d : t) : t :=
  mk (tasks d) v (task_stages d) (pulp_server d) (repos d) (pulp_server_repo_tasks d).

Definition with_task_stages (v : list TaskStage.t) (d : t) : t :=
  mk (tasks d) (next_task_id d) v (pulp_server d) (repos d) (pulp_server_repo_tasks d).

Definition with_pulp_server (v : PulpServer.t) (d : t) : t :=
  mk (tasks d) (next_task_id d) (task_stages d) v (repos d) (pulp_server_repo_tasks d).

Definition with_repos (v : list PulpServerRepo.t) (d : t) : t :=
  mk (tasks d) (next_task_id d) (task_stages d) (pulp_server d) v (pulp_server_repo_tasks d).

Definition with_pulp_server_repo_tasks (v : list PulpServerRepoTask.t) (d : t) : t :=
  mk (tasks d) (next_task_id d) (task_stages d) (pulp_server d) (repos d) v.

(** [task.stages]: the stages of a task in creation order. *)
Definition stages_of (task_id : Z) (d : t) : list TaskStage.t :=
  List.filter (fun s => Z.eqb (TaskStage.task_id s) task_id) (task_stages d).

End Db.

(** One request sent to the Pulp server. *)
Inductive call : Type :=
| CallGet (href : string)
| CallGetAllPublications (repository_version : string)
| CallListContent (repository_version : string)
| CallSync (repo_href : string)
| CallModify (repo_href base_version : string) (remove_content_units : list string)
| CallPublish (repository_version repo_type : string) (is_flat_repo : bool)
| CallDelete (href : string)
| CallReconcile (pulp_server : string)
| CallAddReposFrom (source_pulp_server : string).

Module Session.

Record t : Type := mk {
  db : Db.t;            (* rows as the open transaction sees them *)
  committed : Db.t;     (* rows as last committed *)
  calls : list call     (* requests sent to the Pulp server so far, oldest first *)
}.

Definition with_db (v : Db.t) (s : t) : t := mk v (committed s) (calls s).

Definition open (d : Db.t) : t := mk d d [].

End Session.

(** ** Stateful, fallible computations over the session

    An exception leaves the session as the raising statement left it, so
    that [except] blocks and callers carry on from there. *)
Definition M (A : Type) : Type := Session.t -> Session.t * result A.

Definition ret {A : Type} (a : A) : M A := fun s => (s, Ok a).

Definition raise {A : Type} (e : exn) : M A := fun s => (s, Raise e).

Definition bind {A B : Type} (m : M A) (k : A -> M B) : M B :=
  fun s =>
    match m s with
    | (s', Ok a) => k a s'
    | (s', Raise e) => (s', Raise e)
    end.

Notation "x <- m ;; k" := (bind m (fun x => k))
  (at level 20, m at level 99, k at level 200, only parsing).
Notation "m ;;; k" := (bind m (fun _ => k))
  (at level 100, k at level 200, only parsing, right associativity).

(** [try: body  except Exception: handler] *)
Definition try_except {A : Type} (body : M A) (handler : exn -> M A) : M A :=
  fun s =>
    match body s with
    | (s', Ok a) => (s', Ok a)
    | (s', Raise e) => handler e s'
    end.

Definition lift {A : Type} (r : result A) : M A := fun s => (s, r).

Definition get_db : M Db.t := fun s => (s, Ok (Session.db s)).

Definition modify_db (f : Db.t -> Db.t) : M unit :=
  fun s => (Session.with_db (f (Session.db s)) s, Ok tt).

(** [db.commit()] *)
Definition commit : M unit :=
  fun s => (Session.mk (Session.db s) (Session.db s) (Session.calls s), Ok tt).

(** [db.rollback()], and what [db.close()] does to an open transaction. *)
Definition rollback : M unit :=
  fun s => (Session.mk (Session.committed s) (Session.committed s) (Session.calls s), Ok tt).

(** The number of requests sent so far: the backend's clock. *)
Definition tick : M nat := fun s => (s, Ok (length (Session.calls s))).

Definition send (c : call) : M unit :=
  fun s => (Session.mk (Session.db s) (Session.committed s) (Session.calls s ++ [c]), Ok tt).

(** ** The entity store *)

(** Modelled from the spec: [repositories/table_repository.py], the
    [TableRepository] base class of every repository, is absent.  The
    entity store of section 4.1 offers [add], [update], [get_by_id] and
    [filter_paged] per entity; [update(entity, kwargs)] assigns each
    keyword to the attribute of that name, through the model's property
    setter where the name is a property ([state], [error], [detail],
    [repo_sync_health], ...), and leaves the commit to the caller. *)
Module TableRepository.

(** Modelled from the spec: the keyword arguments the callers pass to
    [TaskRepository.add] and [TaskRepository.update]. *)
Inductive task_kwarg : Type :=
| kw_task_type (v : pyval)
| kw_task_type_id (v : Z)
| kw_state (v : pyval)
| kw_state_id (v : Z)
| kw_date_started (v : Z)
| kw_date_finished (v : Z)
| kw_date_last_updated (v : Z)
| kw_worker_name (v : option string)
| kw_worker_job_id (v : option string)
| kw_task_args (v : json)
| kw_error (v : json)
| kw_unmapped (attr : string).      (* a name that is no column or property *)

(** Modelled from the spec: [setattr(task, key, value)] for one keyword. *)
Definition task_setattr (a : task_kwarg) (k : Task.t) : result Task.t :=
  match a with
  | kw_task_type v => Task.set_task_type v k
  | kw_task_type_id v => Ok (Task.with_task_type_id (Some v) k)
  | kw_state v => Task.set_state v k
  | kw_state_id v => Ok (Task.with_state_id (Some v) k)
  | kw_date_started v => Ok (Task.with_date_started (Some v) k)
  | kw_date_finished v => Ok (Task.with_date_finished (Some v) k)
  | kw_date_last_updated v => Ok (Task.with_date_last_updated (Some v) k)
  | kw_worker_name v => Ok (Task.with_worker_name v k)
  | kw_worker_job_id v => Ok (Task.with_worker_job_id v k)
  | kw_task_args v => Ok (Task.set_task_args v k)
  | kw_error v => Ok (Task.set_error v k)
  | kw_unmapped _ => Ok k
  end.

(** Modelled from the spec: the keywords are assigned in order. *)
Fixpoint task_setattrs (kwargs : list task_kwarg) (k : Task.t) : result Task.t :=
  match kwargs with
  | [] => Ok k
  | a :: rest => let* k' := task_setattr a k in task_setattrs rest k'
  end.

(** Modelled from the spec: [TaskRepository.get_by_id]. *)
Definition task_get_by_id (task_id : Z) : M (option Task.t) :=
  d <- get_db ;; ret (Db.tasks d !! task_id).

(** Modelled from the spec: [TaskRepository.update(task, kwargs)], the
    task given by its id. *)
Definition task_update (task_id : Z) (kwargs : list task_kwarg) : M unit :=
  d <- get_db ;;
  match Db.tasks d !! task_id with
  | None => raise (AttributeError "'NoneType' object has no attribute")
  | Some k =>
      k' <- lift (task_setattrs kwargs k) ;;
      modify_db (Db.with_tasks (<[task_id := k']> (Db.tasks d)))
  end.

(** Modelled from the spec: [TaskRepository.add(kwargs)]; the new row
    gets the next id and the keywords are applied to an empty row. *)
Definition task_add (name : string) (parent_task_id : option Z)
    (kwargs : list task_kwarg) : M Task.t :=
  d <- get_db ;;
  let new_id := Db.next_task_id d in
  let blank := Task.mk new_id name parent_task_id None None None None None
                       None None None None in
  k <- lift (task_setattrs kwargs blank) ;;
  modify_db (fun d => Db.with_next_task_id (new_id + 1)
                        (Db.with_tasks (<[new_id := k]> (Db.tasks d)) d)) ;;;
  ret k.

(** Modelled from the spec: [TaskStageRepository.add(kwargs)]; returns
    the new stage's id. *)
Definition task_stage_add (name : string) (task_id : Z)
    (detail : option json) (error : option json) : M nat :=
  d <- get_db ;;
  let sid := length (Db.task_stages d) in
  let row := TaskStage.mk sid task_id name detail error None in
  modify_db (Db.with_task_stages (Db.task_stages d ++ [row])) ;;;
  ret sid.

(** Modelled from the spec: [TaskStageRepository.update(stage, kwargs)]. *)
Definition task_stage_update (sid : nat) (kwargs : list TaskStage.kwarg) : M unit :=
  modify_db (fun d =>
    Db.with_task_stages
      (alter (fun s => fold_left (fun s a => TaskStage.setattr a s) kwargs s) sid
             (Db.task_stages d)) d).

(** Modelled from the spec: the stage object of an id, as the session
    holds it. *)
Definition task_stage_get (sid : nat) : M TaskStage.t :=
  d <- get_db ;;
  match Db.task_stages d !! sid with
  | Some s => ret s
  | None => raise (AttributeError "'NoneType' object has no attribute")
  end.

(** Modelled from the spec:
    [PulpServerRepoRepository.update(repo, repo_sync_health=value)] and
    [update(repo, repo_sync_health_date=value)], the repo given by its id. *)
Fixpoint repos_set_health (repo_id : Z) (value : string) (rows : list PulpServerRepo.t)
    : result (list PulpServerRepo.t) :=
  match rows with
  | [] => Ok []
  | r :: rest =>
      let* r' := (if Z.eqb (PulpServerRepo.id r) repo_id
                  then PulpServerRepo.set_repo_sync_health value r else Ok r) in
      let* rest' := repos_set_health repo_id value rest in
      Ok (r' :: rest')
  end.

(** Modelled from the spec: see [repos_set_health]. *)
Definition repo_update_health (repo_id : Z) (value : string) : M unit :=
  d <- get_db ;;
  rows <- lift (repos_set_health repo_id value (Db.repos d)) ;;
  modify_db (Db.with_repos rows).

(** Modelled from the spec: see [repos_set_health]. *)
Definition repo_update_health_date (repo_id : Z) (value : Z) : M unit :=
  modify_db (fun d =>
    Db.with_repos
      (List.map (fun r => if Z.eqb (PulpServerRepo.id r) repo_id
                          then PulpServerRepo.set_repo_sync_health_date value r else r)
                (Db.repos d)) d).

(** Modelled from the spec:
    [PulpServerRepoTaskRepository.filter_paged(page=1, page_size=n,
    eager=["task"], pulp_server_repo_id=repo_id, sort_by="date_created",
    order_by="desc")] returns the links of the repo, newest first, cut to
    one page (section 4.1: equality filter, [sort_by], [order_by]). *)
Fixpoint insert_desc (x : PulpServerRepoTask.t) (sorted : list PulpServerRepoTask.t)
    : list PulpServerRepoTask.t :=
  match sorted with
  | [] => [x]
  | y :: rest =>
      if Z.ltb (PulpServerRepoTask.date_created y) (PulpServerRepoTask.date_created x)
      then x :: sorted
      else y :: insert_desc x rest
  end.

(** Modelled from the spec: [order_by="desc"] on [date_created]. *)
Definition sort_desc (rows : list PulpServerRepoTask.t) : list PulpServerRepoTask.t :=
  fold_left (fun sorted x => insert_desc x sorted) rows [].

(** Modelled from the spec: the first page of [page_size] links. *)
Definition repo_tasks_filter_paged (page_size : nat) (repo_id : Z)
    : M (list PulpServerRepoTask.t) :=
  d <- get_db ;;
  ret (firstn page_size
         (sort_desc
            (List.filter (fun l => Z.eqb (PulpServerRepoTask.pulp_server_repo_id l) repo_id)
                         (Db.pulp_server_repo_tasks d)))).

(** Modelled from the spec:
    [PulpServerRepository.update(server, repo_sync_health_rollup=value)]. *)
Definition server_update_rollup (value : string) : M unit :=
  d <- get_db ;;
  p <- lift (PulpServer.set_repo_sync_health_rollup value (Db.pulp_server d)) ;;
  modify_db (Db.with_pulp_server p).

(** Modelled from the spec:
    [PulpServerRepository.update(server, repo_sync_health_rollup_date=value)]. *)
Definition server_update_rollup_date (value : Z) : M unit :=
  modify_db (fun d =>
    Db.with_pulp_server (PulpServer.set_repo_sync_health_rollup_date value (Db.pulp_server d)) d).

End TableRepository.

(** ** [services/task_service.py] *)
Module TaskService.

(** [class TaskUpdateInfo(TypedDict, total=False)]: every key may be
    absent; [new_state] holds the [value] of a [TaskState] member. *)
Record TaskUpdateInfo : Type := mkUpdate {
  new_state : option Z;
  worker_name : option (option string);
  worker_job_id : option (option string);
  task_args : option json
}.

(** [TaskService.update_task] *)
Definition update_task (task_id : Z) (task_updates : TaskUpdateInfo) : M (option Task.t) :=
  task <- TableRepository.task_get_by_id task_id ;;
  match task with
  | None => ret None
  | Some task =>
      try_except
        (st <- match new_state task_updates with
               | Some v => ret v
               | None => raise (KeyError "new_state")
               end ;;
         let update_data :=
           [ TableRepository.kw_state (PyInt st);
             TableRepository.kw_worker_name
               (default (Task.worker_name task) (worker_name task_updates));
             TableRepository.kw_worker_job_id
               (default (Task.worker_job_id task) (worker_job_id task_updates));
             TableRepository.kw_task_args
               (default ∅ (task_args task_updates) ∪ Task.task_args task) ] in
         TableRepository.task_update task_id update_data ;;;
         commit ;;;
         TableRepository.task_get_by_id task_id)
        (fun e => rollback ;;; raise e)
  end.

(** [TaskService.complete_task] *)
Definition complete_task (now : Z) (task_id : Z) : M (option Task.t) :=
  task <- TableRepository.task_get_by_id task_id ;;
  match task with
  | Some _ =>
      TableRepository.task_update task_id [TableRepository.kw_state (PyInt 3)] ;;;
      TableRepository.task_update task_id [TableRepository.kw_date_finished now] ;;;
      try_except
        (commit ;;; TableRepository.task_get_by_id task_id)
        (fun e => rollback ;;; raise e)
  | None => ret None
  end.

End TaskService.

(** ** The href patterns of the bindings and helpers

    The source matches hrefs against fixed patterns made of a literal
    prefix and segments [([a-z]+)/].  A greedy run of lower-case letters
    followed by a slash matches in one way only, so the match is a plain
    scan. *)
Definition is_lower (c : ascii) : bool :=
  let n := nat_of_ascii c in (Nat.leb 97 n && Nat.leb n 122)%bool.

(** The longest run of [a-z] at the head of [s], and what follows it. *)
Fixpoint span_lower (s : string) : string * string :=
  match s with
  | String c rest =>
      if is_lower c then let (run, tail) := span_lower rest in (String c run, tail)
      else (EmptyString, s)
  | EmptyString => (EmptyString, EmptyString)
  end.

(** [s] with the literal [p] removed from its head. *)
Fixpoint strip_prefix (p s : string) : option string :=
  match p, s with
  | EmptyString, _ => Some s
  | String a p', String b s' => if Ascii.eqb a b then strip_prefix p' s' else None
  | String _ _, EmptyString => None
  end.

(** One segment [([a-z]+)/]: the captured letters and the rest. *)
Definition type_segment (s : string) : option (string * string) :=
  match span_lower s with
  | (EmptyString, _) => None
  | (run, String "/" tail) => Some (run, tail)
  | (_, _) => None
  end.

(** [re.match(prefix + '([a-z]+)/', href).groups()[0]] *)
Definition href_type (prefix href : string) : option string :=
  tail ← strip_prefix prefix href;
  fst <$> type_segment tail.

(** ** The Pulp server as seen through [pulp3_bindings] *)
Module Pulp.

(** [pulp3.resources.Task] *)
Record Task : Type := mkTask {
  task_href : string;
  task_state : string;
  created_resources : list string
}.

(** [pulp3.resources.Repository]; [repo_class] is the type segment that
    selected the class: [DebRepository] is ["deb"]. *)
Record Repository : Type := mkRepository {
  repo_class : string;
  repo_pulp_href : string;
  repo_name : string;
  latest_version_href : string;
  repo_remote : option string
}.

(** [pulp3.resources.Remote]; [distributions] is a field of [DebRemote]. *)
Record Remote : Type := mkRemote {
  remote_class : string;
  remote_pulp_href : string;
  url : string;
  distributions : option string
}.

(** [DebRemote.is_flat_repo]; other remote classes have no such property. *)
Definition is_flat_repo (r : Remote) : result bool :=
  if String.eqb (remote_class r) "deb"
  then Ok (bool_decide (distributions r = Some "/"))
  else Raise (AttributeError "object has no attribute 'is_flat_repo'").

(** What the server answers.  Every answer may depend on the number of
    requests it has seen before (its clock), so that polling the same
    href twice can give two states.  [server_repo] and [server_remote]
    give the JSON fields; the class is chosen from the href. *)
Record Backend : Type := mkBackend {
  server_task : nat -> string -> result Task;
  server_repo : nat -> string -> result Repository;
  server_remote : nat -> string -> result Remote;
  server_publications : nat -> string -> result (list string);
  server_banned_content : nat -> string -> result (list string);
  server_sync : nat -> string -> result Task;
  server_modify : nat -> string -> string -> list string -> result Task;
  server_publish : nat -> string -> string -> bool -> result Task;
  server_delete : nat -> string -> result Task;
  server_reconcile : nat -> string -> result (list PulpServerRepo.t);
  server_add_repos_from : nat -> string -> result (list PulpServerRepo.t)
}.

Section Bindings.
Context (be : Backend).

Definition request {A : Type} (c : call) (answer : nat -> result A) : M A :=
  n <- tick ;; send c ;;; lift (answer n).

(** [pulp3.tasks.get_task] *)
Definition get_task (href : string) : M Task :=
  if contains "tasks" href
  then request (CallGet href) (fun n => server_task be n href)
  else raise (PulpV3InvalidTypeError "href is not valid for a task").

Definition repo_types : list string := ["file"; "rpm"; "deb"; "python"; "container"].

(** [pulp3.repositories.get_repo] *)
Definition get_repo (href : string) : M Repository :=
  match href_type "/pulp/api/v3/repositories/" href with
  | Some repo_type =>
      if existsb (String.eqb repo_type) repo_types then
        r <- request (CallGet href) (fun n => server_repo be n href) ;;
        ret (mkRepository repo_type (repo_pulp_href r) (repo_name r)
                          (latest_version_href r) (repo_remote r))
      else raise (PulpV3InvalidArgumentError "Client does not support given repo type")
  | None =>
      raise (PulpV3InvalidArgumentError "Unable to identify repository type for href")
  end.

(** [pulp3.remotes.get_remote]; an absent href ([None]) is no string. *)
Definition get_remote (href : option string) : M Remote :=
  match href with
  | None => raise (TypeError "argument of type 'NoneType' is not iterable")
  | Some href =>
      if negb (contains "/remotes/" href)
      then raise (PulpV3InvalidArgumentError "href is not to a remote")
      else
        match href_type "/pulp/api/v3/remotes/" href with
        | Some remote_type =>
            if existsb (String.eqb remote_type) repo_types then
              r <- request (CallGet href) (fun n => server_remote be n href) ;;
              ret (mkRemote remote_type (remote_pulp_href r) (url r) (distributions r))
            else raise (PulpV3InvalidArgumentError "Client does not support given remote type")
        | None => raise (PulpV3InvalidArgumentError "href did not match pattern")
        end
  end.

(** [pulp3.publications.get_all_publications(client,
    params={"repository_version": version})] *)
Definition get_all_publications (version : string) : M (list string) :=
  request (CallGetAllPublications version) (fun n => server_publications be n version).

(** [pulp3.repositories.sync_repo] *)
Definition sync_repo (repo : Repository) : M Task :=
  request (CallSync (repo_pulp_href repo)) (fun n => server_sync be n (repo_pulp_href repo)).

(** [pulp3.repositories.modify_repo(client, repo, base_version,
    remove_content_units=units)] *)
Definition modify_repo (repo : Repository) (base_version : string)
    (remove_content_units : list string) : M Task :=
  match href_type "/pulp/api/v3/repositories/" (repo_pulp_href repo) with
  | Some repo_type =>
      if negb (existsb (String.eqb repo_type) ["file"; "rpm"; "deb"; "python"])
      then raise (PulpV3InvalidArgumentError
                    "The client currently only supports modify on repos of type file, rpm, deb, python")
      else
        match remove_content_units with
        | [] => raise (PulpV3InvalidArgumentError
                         "At least one of add_content_units or remove_content_units must be specified")
        | _ =>
            request (CallModify (repo_pulp_href repo) base_version remove_content_units)
                    (fun n => server_modify be n (repo_pulp_href repo) base_version
                                            remove_content_units)
        end
  | None => raise (PulpV3InvalidArgumentError "Invalid href given")
  end.

(** Modelled from the spec: [services/pulp_manager.py] is absent.
    [PulpManager.create_publication_from_repo_version(version, repo_type,
    is_flat_repo)] asks the server for a publication of that repository
    version (section 4.6, publish stage) and returns the server's task. *)
Definition create_publication_from_repo_version
    (version repo_type : string) (is_flat : bool) : M Task :=
  request (CallPublish version repo_type is_flat)
          (fun n => server_publish be n version repo_type is_flat).

(** Modelled from the spec: [services/reconciler.py] is absent.
    [PulpReconciler.reconcile()] fetches the server's remotes,
    repositories and distributions and rebuilds the local rows of
    [pulp_server.repos] from them (section 4.5). *)
Definition reconcile : M unit :=
  d <- get_db ;;
  let server_name := PulpServer.name (Db.pulp_server d) in
  rows <- request (CallReconcile server_name) (fun n => server_reconcile be n server_name) ;;
  modify_db (Db.with_repos rows) ;;;
  commit.

(** Modelled from the spec: [services/pulp_manager.py] is absent.
    [PulpManager.add_repos_from_pulp_server(source, include, exclude)]
    imports the repos missing on this server from the source server and
    creates their local rows (section 4.6, setup step 2). *)
Definition add_repos_from_pulp_server (source : string) : M unit :=
  rows <- request (CallAddReposFrom source) (fun n => server_add_repos_from be n source) ;;
  modify_db (fun d => Db.with_repos (Db.repos d ++ rows) d) ;;;
  commit.

End Bindings.
End Pulp.

(** ** [services/pulp_helpers.py] *)

(** Python's [re] on the regexes the callers pass in: [re_search p s] says
    whether [re.search(p, s)] finds a match, [re_match p s] whether
    [re.match(p, s)] does. *)
Class PyRe : Type := {
  re_search : string -> string -> bool;
  re_match : string -> string -> bool
}.

(** [re] restricted to patterns without metacharacters other than a
    leading [^]: searching is substring search, matching is a prefix test. *)
Definition literal_re : PyRe :=
  {| re_search p s :=
       match p with
       | String "^" p' => String.prefix p' s
       | _ => contains p s
       end;
     re_match p s :=
       match p with
       | String "^" p' => String.prefix p' s
       | _ => String.prefix p s
       end |}.

Module PulpHelpers.

(** [get_repo_type_from_href] *)
Definition get_repo_type_from_href (pulp_href : string) : result string :=
  match (tail ← strip_prefix "/pulp/api/v3/" pulp_href;
         '(_, tail') ← type_segment tail;
         fst <$> type_segment tail') with
  | Some repo_type => Ok repo_type
  | None =>
      Raise (PulpManagerValueError
               ("repo type could not be determined from pulp_href " +:+ pulp_href))
  end.

(** [x is None] *)
Definition is_none {A : Type} (x : option A) : bool :=
  match x with None => true | Some _ => false end.

(** Truth value of an optional string: [None] and the empty string are false. *)
Definition truthy (s : option string) : bool :=
  match s with
  | None => false
  | Some EmptyString => false
  | Some _ => true
  end.

Section Regex.
Context {re : PyRe}.

(** [regex and re.search(regex, name)] *)
Definition given_and_found (regex : option string) (name : string) : bool :=
  match regex with
  | Some p => truthy regex && re_search p name
  | None => false
  end.

(** [get_pulp_server_repos] over [pulp_server.repos] *)
Fixpoint get_pulp_server_repos (repos : list PulpServerRepo.t)
    (regex_include regex_exclude : option string) (exclude_no_remote : bool)
    : list PulpServerRepo.t :=
  match repos with
  | [] => []
  | repo :: rest =>
      let more := get_pulp_server_repos rest regex_include regex_exclude exclude_no_remote in
      if exclude_no_remote && is_none (PulpServerRepo.remote_feed repo) then more
      else
        let repo_name := PulpServerRepo.name repo in
        if given_and_found regex_exclude repo_name then more
        else if truthy regex_include && negb (given_and_found regex_include repo_name) then more
        else if given_and_found regex_include repo_name then repo :: more
        else repo :: more
  end.

End Regex.
End PulpHelpers.

(** [s.split(",")] *)
Fixpoint split_comma_from (acc : string) (s : string) : list string :=
  match s with
  | EmptyString => [acc]
  | String c rest =>
      if Ascii.eqb c "," then acc :: split_comma_from EmptyString rest
      else split_comma_from (acc +:+ String c EmptyString) rest
  end.

Definition split_comma (s : string) : list string := split_comma_from EmptyString s.

(** [traceback.format_exc()] inside an [except] block: the text of the
    traceback, which ends with the exception's message. *)
Definition format_exc (e : exn) : string :=
  "Traceback (most recent call last): " +:+ exn_str e.

(** [task.task_args[key]] *)
Definition task_arg (task_id : Z) (key : string) : M string :=
  task <- TableRepository.task_get_by_id task_id ;;
  match task with
  | Some k =>
      match Task.task_args k !! key with
      | Some v => ret v
      | None => raise (KeyError key)
      end
  | None => raise (AttributeError "'NoneType' object has no attribute 'task_args'")
  end.

(** [stage.detail[key]] *)
Definition stage_detail (stage : TaskStage.t) (key : string) : M string :=
  match TaskStage.detail stage !! key with
  | Some v => ret v
  | None => raise (KeyError key)
  end.

(** ** [services/repo_syncher.py] *)
Module RepoSyncher.

Definition SYNC_STAGE_NAME : string := "sync repo".
Definition REMOVE_BANNED_PACKAGES_STAGE_NAME : string := "remove banned packages".
Definition PUBLISH_STAGE_NAME : string := "publish repo".

Section Controller.
Context {re : PyRe} (be : Pulp.Backend).
(** [CONFIG["pulp"]["internal_domains"]], [socket.gethostname()] and the
    id of the running rq job. *)
Context (internal_domains : string) (hostname : string) (job_id : option string).

(** [_get_repos_to_sync] *)
Definition _get_repos_to_sync (regex_include regex_exclude : option string)
    : M (list PulpServerRepo.t) :=
  d <- get_db ;;
  ret (PulpHelpers.get_pulp_server_repos (Db.repos d) regex_include regex_exclude true).

(** [_start_sync]; returns the id of the new stage. *)
Definition _start_sync (now : Z) (task_id : Z) : M nat :=
  task_stage <- TableRepository.task_stage_add SYNC_STAGE_NAME task_id None None ;;
  try_except
    (repo_href <- task_arg task_id "repo_href" ;;
     pulp_repo <- Pulp.get_repo be repo_href ;;
     pulp_sync_task <- Pulp.sync_repo be pulp_repo ;;
     commit ;;;
     TableRepository.task_stage_update task_stage
       [TaskStage.kw_detail
          {[ "msg" := SYNC_STAGE_NAME +:+ " in state " +:+ Pulp.task_state pulp_sync_task;
             "task_href" := Pulp.task_href pulp_sync_task ]}] ;;;
     TableRepository.task_update task_id
       [TableRepository.kw_state (PyStr "running"); TableRepository.kw_date_started now] ;;;
     commit ;;;
     ret task_stage)
    (fun e =>
       repo_href <- task_arg task_id "repo_href" ;;
       let message := "unexpected error occured starting repo sync  for repo " +:+ repo_href in
       let err : json := {[ "msg" := message; "detail" := format_exc e ]} in
       TableRepository.task_stage_update task_stage [TaskStage.kw_error err] ;;;
       TableRepository.task_update task_id
         [TableRepository.kw_state (PyStr "failed_to_start");
          TableRepository.kw_date_finished now;
          TableRepository.kw_error err] ;;;
       commit ;;;
       raise e).

(** [_find_packages_to_remove]: the content listing and the filter by
    [CONFIG["pulp"]["banned_package_regex"]] are taken together as one
    answer of the server, the hrefs of the packages of the latest
    repository version whose name matches the regex. *)
Definition _find_packages_to_remove (repo : Pulp.Repository) : M (list string) :=
  Pulp.request (CallListContent (Pulp.latest_version_href repo))
    (fun n => Pulp.server_banned_content be n (Pulp.latest_version_href repo)).

(** [_start_remove_banned_packages] *)
Definition _start_remove_banned_packages (task_id : Z) : M bool :=
  let on_error (task_stage : option nat) (e : exn) : M bool :=
    let err : json := {[ "msg" := "error occured trying to remove banned packages";
                         "detail" := format_exc e ]} in
    match task_stage with
    | None =>
        TableRepository.task_stage_add REMOVE_BANNED_PACKAGES_STAGE_NAME task_id None (Some err) ;;;
        commit ;;; raise e
    | Some sid =>
        TableRepository.task_stage_update sid [TaskStage.kw_error err] ;;;
        commit ;;; raise e
    end in
  found <- try_except
    (repo_href <- task_arg task_id "repo_href" ;;
     pulp_repo <- Pulp.get_repo be repo_href ;;
     pulp_remote <- Pulp.get_remote be (Pulp.repo_remote pulp_repo) ;;
     ret (pulp_repo, pulp_remote))
    (fun e => _ <- on_error None e ;; raise e) ;;
  let '(pulp_repo, pulp_remote) := found in
  if existsb (fun internal_domain => contains internal_domain (Pulp.url pulp_remote))
             (split_comma internal_domains)
  then
    TableRepository.task_stage_add REMOVE_BANNED_PACKAGES_STAGE_NAME task_id
      (Some {[ "msg" := "stage skipped for " +:+ Pulp.repo_name pulp_repo
                        +:+ " as url is in internal domain" ]}) None ;;;
    commit ;;;
    ret false
  else
    task_stage <- TableRepository.task_stage_add REMOVE_BANNED_PACKAGES_STAGE_NAME task_id
      (Some {[ "msg" := "check if any banned packages need to be removed" ]}) None ;;
    commit ;;;
    try_except
      (packages_to_remove <- _find_packages_to_remove pulp_repo ;;
       match packages_to_remove with
       | [] =>
           TableRepository.task_stage_update task_stage
             [TaskStage.kw_detail {[ "msg" := "stage skipped no packages to remove" ]}] ;;;
           commit ;;;
           ret false
       | _ =>
           pulp_task <- Pulp.modify_repo be pulp_repo (Pulp.latest_version_href pulp_repo)
                                         packages_to_remove ;;
           TableRepository.task_stage_update task_stage
             [TaskStage.kw_detail
                {[ "msg" := "removing " +:+ pretty (length packages_to_remove);
                   "task_href" := Pulp.task_href pulp_task ]}] ;;;
           commit ;;;
           ret true
       end)
      (on_error (Some task_stage)).

(** [_start_publication]; returns the id of the new stage. *)
Definition _start_publication (now : Z) (task_id : Z) : M nat :=
  let on_error (pulp_repo : option Pulp.Repository) (e : exn) : M nat :=
    repo_href <- task_arg task_id "repo_href" ;;
    let message :=
      match pulp_repo with
      | None => "failed to start publication for repo " +:+ repo_href
      | Some r => "failed to start publication for repo " +:+ Pulp.repo_name r
                  +:+ " with href " +:+ repo_href
      end in
    TableRepository.task_stage_add PUBLISH_STAGE_NAME task_id None
      (Some {[ "msg" := message; "detail" := format_exc e ]}) ;;;
    TableRepository.task_update task_id
      [TableRepository.kw_state (PyStr "failed"); TableRepository.kw_date_finished now] ;;;
    commit ;;;
    raise e in
  pulp_repo <- try_except
    (repo_href <- task_arg task_id "repo_href" ;; Pulp.get_repo be repo_href)
    (fun e => _ <- on_error None e ;; raise e) ;;
  try_except
    (repo_href <- task_arg task_id "repo_href" ;;
     repo_type <- lift (PulpHelpers.get_repo_type_from_href repo_href) ;;
     is_flat_repo <-
       (if PulpHelpers.truthy (Pulp.repo_remote pulp_repo) && String.eqb repo_type "deb"
        then pulp_remote <- Pulp.get_remote be (Pulp.repo_remote pulp_repo) ;;
             lift (Pulp.is_flat_repo pulp_remote)
        else ret false) ;;
     publication_task <- Pulp.create_publication_from_repo_version be
                           (Pulp.latest_version_href pulp_repo) repo_type is_flat_repo ;;
     task_stage <- TableRepository.task_stage_add PUBLISH_STAGE_NAME task_id
       (Some {[ "msg" := "task in state " +:+ Pulp.task_state publication_task;
                "task_href" := Pulp.task_href publication_task ]}) None ;;
     commit ;;;
     ret task_stage)
    (on_error (Some pulp_repo)).

(** [_publication_exists] *)
Definition _publication_exists (repo_href : string) : M bool :=
  repo <- Pulp.get_repo be repo_href ;;
  result <- Pulp.get_all_publications be (Pulp.latest_version_href repo) ;;
  match result with
  | [] => ret false
  | _ => ret true
  end.

(** The branch of [_progress_sync] taken when the polled task of the
    sync stage has completed (source lines 494 to 526). *)
Definition _progress_sync_after_sync (now : Z) (task_id : Z) (current_stage : nat)
    (pulp_task : Pulp.Task) : M bool :=
  try_except
    (let message :=
       match Pulp.created_resources pulp_task with
       | [] => "no new packages were synched "
       | created => "created resources: " +:+ join ", " created
       end in
     stage <- TableRepository.task_stage_get current_stage ;;
     let detail := <["msg" := message]> (TaskStage.detail stage) in
     TableRepository.task_stage_update current_stage [TaskStage.kw_detail detail] ;;;
     commit ;;;
     repo_href <- task_arg task_id "repo_href" ;;
     exists_ <- _publication_exists repo_href ;;
     if negb exists_ && negb (contains "/container/" repo_href)
     then
       started_package_removal <- _start_remove_banned_packages task_id ;;
       (if negb started_package_removal
        then _ <- _start_publication now task_id ;; ret false
        else ret false)
     else
       let detail' :=
         <["msg" := message +:+ " - no new publication required, "
                    +:+ "one exists for the current repo version, "
                    +:+ "or repo is of type container"]> detail in
       TableRepository.task_stage_update current_stage [TaskStage.kw_detail detail'] ;;;
       TableRepository.task_update task_id
         [TableRepository.kw_state (PyStr "completed"); TableRepository.kw_date_finished now] ;;;
       commit ;;;
       ret true)
    (fun _ => ret true).

(** [_progress_sync] *)
Definition _progress_sync (now : Z) (task_id : Z) (current_stage : nat) : M bool :=
  stage <- TableRepository.task_stage_get current_stage ;;
  let current_stage_name := TaskStage.name stage in
  polled <- try_except
    (task_href <- stage_detail stage "task_href" ;;
     pulp_task <- Pulp.get_task be task_href ;;
     ret (Some pulp_task))
    (fun e =>
       task_href <- stage_detail stage "task_href" ;;
       let message := "unexpected error retrieving task " +:+ task_href in
       TableRepository.task_stage_update current_stage
         [TaskStage.kw_error {[ "msg" := message; "detail" := format_exc e ]}] ;;;
       TableRepository.task_update task_id
         [TableRepository.kw_state (PyStr "failed"); TableRepository.kw_date_finished now] ;;;
       commit ;;;
       ret None) ;;
  match polled with
  | None => ret true
  | Some pulp_task =>
      let state := Pulp.task_state pulp_task in
      if negb (existsb (String.eqb state) ["running"; "waiting"]) then
        let message := current_stage_name +:+ " " +:+ state +:+ ". " in
        TableRepository.task_stage_update current_stage
          [TaskStage.kw_detail (<["msg" := message]> (TaskStage.detail stage))] ;;;
        if negb (String.eqb state "completed") then
          TableRepository.task_update task_id
            [TableRepository.kw_state (PyStr "failed"); TableRepository.kw_date_finished now] ;;;
          commit ;;;
          ret true
        else if String.eqb current_stage_name SYNC_STAGE_NAME then
          _progress_sync_after_sync now task_id current_stage pulp_task
        else if String.eqb current_stage_name REMOVE_BANNED_PACKAGES_STAGE_NAME then
          try_except
            (stage' <- TableRepository.task_stage_get current_stage ;;
             TableRepository.task_stage_update current_stage
               [TaskStage.kw_detail
                  (<["msg" := "banned packages removed successfully"]> (TaskStage.detail stage'))] ;;;
             _ <- _start_publication now task_id ;;
             ret false)
            (fun _ => ret true)
        else
          TableRepository.task_update task_id
            [TableRepository.kw_state
               (PyStr (if negb (String.eqb state "completed") then "failed" else "completed"));
             TableRepository.kw_date_finished now] ;;;
          commit ;;;
          ret true
      else
        TableRepository.task_stage_update current_stage [TaskStage.kw_date_last_updated now] ;;;
        TableRepository.task_update task_id [TableRepository.kw_date_last_updated now] ;;;
        commit ;;;
        ret false
  end.

(** *** The scheduler loop of [_do_sync_repos]

    [tasks_in_progress] maps task ids to task rows; rows are referred to
    by id, so the dict is the list of its keys in insertion order. *)
Definition dict_set (key : Z) (d : list Z) : list Z :=
  if existsb (Z.eqb key) d then d else d ++ [key].

(** [del d[key]] *)
Definition dict_del (key : Z) (d : list Z) : result (list Z) :=
  if existsb (Z.eqb key) d
  then Ok (List.filter (fun x => negb (Z.eqb x key)) d)
  else Raise (KeyError (pretty key)).

(** The inner [while]: tasks are popped from the end of the pending list
    until none is left or the dict holds [max_concurrent_syncs] of them.
    [rpending] is the pending list read from its end. *)
Fixpoint fill_rev (max_concurrent_syncs : Z) (rpending : list Z) (in_progress : list Z)
    : list Z * list Z :=
  match rpending with
  | [] => ([], in_progress)
  | task :: rest =>
      if Z.eqb (Z.of_nat (length in_progress)) max_concurrent_syncs
      then (rpending, in_progress)
      else fill_rev max_concurrent_syncs rest (dict_set task in_progress)
  end.

Definition fill (max_concurrent_syncs : Z) (pending in_progress : list Z)
    : list Z * list Z :=
  let (rpending, in_progress') := fill_rev max_concurrent_syncs (rev pending) in_progress in
  (rev rpending, in_progress').

(** The body of the [for] loop over the copy of the dict.  [task.stages]
    is loaded once, after [self._db.refresh(task)]; the session keeps
    loaded attributes across commits ([expire_on_commit=False]) and
    [_start_sync] adds its stage by [task_id], not through the
    relationship, so the second test of the pass still sees the stages as
    they were at the refresh: a pass either starts a child or progresses
    it. *)
Definition process_task (now : Z) (task_id : Z) (in_progress : list Z) : M (list Z) :=
  d <- get_db ;;
  let stages := Db.stages_of task_id d in
  in_progress1 <-
    (match stages with
     | [] =>
         try_except
           (_ <- _start_sync now task_id ;; ret in_progress)
           (fun _ => lift (dict_del task_id in_progress))
     | _ => ret in_progress
     end) ;;
  match last stages with
  | Some current_stage =>
      stages_complete <- _progress_sync now task_id (TaskStage.id current_stage) ;;
      if stages_complete then lift (dict_del task_id in_progress1)
      else
        TableRepository.task_stage_update (TaskStage.id current_stage)
          [TaskStage.kw_date_last_updated now] ;;;
        TableRepository.task_update task_id [TableRepository.kw_date_last_updated now] ;;;
        commit ;;;
        ret in_progress1
  | None => ret in_progress1
  end.

Fixpoint process_tasks (now : Z) (copy : list Z) (in_progress : list Z) : M (list Z) :=
  match copy with
  | [] => ret in_progress
  | task_id :: rest =>
      in_progress' <- process_task now task_id in_progress ;;
      process_tasks now rest in_progress'
  end.

(** [_update_overall_sync_status] *)
Definition _update_overall_sync_status (parent_task : Z)
    (num_syncs_in_progress num_syncs_completed total_num_syncs : Z) : M unit :=
  d <- get_db ;;
  match last (Db.stages_of parent_task d) with
  | None => raise (IndexError "list index out of range")
  | Some parent_task_stage =>
      let message := pretty num_syncs_in_progress +:+ " syncs in progress. "
                     +:+ pretty num_syncs_completed +:+ "/" +:+ pretty total_num_syncs
                     +:+ " syncs completed" in
      TableRepository.task_stage_update (TaskStage.id parent_task_stage)
        [TaskStage.kw_detail (<["msg" := message]> (TaskStage.detail parent_task_stage))] ;;;
      commit
  end.

Definition report_status (parent_task : Z) (total : nat) (pending in_progress : list Z)
    : M unit :=
  let total_z := Z.of_nat total in
  let busy := Z.of_nat (length pending) + Z.of_nat (length in_progress) in
  _update_overall_sync_status parent_task (Z.of_nat (length in_progress))
    (total_z - busy) total_z.

(** One pass of the outer [while] body. *)
Definition sync_round (now : Z) (parent_task : Z) (total : nat) (max_concurrent_syncs : Z)
    (st : list Z * list Z) : M (list Z * list Z) :=
  let (pending, in_progress) := fill max_concurrent_syncs (fst st) (snd st) in
  in_progress' <- process_tasks now in_progress in_progress ;;
  report_status parent_task total pending in_progress' ;;;
  ret (pending, in_progress').

(** [len(repo_tasks_pending) > 0 or len(tasks_in_progress) > 0] *)
Definition sync_busy (st : list Z * list Z) : bool :=
  negb (Nat.eqb (length (fst st)) 0) || negb (Nat.eqb (length (snd st)) 0).

(** The outer [while], cut after [rounds] passes: the result is the loop
    state at its exit, or the state after [rounds] passes when the loop
    is still busy then. *)
Fixpoint sync_loop (rounds : nat) (now : Z) (parent_task : Z) (total : nat)
    (max_concurrent_syncs : Z) (st : list Z * list Z) : M (list Z * list Z) :=
  match rounds with
  | O => ret st
  | S rounds' =>
      if sync_busy st then
        st' <- sync_round now parent_task total max_concurrent_syncs st ;;
        sync_loop rounds' now parent_task total max_concurrent_syncs st'
      else ret st
  end.

(** [_do_sync_repos]; [None] when the loop is still busy after [rounds]
    passes. *)
Definition _do_sync_repos (rounds : nat) (now : Z) (parent_task : Z) (repo_tasks : list Z)
    (max_concurrent_syncs : Z) : M (option unit) :=
  TableRepository.task_stage_add "sync repos" parent_task None None ;;;
  commit ;;;
  st <- sync_loop rounds now parent_task (length repo_tasks) max_concurrent_syncs
                  (repo_tasks, []) ;;
  if sync_busy st then ret None
  else
    report_status parent_task (length repo_tasks) (fst st) (snd st) ;;;
    commit ;;;
    ret (Some tt).

(** [_reconcile_repos] *)
Definition _reconcile_repos (task_id : Z) : M nat :=
  task_stage <- TableRepository.task_stage_add "reconcile repos" task_id
                  (Some {[ "msg" := "reconcile repos on pulp server" ]}) None ;;
  commit ;;;
  try_except
    (Pulp.reconcile be ;;;
     TableRepository.task_stage_update task_stage
       [TaskStage.kw_detail {[ "msg" := "reconcile completed successfully" ]}] ;;;
     commit ;;;
     ret task_stage)
    (fun e =>
       TableRepository.task_stage_update task_stage
         [TaskStage.kw_error {[ "msg" := "reconcile failed"; "detail" := format_exc e ]}] ;;;
       commit ;;;
       raise e).

(** [_generate_tasks]: one queued [repo_sync] task and one link per repo.
    [bulk_add] hands the new tasks back in the order of its argument. *)
Fixpoint add_repo_tasks (now : Z) (server_name : string) (parent_task : Z)
    (repos : list PulpServerRepo.t) : M (list Z) :=
  match repos with
  | [] => ret []
  | pulp_repo :: rest =>
      task <- TableRepository.task_add
        (server_name +:+ " repo sync " +:+ PulpServerRepo.name pulp_repo) (Some parent_task)
        [ TableRepository.kw_task_type_id 1;
          TableRepository.kw_state_id 1;
          TableRepository.kw_worker_name (Some hostname);
          TableRepository.kw_worker_job_id job_id;
          TableRepository.kw_task_args
            {[ "pulp_server_repo_id" := pretty (PulpServerRepo.id pulp_repo);
               "repo_href" := PulpServerRepo.repo_href pulp_repo ]} ] ;;
      modify_db (fun d =>
        Db.with_pulp_server_repo_tasks
          (Db.pulp_server_repo_tasks d
             ++ [PulpServerRepoTask.mk (PulpServerRepo.id pulp_repo) (Task.id task) now]) d) ;;;
      ids <- add_repo_tasks now server_name parent_task rest ;;
      ret (Task.id task :: ids)
  end.

Definition _generate_tasks (now : Z) (server_name : string) (repos : list PulpServerRepo.t)
    (parent_task : Z) : M (list Z) :=
  tasks <- add_repo_tasks now server_name parent_task repos ;;
  commit ;;;
  ret tasks.

(** *** Health *)

(** [sync.task.state] for the rows of one page. *)
Fixpoint sync_states (last_syncs : list PulpServerRepoTask.t) : M (list (option string)) :=
  match last_syncs with
  | [] => ret []
  | sync :: rest =>
      task <- TableRepository.task_get_by_id (PulpServerRepoTask.task_id sync) ;;
      match task with
      | None => raise (AttributeError "'NoneType' object has no attribute 'state'")
      | Some task =>
          st <- lift (Task.state task) ;;
          states <- sync_states rest ;;
          ret (st :: states)
      end
  end.

Definition is_completed (state : option string) : bool :=
  match state with
  | Some s => String.eqb s "completed"
  | None => false
  end.

(** The body of the [for repo in repos] loop of [_calculate_repo_health]. *)
Definition calculate_one_repo_health (now : Z) (health_stage : nat) (count total : nat)
    (repo : PulpServerRepo.t) : M unit :=
  last_syncs <- TableRepository.repo_tasks_filter_paged 5 (PulpServerRepo.id repo) ;;
  states <- sync_states last_syncs ;;
  let num_success := length (List.filter is_completed states) in
  let num_fail := length (List.filter (fun st => negb (is_completed st)) states) in
  match states with
  | [] => raise (IndexError "list index out of range")
  | first :: _ =>
      (if is_completed first
       then TableRepository.repo_update_health (PulpServerRepo.id repo) "green"
       else if Nat.leb num_fail 3 && Nat.ltb 0 num_success
       then TableRepository.repo_update_health (PulpServerRepo.id repo) "amber"
       else TableRepository.repo_update_health (PulpServerRepo.id repo) "red") ;;;
      TableRepository.repo_update_health_date (PulpServerRepo.id repo) now ;;;
      TableRepository.task_stage_update health_stage
        [TaskStage.kw_detail
           {[ "msg" := pretty count +:+ "/" +:+ pretty total +:+ " complete" ]}] ;;;
      commit
  end.

Fixpoint calculate_repos_health (now : Z) (health_stage : nat) (count total : nat)
    (repos : list PulpServerRepo.t) : M unit :=
  match repos with
  | [] => ret tt
  | repo :: rest =>
      calculate_one_repo_health now health_stage (S count) total repo ;;;
      calculate_repos_health now health_stage (S count) total rest
  end.

(** [_calculate_repo_health] *)
Definition _calculate_repo_health (now : Z) (task_id : Z) (repos : list PulpServerRepo.t)
    : M unit :=
  health_stage <- TableRepository.task_stage_add "calculate repo health" task_id
    (Some {[ "msg" := "0/" +:+ pretty (length repos) +:+ " complete" ]}) None ;;
  commit ;;;
  try_except
    (calculate_repos_health now health_stage 0 (length repos) repos)
    (fun e =>
       TableRepository.task_stage_update health_stage
         [TaskStage.kw_error
            {[ "msg" := "calculating repo health resulted in an unexpected error";
               "detail" := format_exc e ]}] ;;;
       commit ;;;
       raise e).

(** The counting loop of [_calculate_pulp_server_repo_health_rollup]:
    the numbers of green, amber and red repos. *)
Fixpoint count_health (repos : list PulpServerRepo.t) (green amber red : nat)
    : result (nat * nat * nat) :=
  match repos with
  | [] => Ok (green, amber, red)
  | repo :: rest =>
      let* health := PulpServerRepo.repo_sync_health repo in
      if bool_decide (health = Some "green") then count_health rest (S green) amber red
      else if bool_decide (health = Some "amber") then count_health rest green (S amber) red
      else count_health rest green amber (S red)
  end.

(** [_calculate_pulp_server_repo_health_rollup] *)
Definition _calculate_pulp_server_repo_health_rollup (now : Z) (task_id : Z) : M unit :=
  health_stage <- TableRepository.task_stage_add
    "calculate pulp server repo health roll up" task_id None None ;;
  commit ;;;
  try_except
    (d <- get_db ;;
     counts <- lift (count_health (Db.repos d) 0 0 0) ;;
     let '(green, amber, red) := counts in
     (if Nat.ltb 0 red then TableRepository.server_update_rollup "red"
      else if Nat.ltb 0 amber then TableRepository.server_update_rollup "amber"
      else TableRepository.server_update_rollup "green") ;;;
     TableRepository.server_update_rollup_date now ;;;
     commit)
    (fun e =>
       TableRepository.task_stage_update health_stage
         [TaskStage.kw_error
            {[ "msg" := "calculating pulp search repo sync health rollup unexpected error";
               "detail" := format_exc e ]}] ;;;
       commit ;;;
       raise e).

(** *** The entry point *)

(** [create_task_entry] *)
Definition create_task_entry (now : Z) (task_args : json) : M Task.t :=
  d <- get_db ;;
  let server_name := PulpServer.name (Db.pulp_server d) in
  task <- TableRepository.task_add ("repo sync " +:+ server_name) None
    ([ TableRepository.kw_task_type (PyStr "repo_group_sync");
       TableRepository.kw_task_args task_args ]
     ++ match job_id with
        | Some _ =>
            [ TableRepository.kw_date_started now;
              TableRepository.kw_state (PyStr "running");
              TableRepository.kw_worker_name (Some hostname);
              TableRepository.kw_worker_job_id job_id ]
        | None => [ TableRepository.kw_state (PyStr "queued") ]
        end) ;;
  commit ;;;
  ret task.

(** [_get_task_entry] *)
Definition _get_task_entry (now : Z) (task_id : Z) : M Task.t :=
  task <- TableRepository.task_get_by_id task_id ;;
  match task with
  | None =>
      raise (PulpManagerTaskNotFoundError ("task with id " +:+ pretty task_id +:+ " not found"))
  | Some _ =>
      TableRepository.task_update task_id
        [ TableRepository.kw_date_started now;
          TableRepository.kw_state (PyStr "running");
          TableRepository.kw_worker_name (Some hostname);
          TableRepository.kw_worker_job_id job_id ] ;;;
      commit ;;;
      task' <- TableRepository.task_get_by_id task_id ;;
      match task' with
      | Some k => ret k
      | None => raise (AttributeError "'NoneType' object has no attribute 'id'")
      end
  end.

(** [sync_repos]; [None] when the scheduler loop is still busy after
    [rounds] passes. *)
Definition sync_repos (rounds : nat) (now : Z) (max_concurrent_syncs : Z)
    (regex_include regex_exclude : option string) (source_pulp_server_name : option string)
    (task_args : json) (task_id : option Z) : M (option unit) :=
  task <- (match task_id with
           | None => create_task_entry now task_args
           | Some i => _get_task_entry now i
           end) ;;
  let task_id := Task.id task in
  try_except
    (match source_pulp_server_name with
     | Some source =>
         TableRepository.task_stage_add ("registering repos from " +:+ source) task_id
           None None ;;;
         commit ;;;
         Pulp.add_repos_from_pulp_server be source
     | None => ret tt
     end ;;;
     _reconcile_repos task_id ;;;
     repos_to_sync <- _get_repos_to_sync regex_include regex_exclude ;;
     d <- get_db ;;
     repo_tasks <- _generate_tasks now (PulpServer.name (Db.pulp_server d)) repos_to_sync
                                   task_id ;;
     done <- _do_sync_repos rounds now task_id (rev repo_tasks) max_concurrent_syncs ;;
     match done with
     | None => ret None
     | Some _ =>
         _calculate_repo_health now task_id repos_to_sync ;;;
         _calculate_pulp_server_repo_health_rollup now task_id ;;;
         TableRepository.task_update task_id
           [TableRepository.kw_state (PyStr "completed");
            TableRepository.kw_date_finished now] ;;;
         commit ;;;
         ret (Some tt)
     end)
    (fun e =>
       if is_task_not_found e then raise e
       else
         TableRepository.task_update task_id
           [ TableRepository.kw_state (PyStr "failed");
             TableRepository.kw_date_finished now;
             TableRepository.kw_error
               {[ "msg" := "unexpected error occured synching repos";
                  "detail" := format_exc e ]} ] ;;;
         commit ;;;
         raise e).

End Controller.
End RepoSyncher.

(** ** [services/snapshotter.py] *)
Module Snapshotter.

Definition SUPPORTED_FOR_SNAPSHOT : list string := ["rpm"; "deb"].

Section Controller.
Context {re : PyRe} (be : Pulp.Backend).
Context (hostname : string) (job_id : option string).
(** [_do_snapshot_repos] (source lines 338 to 413), the loop that copies
    and publishes the selected repos: the entry point below is studied
    for every behaviour of that loop. *)
Context (_do_snapshot_repos : Z -> string -> list PulpServerRepo.t -> M unit).

(** [_do_reconcile] *)
Definition _do_reconcile (task_id : Z) : M unit :=
  task_stage <- TableRepository.task_stage_add "reconcile repos" task_id
                  (Some {[ "msg" := "reconciling repos on pulp server" ]}) None ;;
  commit ;;;
  try_except
    (Pulp.reconcile be ;;;
     TableRepository.task_stage_update task_stage
       [TaskStage.kw_detail {[ "msg" := "completed repo reconcile" ]}] ;;;
     commit)
    (fun e =>
       TableRepository.task_stage_update task_stage
         [TaskStage.kw_error {[ "msg" := "failed to reconcile repos on pulp server";
                                "detail" := format_exc e ]}] ;;;
       commit ;;;
       raise e).

(** [_get_repos_for_snapshot] *)
Definition _get_repos_for_snapshot (task_id : Z) (regex_include regex_exclude : option string)
    : M (list PulpServerRepo.t) :=
  task_stage <- TableRepository.task_stage_add "find repos to snapshot" task_id
                  (Some {[ "msg" := "getting repos to snapshot" ]}) None ;;
  commit ;;;
  d <- get_db ;;
  let matching_repos :=
    PulpHelpers.get_pulp_server_repos (Db.repos d) regex_include regex_exclude true in
  let supported (repo : PulpServerRepo.t) :=
    existsb (String.eqb (PulpServerRepo.repo_type repo)) SUPPORTED_FOR_SNAPSHOT in
  let repos_to_snapshot := List.filter supported matching_repos in
  let repos_excluded :=
    List.map (fun repo => "repo.repo.name " +:+ PulpServerRepo.repo_type repo)
             (List.filter (fun repo => negb (supported repo)) matching_repos) in
  let message :=
    "there are " +:+ pretty (length repos_to_snapshot) +:+ " repos to snapshot. "
    +:+ match repos_excluded with
        | [] => EmptyString
        | _ => "The following repos will be excluded as not of a supported type: "
               +:+ join ", " repos_excluded
        end in
  TableRepository.task_stage_update task_stage [TaskStage.kw_detail {[ "msg" := message ]}] ;;;
  ret repos_to_snapshot.

(** [_snapshot_allowed] *)
Fixpoint snapshot_allowed_in (snapshot_prefix : string) (repos : list PulpServerRepo.t)
    : result unit :=
  match repos with
  | [] => Ok tt
  | repo :: rest =>
      if re_match ("^" +:+ snapshot_prefix) (PulpServerRepo.name repo)
      then Raise (PulpManagerSnapshotError
                    ("snapshots with prefix " +:+ snapshot_prefix +:+ " already exist"))
      else snapshot_allowed_in snapshot_prefix rest
  end.

Definition _snapshot_allowed (snapshot_prefix : string) : M unit :=
  d <- get_db ;;
  lift (snapshot_allowed_in snapshot_prefix (Db.repos d)).

(** The prefix as [snapshot_repos] uses it. *)
Definition normalise_prefix (snapshot_prefix : string) : string :=
  if negb (endswith snapshot_prefix "-") then snapshot_prefix +:+ "-" else snapshot_prefix.

(** [snapshot_repos] *)
Definition snapshot_repos (now : Z) (snapshot_prefix : string)
    (regex_include regex_exclude : option string) (task_id : option Z)
    (allow_snapshot_reuse : bool) (task_args : json) : M unit :=
  let snapshot_prefix := normalise_prefix snapshot_prefix in
  task_id <-
    (match task_id with
     | None =>
         d <- get_db ;;
         task <- TableRepository.task_add
           (PulpServer.name (Db.pulp_server d) +:+ " repo snapshot") None
           [ TableRepository.kw_task_type_id 3;
             TableRepository.kw_state_id 2;
             TableRepository.kw_date_started now;
             TableRepository.kw_worker_name (Some hostname);
             TableRepository.kw_worker_job_id job_id;
             TableRepository.kw_task_args task_args ] ;;
         commit ;;;
         ret (Task.id task)
     | Some i =>
         task <- TableRepository.task_get_by_id i ;;
         match task with
         | None =>
             raise (PulpManagerValueError ("task with ID " +:+ pretty i +:+ " not found"))
         | Some _ =>
             TableRepository.task_update i
               [ TableRepository.kw_state_id 2;
                 TableRepository.kw_date_started now;
                 TableRepository.kw_worker_job_id job_id;
                 TableRepository.kw_worker_name (Some hostname) ] ;;;
             commit ;;;
             ret i
         end
     end) ;;
  d <- get_db ;;
  if negb (bool_decide (PulpServer.snapshot_supported (Db.pulp_server d) = Some true))
  then raise (PulpManagerValueError
                ("pulp server " +:+ PulpServer.name (Db.pulp_server d)
                 +:+ " not supported for repo snapshots"))
  else
    try_except
      (_do_reconcile task_id ;;;
       (if negb allow_snapshot_reuse then _snapshot_allowed snapshot_prefix else ret tt) ;;;
       repos_to_snapshot <- _get_repos_for_snapshot task_id regex_include regex_exclude ;;
       _do_snapshot_repos task_id snapshot_prefix repos_to_snapshot)
      (fun e =>
         TableRepository.task_update task_id
           [ TableRepository.kw_state (PyStr "failed");
             TableRepository.kw_date_finished now;
             TableRepository.kw_error
               {[ "msg" := "failed to snapshot repos"; "detail" := format_exc e ]} ] ;;;
         commit ;;;
         raise e).

End Controller.
End Snapshotter.

(** ** [services/repo_remover.py] *)
Module RepoRemover.

Section Controller.
Context {re : PyRe} (be : Pulp.Backend).
Context (hostname : string) (job_id : option string).

(** [_get_repos_for_removal] *)
Definition _get_repos_for_removal (task_id : Z) (regex_include regex_exclude : option string)
    : M (list PulpServerRepo.t) :=
  let task_stage_name :=
    match job_id with
    | Some _ => "Getting Repos for Removal (Dry Run)"
    | None => "Getting Repos for Removal"
    end in
  task_stage <- TableRepository.task_stage_add task_stage_name task_id
    (Some {[ "msg" := "Getting repos for removal based on regex patterns" ]}) None ;;
  commit ;;;
  d <- get_db ;;
  let matching_repos :=
    PulpHelpers.get_pulp_server_repos (Db.repos d) regex_include regex_exclude false in
  match matching_repos with
  | [] => raise (PulpManagerValueError "No repositories found matching the regex pattern")
  | _ =>
      let message := "Found matching repositories: "
                     +:+ join ", " (List.map PulpServerRepo.name matching_repos) in
      TableRepository.task_stage_update task_stage [TaskStage.kw_detail {[ "msg" := message ]}] ;;;
      commit ;;;
      ret matching_repos
  end.

(** [pulp_helpers.delete_by_href_monitor]: the DELETE request and the
    wait for its task, which ends in the finished task or an error.  The
    whole exchange is one entry [CallDelete href] of the trace: the GETs
    by which [get_task] and [monitor_task] follow the deletion task are
    part of it and are not recorded one by one. *)
Definition delete_by_href_monitor (href : string) : M Pulp.Task :=
  Pulp.request (CallDelete href) (fun n => Pulp.server_delete be n href).

(** The removal of one repo: distribution, repository, remote. *)
Definition remove_one (repo : PulpServerRepo.t) : M unit :=
  match PulpServerRepo.distribution_href repo with
  | Some href => if PulpHelpers.truthy (Some href)
                 then _ <- delete_by_href_monitor href ;; ret tt else ret tt
  | None => ret tt
  end ;;;
  _ <- delete_by_href_monitor (PulpServerRepo.repo_href repo) ;;
  match PulpServerRepo.remote_href repo with
  | Some href => if PulpHelpers.truthy (Some href)
                 then _ <- delete_by_href_monitor href ;; ret tt else ret tt
  | None => ret tt
  end.

(** The [for repo in repos_to_remove] loop: successful and failed counts. *)
Fixpoint remove_each (repos : list PulpServerRepo.t) (successful failed : nat)
    : M (nat * nat) :=
  match repos with
  | [] => ret (successful, failed)
  | repo :: rest =>
      ok <- try_except (remove_one repo ;;; ret true) (fun _ => ret false) ;;
      if ok then remove_each rest (S successful) failed
      else remove_each rest successful (S failed)
  end.

(** [_remove_repos] *)
Definition _remove_repos (task_id : Z) (repos_to_remove : list PulpServerRepo.t)
    (dry_run : bool) : M unit :=
  match repos_to_remove with
  | [] => ret tt
  | _ =>
      let task_stage_name :=
        if dry_run then "Removing Repositories and their Distributions/Remotes (Dry Run)"
        else "Removing Repositories and their Distributions/Remotes" in
      task_stage <- TableRepository.task_stage_add task_stage_name task_id
        (Some {[ "msg" := "Preparing to remove " +:+ pretty (length repos_to_remove)
                          +:+ " repositories, distributions, and remotes." ]}) None ;;
      commit ;;;
      counts <- (if dry_run then ret (length repos_to_remove, O)
                 else remove_each repos_to_remove 0 0) ;;
      let '(successful_deletions, failed_deletions) := counts in
      let completion_msg :=
        "Completed removing repositories, distributions, and remotes. "
        +:+ "Successfully removed " +:+ pretty successful_deletions
        +:+ ", failed to remove " +:+ pretty failed_deletions
        +:+ (if dry_run then " (Dry Run)" else EmptyString) in
      TableRepository.task_stage_update task_stage
        [TaskStage.kw_detail {[ "msg" := completion_msg ]}] ;;;
      commit ;;;
      if negb dry_run && Nat.ltb 0 successful_deletions then Pulp.reconcile be else ret tt
  end.

(** [remove_repos] *)
Definition remove_repos (now : Z) (regex_include regex_exclude : option string)
    (dry_run : bool) (task_id : option Z) (task_args : json) : M unit :=
  if PulpHelpers.is_none regex_include && PulpHelpers.is_none regex_exclude
  then raise (ValueError "Must specify at least one of regex_include or regex_exclude")
  else
    task_id <-
      (match task_id with
       | None =>
           d <- get_db ;;
           task <- TableRepository.task_add
             (PulpServer.name (Db.pulp_server d) +:+ " repo removal") None
             [ TableRepository.kw_task_type_id 5;
               TableRepository.kw_state_id 2;
               TableRepository.kw_worker_name (Some hostname);
               TableRepository.kw_worker_job_id job_id;
               TableRepository.kw_task_args task_args ] ;;
           commit ;;;
           ret (Task.id task)
       | Some i =>
           task <- TableRepository.task_get_by_id i ;;
           match task with
           | None =>
               raise (PulpManagerValueError ("Task with ID " +:+ pretty i +:+ " not found"))
           | Some _ =>
               TableRepository.task_update i
                 [ TableRepository.kw_state_id 2;
                   TableRepository.kw_worker_job_id job_id;
                   TableRepository.kw_worker_name (Some hostname) ] ;;;
               commit ;;;
               ret i
           end
       end) ;;
    try_except
      (repos_to_remove <- _get_repos_for_removal task_id regex_include regex_exclude ;;
       _remove_repos task_id repos_to_remove dry_run ;;;
       TableRepository.task_update task_id
         [ TableRepository.kw_state_id 3; TableRepository.kw_date_finished now ] ;;;
       commit)
      (fun e =>
         TableRepository.task_update task_id
           [ TableRepository.kw_state (PyInt 4);
             TableRepository.kw_date_finished now;
             TableRepository.kw_error
               {[ "msg" := "Failed to remove repositories"; "detail" := format_exc e ]} ] ;;;
         raise e).

End Controller.
End RepoRemover.

(** [try: ... finally: db.close()] of the job functions in
    [pulp_manager/app/tasks]: closing the session drops what the open
    transaction has not committed. *)
Definition finally_close {A : Type} (job : M A) : M A :=
  fun s =>
    let (s', r) := job s in
    (fst (rollback s'), r).

(** ** [tasks/remove_content_task.py] *)
Module RemoveContentTask.

Section Job.
Context (be : Pulp.Backend).
Context (hostname : string) (job_id : option string).
(** [PulpManager(db, pulp_server_name)], the first step of the job that
    can fail or talk to the server.  [services/pulp_manager.py] is not
    among the sources, so the constructor is a parameter: the job is
    studied for every computation in its place. *)
Context (new_pulp_manager : M unit).

(** [while pulp_task.state in ["running", "waiting"]: sleep(10); ...]:
    the task is fetched again until it leaves those states; [None] when
    it has not left them after [polls] fetches. *)
Fixpoint poll (polls : nat) (stage : nat) (pulp_task : Pulp.Task) : M (option Pulp.Task) :=
  if existsb (String.eqb (Pulp.task_state pulp_task)) ["running"; "waiting"] then
    match polls with
    | O => ret None
    | S polls' =>
        pulp_task' <- Pulp.get_task be (Pulp.task_href pulp_task) ;;
        TableRepository.task_stage_update stage
          [TaskStage.kw_detail
             {[ "msg" := "task in state " +:+ Pulp.task_state pulp_task';
                "task_href" := Pulp.task_href pulp_task' +:+ " " ]}] ;;;
        commit ;;;
        poll polls' stage pulp_task'
    end
  else ret (Some pulp_task).

(** Source lines 121 to 172: what follows the completed modify task.
    [None] when the publication task is still running after [polls]
    fetches. *)
Definition publish_after_modify (polls : nat) (task_id : Z) (force_publish : bool)
    (pm_pulp_server_repo : PulpServerRepo.t) (pulp_repo : Pulp.Repository)
    (modify_pulp_task : Pulp.Task) : M (option unit) :=
  if Nat.eqb (length (Pulp.created_resources modify_pulp_task)) 0 && negb force_publish then
    TableRepository.task_stage_add
      "repo publication skipped as no new resources created from modify" task_id None None ;;;
    ret (Some tt)
  else
    is_flat_repo <-
      (if String.eqb (Pulp.repo_class pulp_repo) "deb"
       then pulp_remote <- Pulp.get_remote be (PulpServerRepo.remote_href pm_pulp_server_repo) ;;
            lift (Pulp.is_flat_repo pulp_remote)
       else ret false) ;;
    let repo_version_to_publish :=
      match Pulp.created_resources modify_pulp_task with
      | created :: _ => created
      | [] => Pulp.latest_version_href pulp_repo
      end in
    repo_type <- lift (PulpHelpers.get_repo_type_from_href (Pulp.repo_pulp_href pulp_repo)) ;;
    publication_pulp_task <- Pulp.create_publication_from_repo_version be
                               repo_version_to_publish repo_type is_flat_repo ;;
    publication_stage <- TableRepository.task_stage_add
      ("publishing repo version " +:+ repo_version_to_publish) task_id
      (Some {[ "msg" := "task in state " +:+ Pulp.task_state publication_pulp_task;
               "task_href" := Pulp.task_href publication_pulp_task +:+ " " ]}) None ;;
    commit ;;;
    polled <- poll polls publication_stage publication_pulp_task ;;
    match polled with
    | None => ret None
    | Some publication_pulp_task =>
        if negb (String.eqb (Pulp.task_state publication_pulp_task) "completed")
        then raise (PulpManagerPulpTaskError
                      ("publication task " +:+ Pulp.task_href publication_pulp_task
                       +:+ " failed"))
        else ret (Some tt)
    end.

(** The [try] block of [remove_repo_content] from the lookup of the task
    on, that is after the [PulpManager] has been constructed. *)
Definition remove_repo_content_body (polls : nat) (now : Z) (repo_name content_href : string)
    (task_id : Z) (force_publish : bool) : M (option unit) :=
  TableRepository.task_update task_id
    [ TableRepository.kw_state (PyStr "running");
      TableRepository.kw_date_started now;
      TableRepository.kw_worker_name (Some hostname);
      TableRepository.kw_worker_job_id job_id ] ;;;
  commit ;;;
  TableRepository.task_stage_add "finding repo on pulp server" task_id None None ;;;
  commit ;;;
  d <- get_db ;;
  match List.filter (fun r => String.eqb (PulpServerRepo.name r) repo_name) (Db.repos d) with
  | [] =>
      raise (PulpManagerEntityNotFoundError
               ("repo with name " +:+ repo_name +:+ " on pulp server "
                +:+ PulpServer.name (Db.pulp_server d) +:+ " not found"))
  | pm_pulp_server_repo :: _ =>
      modify_db (fun d =>
        Db.with_pulp_server_repo_tasks
          (Db.pulp_server_repo_tasks d
             ++ [PulpServerRepoTask.mk (PulpServerRepo.id pm_pulp_server_repo) task_id now]) d) ;;;
      pulp_repo <- Pulp.get_repo be (PulpServerRepo.repo_href pm_pulp_server_repo) ;;
      modify_pulp_task <- Pulp.modify_repo be pulp_repo (Pulp.latest_version_href pulp_repo)
                                           [content_href] ;;
      modify_stage <- TableRepository.task_stage_add "modifying repo content" task_id
        (Some {[ "msg" := "task in state " +:+ Pulp.task_state modify_pulp_task;
                 "task_href" := Pulp.task_href modify_pulp_task +:+ " " ]}) None ;;
      commit ;;;
      polled <- poll polls modify_stage modify_pulp_task ;;
      match polled with
      | None => ret None
      | Some modify_pulp_task =>
          if negb (String.eqb (Pulp.task_state modify_pulp_task) "completed")
          then raise (PulpManagerPulpTaskError
                        ("modify task " +:+ Pulp.task_href modify_pulp_task +:+ " failed"))
          else
            published <- publish_after_modify polls task_id force_publish pm_pulp_server_repo
                                              pulp_repo modify_pulp_task ;;
            match published with
            | None => ret None
            | Some _ =>
                TableRepository.task_update task_id
                  [ TableRepository.kw_state (PyStr "completed");
                    TableRepository.kw_date_finished now ] ;;;
                commit ;;;
                ret (Some tt)
            end
      end
  end.

(** [remove_repo_content].  When the constructor raises, [task] is
    still [None] in the handler, whose [task_crud.update(task, ...)] then
    fails itself. *)
Definition remove_repo_content (polls : nat) (now : Z) (repo_name content_href : string)
    (task_id : Z) (force_publish : bool) : M (option unit) :=
  finally_close
    (try_except new_pulp_manager
       (fun _ => raise (AttributeError "'NoneType' object has no attribute")) ;;;
     try_except
       (remove_repo_content_body polls now repo_name content_href task_id force_publish)
       (fun e =>
          TableRepository.task_update task_id
            [ TableRepository.kw_state (PyStr "failed");
              TableRepository.kw_date_finished now;
              TableRepository.kw_error
                (if is_pulp_task_error e then {[ "msg" := exn_str e ]}
                 else {[ "msg" := exn_str e; "detail" := format_exc e ]}) ] ;;;
          commit ;;;
          raise e)).

End Job.
End RemoveContentTask.

(** * Definitions used by the statements

    Sample rows and server answers on which properties are run, the
    observations made on a session, and the wording of the specification
    where a property compares the code with it. *)

Definition blank_task (task_id : Z) (state_id : Z) : Task.t :=
  Task.mk task_id "task" None (Some 1) None None None None (Some state_id) None None None.

Definition sample_server (snapshot_supported : option bool) : PulpServer.t :=
  PulpServer.mk "pulp1" snapshot_supported (Some 2) None None.

Definition sample_db (tasks : list Task.t) (repos : list PulpServerRepo.t)
    (snapshot_supported : option bool) : Db.t :=
  Db.mk (list_to_map (List.map (fun k => (Task.id k, k)) tasks))
        (1 + Z.of_nat (length tasks)) [] (sample_server snapshot_supported) repos [].

(** The state name a session has committed for a task. *)
Definition committed_state (s : Session.t) (task_id : Z) : option (result (option string)) :=
  Task.state <$> Db.tasks (Session.committed s) !! task_id.

Definition committed_date_finished (s : Session.t) (task_id : Z) : option (option Z) :=
  Task.date_finished <$> Db.tasks (Session.committed s) !! task_id.

(** The names of all stages, in creation order. *)
Definition stage_names (s : Session.t) : list string :=
  List.map TaskStage.name (Db.task_stages (Session.db s)).




(** The transition relation I1 as the specification words it, by state
    name: queued to running, canceled, failed_to_start or skipped;
    running to completed, failed or canceled; nothing leaves a terminal
    state. *)
Definition I1_legal (old new : string) : bool :=
  if String.eqb old "queued"
  then existsb (String.eqb new) ["running"; "canceled"; "failed_to_start"; "skipped"]
  else if String.eqb old "running"
  then existsb (String.eqb new) ["completed"; "failed"; "canceled"]
  else false.

(** A task that has completed, alone in its table. *)
Definition completed_task_session : Session.t :=
  Session.open (sample_db [blank_task 1 3] [] None).

Definition to_running : TaskService.TaskUpdateInfo :=
  TaskService.mkUpdate (Some 2) None None None.

(** A child task of a sync run, running, with its sync stage; the repo
    it syncs is given by its href. *)
Definition rpm_repo_href : string := "/pulp/api/v3/repositories/rpm/rpm/1/".
Definition rpm_remote_href : string := "/pulp/api/v3/remotes/rpm/rpm/1/".
Definition sync_task_href : string := "/pulp/api/v3/tasks/7/".

Definition child_task (repo_href : string) : Task.t :=
  Task.mk 1 "pulp1 repo sync ext-foo" (Some 10) (Some 1)
          (Some {[ "pulp_server_repo_id" := "1"; "repo_href" := repo_href ]})
          (Some 50) None None (Some 2) (Some "worker1") None None.

Definition sync_stage : TaskStage.t :=
  TaskStage.mk 0 1 RepoSyncher.SYNC_STAGE_NAME
    (Some {[ "msg" := "sync repo in state waiting"; "task_href" := sync_task_href ]})
    None None.

Definition child_session (repo_href : string) : Session.t :=
  Session.open (Db.mk {[ 1 := child_task repo_href ]} 2 [sync_stage]
                      (sample_server (Some true)) [] []).

(** A server on which every task has completed with the given created
    resources, every repo has the given publications of its latest
    version, and no package is banned. *)
Definition answered_repo (href : string) : Pulp.Repository :=
  Pulp.mkRepository EmptyString href "ext-foo" (href +:+ "versions/1/") (Some rpm_remote_href).

Definition settled_server (created publications : list string) : Pulp.Backend :=
  Pulp.mkBackend
    (fun _ href => Ok (Pulp.mkTask href "completed" created))
    (fun _ href => Ok (answered_repo href))
    (fun _ href => Ok (Pulp.mkRemote EmptyString href "https://upstream/foo" None))
    (fun _ _ => Ok publications)
    (fun _ _ => Ok [])
    (fun _ _ => Ok (Pulp.mkTask "/pulp/api/v3/tasks/8/" "waiting" []))
    (fun _ _ _ _ => Ok (Pulp.mkTask "/pulp/api/v3/tasks/9/" "waiting" []))
    (fun _ _ _ _ => Ok (Pulp.mkTask "/pulp/api/v3/tasks/10/" "waiting" []))
    (fun _ href => Ok (Pulp.mkTask href "completed" []))
    (fun _ _ => Ok [])
    (fun _ _ => Ok []).




(** *** Repo selection *)

Definition sample_repo (repo_id : Z) (name : string) (remote_feed : option string)
    (health_id : option Z) : PulpServerRepo.t :=
  PulpServerRepo.mk repo_id name "rpm"
    ("/pulp/api/v3/repositories/rpm/rpm/" +:+ pretty repo_id +:+ "/")
    (Some ("/pulp/api/v3/remotes/rpm/rpm/" +:+ pretty repo_id +:+ "/")) remote_feed
    None health_id None.

(** Selection as the specification words it: the name does not match
    [regex_exclude] and, when [regex_include] is given, matches
    [regex_include]; the sync path also wants a remote feed. *)
Definition spec_selected {re : PyRe} (regex_include regex_exclude : option string)
    (require_feed : bool) (repo : PulpServerRepo.t) : bool :=
  (negb require_feed || negb (PulpHelpers.is_none (PulpServerRepo.remote_feed repo)))
  && negb (match regex_exclude with
           | Some p => re_search p (PulpServerRepo.name repo)
           | None => false
           end)
  && match regex_include with
     | Some p => re_search p (PulpServerRepo.name repo)
     | None => true
     end.

(** A regex counts as given when it is neither [None] nor the empty
    string. *)
Definition regex_given (regex : option string) : bool :=
  match regex with
  | Some p => negb (String.eqb p EmptyString)
  | None => false
  end.

(** Selection with that reading of "given" for both regexes. *)
Definition selected {re : PyRe} (regex_include regex_exclude : option string)
    (require_feed : bool) (repo : PulpServerRepo.t) : bool :=
  (negb require_feed || negb (PulpHelpers.is_none (PulpServerRepo.remote_feed repo)))
  && negb (regex_given regex_exclude
           && match regex_exclude with
              | Some p => re_search p (PulpServerRepo.name repo)
              | None => false
              end)
  && (negb (regex_given regex_include)
      || match regex_include with
         | Some p => re_search p (PulpServerRepo.name repo)
         | None => true
         end).

(** *** Health *)

Definition health_id_is (v : option Z) (repo : PulpServerRepo.t) : bool :=
  bool_decide (PulpServerRepo.repo_sync_health_id repo = v).

(** A health column holds no value or the value of a member. *)
Definition health_valid (repo : PulpServerRepo.t) : bool :=
  match PulpServerRepo.repo_sync_health_id repo with
  | None => true
  | Some v => Enum.has_value RepoHealthStatus v
  end.

(** The rollup I3 as the specification words it: red if any repo is red;
    else amber if any is amber; else green. *)
Definition spec_rollup (repos : list PulpServerRepo.t) : string :=
  if existsb (health_id_is (Some 3)) repos then "red"
  else if existsb (health_id_is (Some 2)) repos then "amber"
  else "green".

(** The rollup with a repo without health counted as red. *)
Definition rollup (repos : list PulpServerRepo.t) : string :=
  if existsb (fun r => health_id_is (Some 3) r || health_id_is None r) repos then "red"
  else if existsb (health_id_is (Some 2)) repos then "amber"
  else "green".

(** Modelled from the spec: the classification I4 as the specification
    words it, over the state names of the last tasks, most recent first.
    A task succeeded when its state is completed and failed when its
    state is failed. *)
Definition succeeded (state : string) : bool := String.eqb state "completed".
Definition spec_failed (state : string) : bool := String.eqb state "failed".

Definition spec_classify (states : list string) : string :=
  let num_failed := length (List.filter spec_failed states) in
  let num_succeeded := length (List.filter succeeded states) in
  match states with
  | most_recent :: _ =>
      if succeeded most_recent then "green"
      else if Nat.leb 1 num_failed && Nat.leb num_failed 3 && Nat.leb 1 num_succeeded
      then "amber"
      else "red"
  | [] => "red"
  end.

(** The classification with every task that has not completed counted
    as failed, whatever its state: canceled, running, queued, skipped. *)
Definition failed (state : string) : bool := negb (succeeded state).

Definition classify (states : list string) : string :=
  let num_failed := length (List.filter failed states) in
  let num_succeeded := length (List.filter succeeded states) in
  match states with
  | most_recent :: _ =>
      if succeeded most_recent then "green"
      else if Nat.leb 1 num_failed && Nat.leb num_failed 3 && Nat.leb 1 num_succeeded
      then "amber"
      else "red"
  | [] => "red"
  end.

(** The last five links of a repo, most recent first. *)
Definition last5 (repo_id : Z) (d : Db.t) : list PulpServerRepoTask.t :=
  firstn 5
    (TableRepository.sort_desc
       (List.filter (fun l => Z.eqb (PulpServerRepoTask.pulp_server_repo_id l) repo_id)
                    (Db.pulp_server_repo_tasks d))).

(** The task of a link is stored and its state reads as [state]. *)
Definition linked_state (d : Db.t) (link : PulpServerRepoTask.t) (state : string) : Prop :=
  exists k, Db.tasks d !! PulpServerRepoTask.task_id link = Some k
            /\ Task.state k = Ok (Some state).

(** One step of the health computation, for the repo [repo_id] with the
    health [value], on one row: the id stays, the health of a row of
    that repo becomes [value] and the health of any other row stays. *)
Definition health_set (repo_id : Z) (value : string) (row row' : PulpServerRepo.t) : Prop :=
  PulpServerRepo.id row' = PulpServerRepo.id row
  /\ PulpServerRepo.repo_sync_health row'
     = if Z.eqb (PulpServerRepo.id row) repo_id then Ok (Some value)
       else PulpServerRepo.repo_sync_health row.

(** The health computation over [repos] on one row, [states_of] giving
    for the id of a repo the states of its last five tasks: the health of
    a row of one of the repos becomes the classification of these states,
    the health of any other row stays. *)
Definition health_computed (states_of : Z -> list string) (repos : list PulpServerRepo.t)
    (row row' : PulpServerRepo.t) : Prop :=
  PulpServerRepo.id row' = PulpServerRepo.id row
  /\ PulpServerRepo.repo_sync_health row'
     = if existsb (fun repo => Z.eqb (PulpServerRepo.id repo) (PulpServerRepo.id row)) repos
       then Ok (Some (classify (states_of (PulpServerRepo.id row))))
       else PulpServerRepo.repo_sync_health row.

(** The states of the last five tasks of every repo of [repos] are
    stored and read as [states_of] says, and there is at least one. *)
Definition last5_states (states_of : Z -> list string) (d : Db.t)
    (repos : list PulpServerRepo.t) : Prop :=
  Forall (fun repo =>
            states_of (PulpServerRepo.id repo) <> []
            /\ Forall2 (linked_state d) (last5 (PulpServerRepo.id repo) d)
                       (states_of (PulpServerRepo.id repo)))
         repos.

(** A server with three repos, the first one without health. *)
Definition unrated_repos : list PulpServerRepo.t :=
  [ sample_repo 1 "int-tools" None None;
    sample_repo 2 "ext-foo" (Some "https://upstream/foo") (Some 1);
    sample_repo 3 "ext-bar" (Some "https://upstream/bar") (Some 1) ].

Definition rollup_session (repos : list PulpServerRepo.t) : Session.t :=
  Session.open (sample_db [blank_task 1 2] repos (Some true)).

(** Repo 2 with three linked tasks: the newest was canceled, the two
    before it completed. *)
Definition health_session : Session.t :=
  Session.open
    (Db.mk (list_to_map [(1, blank_task 1 2); (11, blank_task 11 3);
                         (12, blank_task 12 3); (13, blank_task 13 5)])
           14 [TaskStage.mk 0 1 "calculate repo health" None None None]
           (sample_server (Some true))
           [sample_repo 2 "ext-foo" (Some "https://upstream/foo") None]
           [PulpServerRepoTask.mk 2 11 100; PulpServerRepoTask.mk 2 12 200;
            PulpServerRepoTask.mk 2 13 300]).

(** *** The scheduler loop *)




(** A sync run with a parent task 10 and three queued child tasks. *)
Definition queued_child (task_id : Z) : Task.t :=
  Task.mk task_id "pulp1 repo sync" (Some 10) (Some 1)
          (Some {[ "pulp_server_repo_id" := pretty task_id;
                   "repo_href" := "/pulp/api/v3/repositories/rpm/rpm/" +:+ pretty task_id
                                  +:+ "/" ]})
          None None None (Some 1) (Some "worker1") None None.

Definition sync_run_session : Session.t :=
  Session.open
    (Db.mk (list_to_map [(10, blank_task 10 2); (1, queued_child 1);
                         (2, queued_child 2); (3, queued_child 3)])
           11 [TaskStage.mk 0 10 "sync repos" None None None]
           (sample_server (Some true)) [] []).

(** *** Snapshots and removals *)

(** A server that answers a reconcile with the given rows. *)
Definition reconciling_server (rows : list PulpServerRepo.t) : Pulp.Backend :=
  let be := settled_server [] [] in
  Pulp.mkBackend (Pulp.server_task be) (Pulp.server_repo be) (Pulp.server_remote be)
    (Pulp.server_publications be) (Pulp.server_banned_content be) (Pulp.server_sync be)
    (Pulp.server_modify be) (Pulp.server_publish be) (Pulp.server_delete be)
    (fun _ _ => Ok rows) (Pulp.server_add_repos_from be).

(** Two snapshots with prefix [snap1-] next to their source repo. *)
Definition snapshot_rows : list PulpServerRepo.t :=
  [ sample_repo 1 "ext-foo" (Some "https://upstream/foo") None;
    sample_repo 2 "snap1-ext-foo" None None;
    sample_repo 3 "snap1-ext-bar" None None ].

(** A session with the queued parent task 1 of a job. *)
Definition job_session (repos : list PulpServerRepo.t) (snapshot_supported : option bool)
    : Session.t :=
  Session.open (sample_db [blank_task 1 1] repos snapshot_supported).

(** A snapshot loop that has nothing to do. *)
Definition idle_snapshot_loop (task_id : Z) (snapshot_prefix : string)
    (repos : list PulpServerRepo.t) : M unit := ret tt.

(** The error the reuse guard raises for a prefix. *)
Definition snapshots_exist (snapshot_prefix : string) : exn :=
  PulpManagerSnapshotError ("snapshots with prefix " +:+ snapshot_prefix +:+ " already exist").

(** The parent task of a job: the given one, or the next row of the
    table when the job creates it. *)
Definition parent_task_id (task_id : option Z) (s : Session.t) : Z :=
  match task_id with
  | Some i => i
  | None => Db.next_task_id (Session.db s)
  end.

(** The error message a session has committed for a task. *)
Definition committed_error_msg (s : Session.t) (task_id : Z) : option string :=
  k ← Db.tasks (Session.committed s) !! task_id; Task.error k !! "msg".

(** *** Content removal *)

Definition skipped_stage_name : string :=
  "repo publication skipped as no new resources created from modify".

(** The publication requests among the requests sent to the server. *)
Fixpoint publish_requests (calls : list call) : list (string * string * bool) :=
  match calls with
  | [] => []
  | CallPublish version repo_type is_flat :: rest =>
      (version, repo_type, is_flat) :: publish_requests rest
  | _ :: rest => publish_requests rest
  end.

(** The version to publish as the specification words it: the modify
    task's first created resource when there is one, the repository's
    [latest_version_href] otherwise. *)
Definition version_to_publish (modify_pulp_task : Pulp.Task) (pulp_repo : Pulp.Repository)
    : string :=
  match Pulp.created_resources modify_pulp_task with
  | created :: _ => created
  | [] => Pulp.latest_version_href pulp_repo
  end.

(** The publication the specification expects after a modify that is
    not skipped: that version, the repo type of the repository's href,
    and for a DEB repository the flatness of the remote fetched at the
    row's [remote_href] ([False] for every other repository). *)
Definition expected_publication (be : Pulp.Backend) (pm_pulp_server_repo : PulpServerRepo.t)
    (pulp_repo : Pulp.Repository) (modify_pulp_task : Pulp.Task) (s : Session.t)
    : result (string * string * bool) :=
  let* is_flat :=
    (if String.eqb (Pulp.repo_class pulp_repo) "deb"
     then rbind (snd (Pulp.get_remote be (PulpServerRepo.remote_href pm_pulp_server_repo) s))
                Pulp.is_flat_repo
     else Ok false) in
  let* repo_type := PulpHelpers.get_repo_type_from_href (Pulp.repo_pulp_href pulp_repo) in
  Ok (version_to_publish modify_pulp_task pulp_repo, repo_type, is_flat).

(** A flat DEB repo and its remote, on a server whose modify task
    creates the given resources. *)
Definition deb_repo_href : string := "/pulp/api/v3/repositories/deb/apt/4/".
Definition deb_remote_href : string := "/pulp/api/v3/remotes/deb/apt/4/".

Definition deb_row : PulpServerRepo.t :=
  PulpServerRepo.mk 4 "ext-deb" "deb" deb_repo_href (Some deb_remote_href)
                    (Some "https://upstream/deb") None None None.

Definition flat_deb_server (created : list string) : Pulp.Backend :=
  let be := settled_server created [] in
  Pulp.mkBackend (Pulp.server_task be) (Pulp.server_repo be)
    (fun _ href => Ok (Pulp.mkRemote EmptyString href "https://upstream/deb" (Some "/")))
    (Pulp.server_publications be) (Pulp.server_banned_content be) (Pulp.server_sync be)
    (fun _ _ _ _ => Ok (Pulp.mkTask "/pulp/api/v3/tasks/9/" "waiting" created))
    (Pulp.server_publish be) (Pulp.server_delete be)
    (Pulp.server_reconcile be) (Pulp.server_add_repos_from be).


(** * Further definitions

    The rest of [pulp3_bindings/pulp3/tasks.py], of
    [services/task_service.py] and of [services/snapshotter.py], and the
    vocabulary of the further properties. *)

(** ** Words of the href patterns *)

(** Every character is in [a-z]. *)
Fixpoint all_lower (w : string) : bool :=
  match w with
  | EmptyString => true
  | String c rest => is_lower c && all_lower rest
  end.

(** What [[a-z]+] matches in full: a non-empty run of lower-case letters. *)
Definition is_word (w : string) : bool :=
  match w with
  | EmptyString => false
  | String _ _ => all_lower w
  end.

(** The first character of [s], if any, is no lower-case letter. *)
Definition stops_run (s : string) : Prop :=
  match s with
  | String c _ => is_lower c = false
  | EmptyString => True
  end.

(** ** [services/task_service.py], the other operations *)
Module TaskServiceOps.

(** [class TaskInfo(TypedDict, total=False)]: every key may be absent. *)
Record TaskInfo : Type := mkInfo {
  name : option string;
  task_args : option json;
  task_type : option pyval;
  worker_name : option (option string);
  worker_job_id : option (option string)
}.

(** [task_info[key]] *)
Definition required {A : Type} (key : string) (v : option A) : M A :=
  match v with
  | Some a => ret a
  | None => raise (KeyError key)
  end.

(** [TaskService._commit_to_db] *)
Definition _commit_to_db : M unit :=
  try_except commit (fun e => rollback ;;; raise e).

(** [TaskService.create_task] *)
Definition create_task (task_info : TaskInfo) : M Task.t :=
  try_except
    (task_name <- required "name" (name task_info) ;;
     task_type <- required "task_type" (task_type task_info) ;;
     task <- TableRepository.task_add task_name None
       [ TableRepository.kw_task_args (default ∅ (task_args task_info));
         TableRepository.kw_task_type task_type;
         TableRepository.kw_state (PyInt 1);
         TableRepository.kw_worker_name (default None (worker_name task_info));
         TableRepository.kw_worker_job_id (default None (worker_job_id task_info)) ] ;;
     _commit_to_db ;;;
     ret task)
    (fun e => rollback ;;; raise e).

(** [TaskService.log_task_error].  The fields are written as the method
    assigns them.  [date_last_updated] has the column default [onupdate]
    of [models/base.py], which the ORM applies when it flushes the row;
    that default is outside this definition, which therefore says nothing
    of the field after the update. *)
Definition log_task_error (now : Z) (task_id : Z) (error_trace : string) : M unit :=
  task <- TableRepository.task_get_by_id task_id ;;
  match task with
  | Some _ =>
      TableRepository.task_update task_id [TableRepository.kw_state (PyInt 4)] ;;;
      TableRepository.task_update task_id
        [TableRepository.kw_error {[ "message" := error_trace ]}] ;;;
      TableRepository.task_update task_id [TableRepository.kw_date_finished now] ;;;
      try_except
        (TableRepository.task_update task_id [] ;;; _commit_to_db)
        (fun e => rollback ;;; raise e)
  | None => ret tt
  end.

(** [TaskService.add_task_stage]; returns the id of the new stage. *)
Definition add_task_stage (task_id : Z) (stage_name : string) (detail : json)
    : M (option nat) :=
  task <- TableRepository.task_get_by_id task_id ;;
  match task with
  | None => ret None
  | Some _ =>
      try_except
        (task_stage <- TableRepository.task_stage_add stage_name task_id (Some detail) None ;;
         _commit_to_db ;;;
         ret (Some task_stage))
        (fun e => rollback ;;; raise e)
  end.

(** [TaskService.update_task_stage]; returns the id of the stage. *)
Definition update_task_stage (task_stage_id : nat) (message : string) : M (option nat) :=
  d <- get_db ;;
  match Db.task_stages d !! task_stage_id with
  | None => ret None
  | Some _ =>
      try_except
        (TableRepository.task_stage_update task_stage_id
           [TaskStage.kw_detail {[ "msg" := message ]}] ;;;
         _commit_to_db ;;;
         ret (Some task_stage_id))
        (fun e => rollback ;;; raise e)
  end.

End TaskServiceOps.

(** ** [pulp3_bindings/pulp3/tasks.py]: waiting for a task

    [monitor_task] raises two exceptions of its own,
    [PulpV3TaskStuckWaiting] and [PulpV3TaskFailed]; here they stand
    beside the exceptions of the client.  The client's answer to the
    [n]-th request of a run is [client_get n href], so that asking twice
    for the same task can show two states; every function takes the
    number of requests made so far and returns the number made after it.
    [sleep] takes time and does nothing else. *)
Module PulpTasks.

(** [pulp3.resources.Task]: the fields [monitor_task] reads.  [error] is
    the dict of the failed task, as the list of its items. *)
Record Task : Type := mkTask {
  pulp_href : string;
  state : string;
  error : option (list (string * string))
}.

Inductive raised : Type :=
| PulpV3TaskStuckWaiting (msg : string)
| PulpV3TaskFailed (msg : string)
| Other (e : exn).

Inductive answer (A : Type) : Type :=
| Returns (a : A)
| Raises (r : raised).

Arguments Returns {A} a.
Arguments Raises {A} r.

(** The [for key, value in task.error.items()] loop. *)
Definition error_string (items : list (string * string)) : string :=
  fold_left (fun acc item => acc +:+ fst item +:+ ": " +:+ snd item) items EmptyString.

(** What [monitor_task] does with a task that has left the loop. *)
Definition settle (href : string) (raise_failed : bool) (task : Task) : answer Task :=
  if String.eqb (state task) "failed" && raise_failed then
    match error task with
    | Some items =>
        Raises (PulpV3TaskFailed
                  ("Task " +:+ href +:+ " failed with errors: " +:+ error_string items))
    | None => Raises (Other (AttributeError "'NoneType' object has no attribute 'items'"))
    end
  else Returns task.

Section Client.
Context (client_get : nat -> string -> result Task).

(** [_validate_href] and [get_task] *)
Definition get_task (href : string) (n : nat) : nat * answer Task :=
  if contains "tasks" href then
    match client_get n href with
    | Ok task => (S n, Returns task)
    | Raise e => (S n, Raises (Other e))
    end
  else (n, Raises (Other (PulpV3InvalidTypeError "href is not valid for a task"))).

(** The [while task.state in ['running', 'waiting']] loop, cut after
    [polls] further requests: [None] when the task is still running or
    waiting then. *)
Fixpoint monitor_loop (polls : nat) (href : string) (poll_interval_sec max_wait_count : Z)
    (task : Task) (wait_count : Z) (n : nat) : nat * option (answer Task) :=
  if existsb (String.eqb (state task)) ["running"; "waiting"] then
    let wait_count := if String.eqb (state task) "waiting" then wait_count + 1
                      else wait_count in
    if Z.eqb wait_count max_wait_count then
      (n, Some (Raises (PulpV3TaskStuckWaiting
                          ("Task " +:+ href +:+ " failed to enter running state. Poll interval: "
                           +:+ pretty poll_interval_sec +:+ ", wait count: "
                           +:+ pretty max_wait_count))))
    else
      match polls with
      | O => (n, None)
      | S polls' =>
          match get_task href n with
          | (n', Returns task') =>
              monitor_loop polls' href poll_interval_sec max_wait_count task' wait_count n'
          | (n', Raises r) => (n', Some (Raises r))
          end
      end
  else (n, Some (Returns task)).

(** [monitor_task(client, href, poll_interval_sec, max_wait_count, error)] *)
Definition monitor_task (polls : nat) (href : string) (poll_interval_sec max_wait_count : Z)
    (error : bool) (n : nat) : nat * option (answer Task) :=
  if negb (contains "tasks" href)
  then (n, Some (Raises (Other (PulpV3InvalidTypeError "href is not valid for a task"))))
  else
    match get_task href n with
    | (n', Raises r) => (n', Some (Raises r))
    | (n', Returns task) =>
        match monitor_loop polls href poll_interval_sec max_wait_count task 0 n' with
        | (n'', Some (Returns task')) => (n'', Some (settle href error task'))
        | stopped => stopped
        end
    end.

End Client.

(** Whether a task has left the states the loop waits in. *)
Definition settled (task : Task) : bool :=
  negb (existsb (String.eqb (state task)) ["running"; "waiting"]).

(** A client whose every answer is the same task. *)
Definition steady_client (task : Task) : nat -> string -> result Task :=
  fun _ _ => Ok task.

(** A client that shows the task running for its first [busy] answers
    and completed from then on. *)
Definition finishing_client (busy : nat) : nat -> string -> result Task :=
  fun n href => Ok (mkTask href (if Nat.ltb n busy then "running" else "completed") None).

End PulpTasks.

(** ** The requests a computation sends *)

(** Run from the session [s], [m] adds requests to the session's record
    that all satisfy [P], and takes none away. *)
Definition sends_from {A : Type} (P : call -> Prop) (m : M A) (s : Session.t) : Prop :=
  exists sent,
    Session.calls (fst (m s)) = (Session.calls s ++ sent)%list /\ Forall P sent.

(** The same from every session. *)
Definition sends {A : Type} (P : call -> Prop) (m : M A) : Prop :=
  forall s, sends_from P m s.

(** No request at all. *)
Definition no_request (c : call) : Prop := False.

(** The hrefs a repo row names: its repository and, when set, its
    distribution and its remote. *)
Definition hrefs_of (repo : PulpServerRepo.t) : list string :=
  PulpServerRepo.repo_href repo
  :: (match PulpServerRepo.distribution_href repo with Some h => [h] | None => [] end
      ++ match PulpServerRepo.remote_href repo with Some h => [h] | None => [] end)%list.

(** A request a removal of the repos [selected] may send: the DELETE of
    an href of one of them, a GET (by which the task of a deletion is
    followed; a GET removes nothing), or the reconcile that follows.  Any
    other DELETE, and every request that changes or publishes a
    repository, is excluded. *)
Definition removal_request (selected : list PulpServerRepo.t) (c : call) : Prop :=
  match c with
  | CallDelete h => exists repo, In repo selected /\ In h (hrefs_of repo)
  | CallGet _ => True
  | CallReconcile _ => True
  | _ => False
  end.

(** ** [services/snapshotter.py]: the snapshot loop

    [_start_snapshot] (source lines 153 to 246) creates the snapshot
    repository through [PulpManager], which is not part of the sources at
    hand; the loop and the steps that follow a started snapshot are
    studied for every behaviour of it.
    [self._pulp_server.max_concurrent_snapshots] is a nullable column
    that the snapshotter reads and never writes. *)
Module SnapshotLoop.

Definition SNAPSHOT_STAGE_NAME : string := "repo snapshot".
Definition PUBLISH_STAGE_NAME : string := "repo publication".

(** The loop state: repos left to snapshot, tasks in progress (the keys
    of the dict in insertion order), repos whose snapshot failed to
    start. *)
Definition loop_state : Type :=
  (list PulpServerRepo.t * list Z * list PulpServerRepo.t)%type.

Definition repos_left (st : loop_state) : list PulpServerRepo.t := fst (fst st).
Definition snapshots_in_progress (st : loop_state) : list Z := snd (fst st).
Definition snapshots_failed (st : loop_state) : list PulpServerRepo.t := snd st.

(** [task.state_id != TaskState.running.value] *)
Definition not_running (task : Task.t) : bool :=
  match Task.state_id task with
  | Some v => negb (Z.eqb v 2)
  | None => true
  end.

(** [len(repos_left_to_snapshot) != 0 or len(snapshots_in_progress) != 0] *)
Definition snapshot_busy (st : loop_state) : bool :=
  negb (Nat.eqb (length (repos_left st)) 0)
  || negb (Nat.eqb (length (snapshots_in_progress st)) 0).

(** The most snapshots the loop lets run at once: the limit, or none
    when the limit is zero, negative or not set. *)
Definition snapshot_limit (max_concurrent_snapshots : option Z) : Z :=
  Z.max 0 (default 0 max_concurrent_snapshots).

(** The text of [f"the following repos failed {','}.join(snapshots_failed)"]:
    the braces hold the string [','] only, the call of [join] is outside
    them and so is text. *)
Definition FAILED_MSG : string := "the following repos failed ,.join(snapshots_failed)".

Section Controller.
Context (be : Pulp.Backend).
Context (max_concurrent_snapshots : option Z).
Context (_start_snapshot : PulpServerRepo.t -> string -> M Task.t).

(** [Snapshotter._start_publication] *)
Definition _start_publication (task_id : Z) : M unit :=
  dest_repo_href <- task_arg task_id "dest_repo_href" ;;
  pulp_repo <- Pulp.get_repo be dest_repo_href ;;
  repo_type <- lift (PulpHelpers.get_repo_type_from_href dest_repo_href) ;;
  is_flat_repo <-
    (if String.eqb repo_type "deb" then
       source_repo_href <- task_arg task_id "source_repo_href" ;;
       source_pulp_repo <- Pulp.get_repo be source_repo_href ;;
       if PulpHelpers.truthy (Pulp.repo_remote source_pulp_repo) then
         source_pulp_remote <- Pulp.get_remote be (Pulp.repo_remote source_pulp_repo) ;;
         lift (Pulp.is_flat_repo source_pulp_remote)
       else ret false
     else ret false) ;;
  publication_task <- Pulp.create_publication_from_repo_version be
                        (Pulp.latest_version_href pulp_repo) repo_type is_flat_repo ;;
  TableRepository.task_stage_add PUBLISH_STAGE_NAME task_id
    (Some {[ "msg" := "task in state " +:+ Pulp.task_state publication_task;
             "task_href" := Pulp.task_href publication_task ]}) None ;;;
  commit.

(** [Snapshotter._progress_snapshot].  [last_updated] is no column of
    the task table, so the update that names it writes nothing. *)
Definition _progress_snapshot (now : Z) (task_id : Z) : M bool :=
  d <- get_db ;;
  match last (Db.stages_of task_id d) with
  | None => raise (IndexError "list index out of range")
  | Some current_stage =>
      try_except
        (task_href <- stage_detail current_stage "task_href" ;;
         pulp_task <- Pulp.get_task be task_href ;;
         let state := Pulp.task_state pulp_task in
         if negb (existsb (String.eqb state) ["running"; "waiting"]) then
           let message := TaskStage.name current_stage +:+ " " +:+ state +:+ ". " in
           TableRepository.task_stage_update (TaskStage.id current_stage)
             [TaskStage.kw_detail (<["msg" := message]> (TaskStage.detail current_stage))] ;;;
           commit ;;;
           if negb (String.eqb state "completed")
              || String.eqb (TaskStage.name current_stage) PUBLISH_STAGE_NAME
           then
             TableRepository.task_update task_id
               [TableRepository.kw_state
                  (PyStr (if negb (String.eqb state "completed") then "failed"
                          else "completed"));
                TableRepository.kw_date_finished now] ;;;
             commit ;;;
             ret true
           else
             (if String.eqb (TaskStage.name current_stage) SNAPSHOT_STAGE_NAME
              then _start_publication task_id else ret tt) ;;;
             TableRepository.task_update task_id [TableRepository.kw_unmapped "last_updated"] ;;;
             ret false
         else
           TableRepository.task_update task_id [TableRepository.kw_unmapped "last_updated"] ;;;
           ret false)
        (fun e =>
           commit ;;;
           TableRepository.task_update task_id
             [ TableRepository.kw_state (PyStr "failed");
               TableRepository.kw_date_finished now;
               TableRepository.kw_error
                 {[ "msg" := "unexpected error occured progressing the snapshot";
                    "detail" := format_exc e ]} ] ;;;
           commit ;;;
           raise e)
  end.

(** The inner [while]: repos are taken from the head of the list while
    the dict holds fewer than [max_concurrent_snapshots] tasks. *)
Fixpoint start_snapshots (snapshot_prefix : string)
    (repos_left_to_snapshot : list PulpServerRepo.t)
    (in_progress : list Z) (failed : list PulpServerRepo.t) : M loop_state :=
  match max_concurrent_snapshots with
  | None => raise (TypeError "'<' not supported between instances of 'int' and 'NoneType'")
  | Some limit =>
      if Z.ltb (Z.of_nat (length in_progress)) limit then
        match repos_left_to_snapshot with
        | [] => ret (repos_left_to_snapshot, in_progress, failed)
        | repo_to_snapshot :: rest =>
            let repo_snapshot_name := snapshot_prefix +:+ PulpServerRepo.name repo_to_snapshot in
            started <- try_except
              (snapshot_task <- _start_snapshot repo_to_snapshot repo_snapshot_name ;;
               ret (Some snapshot_task))
              (fun _ => ret None) ;;
            match started with
            | Some snapshot_task =>
                if not_running snapshot_task
                then start_snapshots snapshot_prefix rest in_progress
                       (failed ++ [repo_to_snapshot])
                else start_snapshots snapshot_prefix rest
                       (RepoSyncher.dict_set (Task.id snapshot_task) in_progress) failed
            | None =>
                start_snapshots snapshot_prefix rest in_progress (failed ++ [repo_to_snapshot])
            end
        end
      else ret (repos_left_to_snapshot, in_progress, failed)
  end.

(** The body of the [for] loop over the copy of the dict. *)
Definition progress_one (now : Z) (task_id : Z) (in_progress : list Z) : M (list Z) :=
  finished <- try_except (_progress_snapshot now task_id) (fun _ => ret true) ;;
  if finished then lift (RepoSyncher.dict_del task_id in_progress) else ret in_progress.

Fixpoint progress_all (now : Z) (copy : list Z) (in_progress : list Z) : M (list Z) :=
  match copy with
  | [] => ret in_progress
  | task_id :: rest =>
      in_progress' <- progress_one now task_id in_progress ;;
      progress_all now rest in_progress'
  end.

(** One pass of the outer [while] body. *)
Definition snapshot_round (now : Z) (snapshot_prefix : string) (total : nat)
    (snapshot_stage : nat) (st : loop_state) : M loop_state :=
  st1 <- start_snapshots snapshot_prefix (repos_left st) (snapshots_in_progress st)
                         (snapshots_failed st) ;;
  in_progress <- progress_all now (snapshots_in_progress st1) (snapshots_in_progress st1) ;;
  stage <- TableRepository.task_stage_get snapshot_stage ;;
  let num_snapshots_completed :=
    Z.of_nat total - Z.of_nat (length (repos_left st1)) - Z.of_nat (length in_progress) in
  TableRepository.task_stage_update snapshot_stage
    [TaskStage.kw_detail
       (<["msg" := pretty num_snapshots_completed +:+ "/" +:+ pretty total
                   +:+ " snapshots completed"]> (TaskStage.detail stage))] ;;;
  commit ;;;
  ret (repos_left st1, in_progress, snapshots_failed st1).

(** The outer [while], cut after [rounds] passes. *)
Fixpoint snapshot_loop (rounds : nat) (now : Z) (snapshot_prefix : string) (total : nat)
    (snapshot_stage : nat) (st : loop_state) : M loop_state :=
  match rounds with
  | O => ret st
  | S rounds' =>
      if snapshot_busy st then
        st' <- snapshot_round now snapshot_prefix total snapshot_stage st ;;
        snapshot_loop rounds' now snapshot_prefix total snapshot_stage st'
      else ret st
  end.

(** [Snapshotter._do_snapshot_repos]; [None] when the loop is still busy
    after [rounds] passes. *)
Definition _do_snapshot_repos (rounds : nat) (now : Z) (task_id : Z) (snapshot_prefix : string)
    (repos_to_snapshot : list PulpServerRepo.t) : M (option unit) :=
  snapshot_stage <- TableRepository.task_stage_add "snapshot repos" task_id
    (Some {[ "msg" := "0/" +:+ pretty (length repos_to_snapshot) +:+ " snapshots completed" ]})
    None ;;
  commit ;;;
  st <- snapshot_loop rounds now snapshot_prefix (length repos_to_snapshot) snapshot_stage
                      (repos_to_snapshot, [], []) ;;
  if snapshot_busy st then ret None
  else
    let failed := Nat.ltb 0 (length (snapshots_failed st)) in
    TableRepository.task_update task_id
      [ TableRepository.kw_state (PyStr (if failed then "failed" else "completed"));
        TableRepository.kw_date_finished now;
        TableRepository.kw_error
          {[ "msg" := if failed then FAILED_MSG else EmptyString ]} ] ;;;
    commit ;;;
    ret (Some tt).

End Controller.

(** [starts repo] tells whether a snapshot of [repo] can be started:
    whenever it is asked, [_start_snapshot] returns a task in state
    running for a repo that starts, and raises or returns a task in
    another state for one that does not. *)
Definition start_outcome (_start_snapshot : PulpServerRepo.t -> string -> M Task.t)
    (starts : PulpServerRepo.t -> bool) : Prop :=
  forall repo repo_snapshot_name s,
    match _start_snapshot repo repo_snapshot_name s with
    | (_, Ok snapshot_task) => not_running snapshot_task = negb (starts repo)
    | (_, Raise _) => starts repo = false
    end.

End SnapshotLoop.

(** *** A snapshot run whose snapshots cannot be started *)

(** Starting a snapshot fails: the server cannot be reached. *)
Definition unreachable_start (repo : PulpServerRepo.t) (repo_snapshot_name : string)
    : M Task.t :=
  raise (PulpV3APIError "connection refused").

(** One rpm repo with a remote feed. *)
Definition fed_repos : list PulpServerRepo.t :=
  [sample_repo 2 "ext-foo" (Some "https://upstream/foo") None].

(** *** A server that has canceled every task *)
Definition canceling_server : Pulp.Backend :=
  let be := settled_server [] [] in
  Pulp.mkBackend
    (fun _ href => Ok (Pulp.mkTask href "canceled" []))
    (Pulp.server_repo be) (Pulp.server_remote be) (Pulp.server_publications be)
    (Pulp.server_banned_content be) (Pulp.server_sync be) (Pulp.server_modify be)
    (Pulp.server_publish be) (Pulp.server_delete be) (Pulp.server_reconcile be)
    (Pulp.server_add_repos_from be).

(** *** The child tasks of a sync run *)

(** The row of the child task that syncs [repo], as [_generate_tasks]
    stages it: queued, of type [repo_sync], under the parent task. *)
Definition sync_child (hostname : string) (job_id : option string) (server_name : string)
    (parent_task : Z) (task_id : Z) (repo : PulpServerRepo.t) : Task.t :=
  Task.mk task_id (server_name +:+ " repo sync " +:+ PulpServerRepo.name repo)
          (Some parent_task) (Some 1)
          (Some {[ "pulp_server_repo_id" := pretty (PulpServerRepo.id repo);
                   "repo_href" := PulpServerRepo.repo_href repo ]})
          None None None (Some 1) (Some hostname) job_id None.

(** *** A child sync whose repository the server does not return *)

(** A child task as [_generate_tasks] leaves it: queued, without a stage. *)
Definition unstarted_child (repo_href : string) : Task.t :=
  Task.mk 1 "pulp1 repo sync ext-foo" (Some 10) (Some 1)
          (Some {[ "pulp_server_repo_id" := "1"; "repo_href" := repo_href ]})
          None None None (Some 1) (Some "worker1") None None.

Definition unstarted_child_session : Session.t :=
  Session.open (Db.mk {[ 1 := unstarted_child rpm_repo_href ]} 2 []
                      (sample_server (Some true)) [] []).

(** A server that answers every request for a repository with an error. *)
Definition repoless_server : Pulp.Backend :=
  let be := settled_server [] [] in
  Pulp.mkBackend
    (Pulp.server_task be) (fun _ _ => Raise (PulpV3APIError "not found"))
    (Pulp.server_remote be) (Pulp.server_publications be)
    (Pulp.server_banned_content be) (Pulp.server_sync be) (Pulp.server_modify be)
    (Pulp.server_publish be) (Pulp.server_delete be) (Pulp.server_reconcile be)
    (Pulp.server_add_repos_from be).

(** *** A [PulpManager] whose construction talks to the server *)

(** The constructor asks the server for its signing services and keeps
    nothing of the answer in the session. *)
Definition asking_pulp_manager : M unit :=
  Pulp.request (CallGet "/pulp/api/v3/signing-services/") (fun _ => Ok tt).

(** * Properties *)

(** ** Task states and the task service *)

(** C1 (amended): [update_task] stores whatever member of [TaskState] it
    is asked for, whatever the state the task is in: the new state is
    committed and returned.  Only a value that is no member is refused
    (by the [state] setter); the session is then rolled back and the
    committed rows are as before. *)
Theorem update_task_stores_any_member (s : Session.t) (task_id : Z) (k : Task.t)
    (u : TaskService.TaskUpdateInfo) (v : Z) :
  Db.tasks (Session.db s) !! task_id = Some k ->
  TaskService.new_state u = Some v ->
  let (s', r) := TaskService.update_task task_id u s in
  if Enum.has_value TaskState v
  then exists k', r = Ok (Some k')
                  /\ Task.state_id k' = Some v
                  /\ Db.tasks (Session.committed s') !! task_id = Some k'
  else r = Raise (ValueError ("Invalid task state ID: " +:+ pretty v))
       /\ Session.committed s' = Session.committed s
       /\ Session.db s' = Session.committed s.
Proof.
  intros Hk Hu. destruct s as [d c calls]. cbn [Session.db] in Hk.
  cbv [TaskService.update_task bind try_except TableRepository.task_get_by_id
       TableRepository.task_update get_db ret raise lift modify_db commit rollback
       Session.db Session.committed Session.with_db Session.calls].
  rewrite Hk, Hu, Hk.
  cbn [TableRepository.task_setattrs TableRepository.task_setattr Task.set_state rbind].
  destruct (Enum.has_value TaskState v) eqn:Hv.
  - cbn. rewrite lookup_insert_eq. eexists. split; [reflexivity|]. split; reflexivity.
  - cbn. auto.
Qed.

(** The amended C1 at work: the completed task 1 is asked to run. *)
Lemma update_task_stores_any_member_witness :
  Db.tasks (Session.db completed_task_session) !! 1 = Some (blank_task 1 3)
  /\ TaskService.new_state to_running = Some 2
  /\ let (s', r) := TaskService.update_task 1 to_running completed_task_session in
     exists k', r = Ok (Some k')
                /\ Task.state_id k' = Some 2
                /\ Db.tasks (Session.committed s') !! 1 = Some k'.
Proof.
  split; [reflexivity|]. split; [reflexivity|].
  exact (update_task_stores_any_member completed_task_session 1 (blank_task 1 3)
           to_running 2 eq_refl eq_refl).
Defined.

(** C1 as stated fails: completed to running is no transition of I1, yet
    [update_task] accepts it and the committed state of the task is
    running afterwards. *)
Lemma update_task_completed_to_running :
  committed_state completed_task_session 1 = Some (Ok (Some "completed"))
  /\ I1_legal "completed" "running" = false
  /\ is_ok (snd (TaskService.update_task 1 to_running completed_task_session)) = true
  /\ committed_state (fst (TaskService.update_task 1 to_running completed_task_session)) 1
     = Some (Ok (Some "running")).
Proof. vm_compute. repeat split; reflexivity. Qed.

(** C2: the six task-type names do not all read back.  Five of them do;
    [remove_repo_content] is defined with the value of [repo_removal], so
    it is stored as 5 and read back as [repo_removal]. *)
Theorem task_type_read_back (k : Task.t) :
  (forall n, In n ["repo_sync"; "repo_group_sync"; "repo_snapshot";
                   "repo_creation_from_git"; "repo_removal"] ->
             rbind (Task.set_task_type (PyStr n) k) Task.task_type = Ok (Some n))
  /\ rbind (Task.set_task_type (PyStr "remove_repo_content") k) Task.task_type
     = Ok (Some "repo_removal")
  /\ Enum.by_name TaskType "remove_repo_content" = Enum.by_name TaskType "repo_removal".
Proof.
  split.
  - intros n Hn. cbn in Hn.
    repeat (destruct Hn as [<- | Hn]; [reflexivity|]). contradiction.
  - split; reflexivity.
Qed.

(** ** The sync stage machine *)

Lemma stage_name_setattrs (kwargs : list TaskStage.kwarg) (st : TaskStage.t) :
  TaskStage.name (fold_left (fun s a => TaskStage.setattr a s) kwargs st) = TaskStage.name st.
Proof.
  revert st. induction kwargs as [|a kwargs IH]; intros st; [reflexivity|].
  cbn [fold_left]. rewrite IH. destruct a; reflexivity.
Qed.

Lemma stage_names_alter (kwargs : list TaskStage.kwarg) (sid : nat) (l : list TaskStage.t) :
  List.map TaskStage.name
    (alter (fun s => fold_left (fun s a => TaskStage.setattr a s) kwargs s) sid l)
  = List.map TaskStage.name l.
Proof.
  revert sid. induction l as [|x l IH]; intros [|sid]; cbn; try reflexivity.
  - now rewrite stage_name_setattrs.
  - now rewrite IH.
Qed.

Lemma set_state_failed (k : Task.t) :
  Task.set_state (PyStr "failed") k = Ok (Task.with_state_id (Some 4) k).
Proof. reflexivity. Qed.

Lemma set_state_completed (k : Task.t) :
  Task.set_state (PyStr "completed") k = Ok (Task.with_state_id (Some 3) k).
Proof. reflexivity. Qed.

(** Unfolds the monad and the table operations, leaving the answers of
    the server and the lookups as the only scrutinees. *)
Ltac run_monad :=
  cbv [bind try_except ret raise lift get_db modify_db commit rollback tick send
       Pulp.request task_arg stage_detail
       TableRepository.task_get_by_id TableRepository.task_update
       TableRepository.task_stage_add TableRepository.task_stage_update
       TableRepository.task_stage_get
       TableRepository.task_setattrs TableRepository.task_setattr rbind
       Session.db Session.committed Session.calls Session.with_db
       Db.tasks Db.task_stages Db.with_tasks Db.with_task_stages
       Db.next_task_id Db.pulp_server Db.repos Db.pulp_server_repo_tasks].

Ltac case_scrutinee :=
  match goal with
  | |- context [match ?x with _ => _ end] =>
      lazymatch x with
      | context [match _ with _ => _ end] => fail
      | _ => let H := fresh "E" in destruct x eqn:H
      end
  end.

Lemma alter_at_end {A : Type} (f : A -> A) (l : list A) (x : A) :
  alter f (length l) (l ++ [x])%list = (l ++ [f x])%list.
Proof. induction l as [|y l IH]; [reflexivity|]. cbn. now rewrite IH. Qed.


Section SyncStages.
Context (be : Pulp.Backend) (internal_domains : string).







End SyncStages.


(** The other branch of the amended C3, on a server without publications
    and with nothing banned: the removal stage is opened, no removal is
    started, and the publish stage follows with the href of the
    publication task. *)
Example progress_sync_opens_both_stages :
  let s := child_session rpm_repo_href in
  let run := RepoSyncher._progress_sync (settled_server [] []) "example.org" 100 1 0 s in
  snd run = Ok false
  /\ stage_names (fst run)
     = [RepoSyncher.SYNC_STAGE_NAME; RepoSyncher.REMOVE_BANNED_PACKAGES_STAGE_NAME;
        RepoSyncher.PUBLISH_STAGE_NAME]
  /\ committed_state (fst run) 1 = Some (Ok (Some "running")).
Proof. vm_compute. repeat split; reflexivity. Qed.


(** ** Repo selection *)

Lemma truthy_regex_given (regex : option string) :
  PulpHelpers.truthy regex = regex_given regex.
Proof. destruct regex as [[|a p]|]; reflexivity. Qed.

Lemma get_pulp_server_repos_filter {re : PyRe} (repos : list PulpServerRepo.t)
    (regex_include regex_exclude : option string) (exclude_no_remote : bool) :
  PulpHelpers.get_pulp_server_repos repos regex_include regex_exclude exclude_no_remote
  = List.filter (selected regex_include regex_exclude exclude_no_remote) repos.
Proof.
  induction repos as [|repo rest IH]; [reflexivity|].
  cbn [PulpHelpers.get_pulp_server_repos List.filter]. rewrite IH.
  unfold selected, PulpHelpers.given_and_found. rewrite !truthy_regex_given.
  destruct exclude_no_remote, (PulpHelpers.is_none (PulpServerRepo.remote_feed repo));
    cbn [negb orb andb]; try reflexivity;
    destruct regex_exclude as [pe|], regex_include as [pi|]; cbn [regex_given];
    repeat match goal with
           | |- context [String.eqb ?p EmptyString] => destruct (String.eqb p EmptyString)
           | |- context [re_search ?p ?n] => destruct (re_search p n)
           end; reflexivity.
Qed.

(** C8 (amended): for every list of repos and every pair of regexes the
    helper returns, in order, exactly the repos whose name is not found
    by [regex_exclude] and, when [regex_include] is given, is found by
    [regex_include], where a regex that is [None] or the empty string
    counts as not given (the exclusion wins when both find the name).
    The sync path keeps only repos with a remote feed; the removal path
    asks for no feed and raises when nothing is selected. *)
Theorem repo_selection {re : PyRe} (job_id : option string)
    (regex_include regex_exclude : option string) (task_id : Z) (s : Session.t) :
  (forall repos exclude_no_remote,
     PulpHelpers.get_pulp_server_repos repos regex_include regex_exclude exclude_no_remote
     = List.filter (selected regex_include regex_exclude exclude_no_remote) repos)
  /\ snd (RepoSyncher._get_repos_to_sync regex_include regex_exclude s)
     = Ok (List.filter (selected regex_include regex_exclude true)
                       (Db.repos (Session.db s)))
  /\ snd (RepoRemover._get_repos_for_removal job_id task_id regex_include regex_exclude s)
     = match List.filter (selected regex_include regex_exclude false)
                         (Db.repos (Session.db s)) with
       | [] => Raise (PulpManagerValueError "No repositories found matching the regex pattern")
       | chosen => Ok chosen
       end.
Proof.
  split; [intros; apply get_pulp_server_repos_filter|].
  destruct s as [[tasks nid stages srv repos links] c calls].
  split.
  - cbv [RepoSyncher._get_repos_to_sync]. run_monad.
    cbn [snd]. now rewrite get_pulp_server_repos_filter.
  - cbv [RepoRemover._get_repos_for_removal]. run_monad.
    rewrite get_pulp_server_repos_filter.
    destruct (List.filter (selected regex_include regex_exclude false) repos); reflexivity.
Qed.

(** C8 as stated fails for an empty exclusion regex: it finds a match in
    every name, so the specification's selection is empty, but the helper
    treats it as absent and returns the repo. *)
Lemma repo_selection_empty_exclude :
  let repos := [sample_repo 1 "ext-foo" (Some "https://upstream/foo") None] in
  @re_search literal_re EmptyString "ext-foo" = true
  /\ List.filter (@spec_selected literal_re None (Some EmptyString) true) repos = []
  /\ @PulpHelpers.get_pulp_server_repos literal_re repos None (Some EmptyString) true = repos.
Proof. vm_compute. repeat split; reflexivity. Qed.

(** ** Health of repos and of the server *)

Lemma health_getter_cases (repo : PulpServerRepo.t) :
  health_valid repo = true ->
  PulpServerRepo.repo_sync_health repo
  = Ok (match PulpServerRepo.repo_sync_health_id repo with
        | Some 1 => Some "green"
        | Some 2 => Some "amber"
        | Some _ => Some "red"
        | None => None
        end)
  /\ (forall v, PulpServerRepo.repo_sync_health_id repo = Some v -> v = 1 \/ v = 2 \/ v = 3).
Proof.
  unfold health_valid, PulpServerRepo.repo_sync_health.
  destruct (PulpServerRepo.repo_sync_health_id repo) as [v|]; [|intros _; split; [reflexivity|discriminate]].
  unfold Enum.has_value, RepoHealthStatus. cbn [existsb snd].
  destruct (Z.eqb_spec 1 v) as [<-|H1]; [intros _; split; [reflexivity|intros ? [= <-]; auto]|].
  destruct (Z.eqb_spec 2 v) as [<-|H2]; [intros _; split; [reflexivity|intros ? [= <-]; auto]|].
  destruct (Z.eqb_spec 3 v) as [<-|H3]; [intros _; split; [reflexivity|intros ? [= <-]; auto]|].
  discriminate.
Qed.

Lemma count_health_counts (repos : list PulpServerRepo.t) (green amber red : nat) :
  forallb health_valid repos = true ->
  RepoSyncher.count_health repos green amber red
  = Ok ((green + length (List.filter (health_id_is (Some 1%Z)) repos))%nat,
        (amber + length (List.filter (health_id_is (Some 2%Z)) repos))%nat,
        (red + length (List.filter
                         (fun r => health_id_is (Some 3%Z) r || health_id_is None r) repos))%nat).
Proof.
  unfold health_id_is.
  revert green amber red. induction repos as [|repo rest IH]; intros green amber red Hvalid.
  - cbn. now rewrite !Nat.add_0_r.
  - cbn [forallb] in Hvalid. apply andb_true_iff in Hvalid as [Hrepo Hrest].
    destruct (health_getter_cases repo Hrepo) as [Hget Hvals].
    cbn [RepoSyncher.count_health List.filter]. rewrite Hget. cbn [rbind].
    destruct (PulpServerRepo.repo_sync_health_id repo) as [v|] eqn:Hid.
    + destruct (Hvals v eq_refl) as [-> | [-> | ->]]; cbn;
        repeat case_bool_decide; try discriminate; try congruence;
        rewrite IH by exact Hrest; cbn [length orb]; apply f_equal;
        (apply (f_equal2 pair); [apply (f_equal2 pair)|]); lia.
    + cbn. repeat case_bool_decide; try discriminate; try congruence.
      rewrite IH by exact Hrest. cbn [length orb]. apply f_equal.
      (apply (f_equal2 pair); [apply (f_equal2 pair)|]); lia.
Qed.

Lemma filter_nonempty_existsb {A : Type} (p : A -> bool) (l : list A) :
  Nat.ltb 0 (length (List.filter p l)) = existsb p l.
Proof.
  induction l as [|x l IH]; [reflexivity|].
  cbn [List.filter existsb]. destruct (p x); [reflexivity|exact IH].
Qed.

(** C5 (amended): when every repo's health column is empty or holds a
    member of [RepoHealthStatus], the rollup computation succeeds and the
    committed [repo_sync_health_rollup] is red if any repo is red or has
    no health set, else amber if any repo is amber, else green. *)
Theorem server_rollup_counts_unset_as_red (now : Z) (task_id : Z) (s : Session.t) :
  forallb health_valid (Db.repos (Session.db s)) = true ->
  let (s', r) := RepoSyncher._calculate_pulp_server_repo_health_rollup now task_id s in
  r = Ok tt
  /\ PulpServer.repo_sync_health_rollup (Db.pulp_server (Session.committed s'))
     = Ok (Some (rollup (Db.repos (Session.db s))))
  /\ Db.repos (Session.committed s') = Db.repos (Session.db s).
Proof.
  destruct s as [[tasks nid stages srv repos links] c calls].
  cbn [Session.db Db.repos]. intros Hvalid.
  cbv [RepoSyncher._calculate_pulp_server_repo_health_rollup
       TableRepository.server_update_rollup TableRepository.server_update_rollup_date].
  run_monad. cbv [Db.with_pulp_server].
  rewrite (count_health_counts repos 0 0 0 Hvalid). cbv beta iota zeta.
  cbn [Nat.add]. rewrite !filter_nonempty_existsb. unfold rollup.
  destruct (existsb (fun r => health_id_is (Some 3) r || health_id_is None r) repos);
    [|destruct (existsb (health_id_is (Some 2)) repos)];
    cbn; repeat split; reflexivity.
Qed.

(** The amended C5 on a server whose first repo has no health yet. *)
Lemma server_rollup_counts_unset_as_red_witness :
  forallb health_valid (Db.repos (Session.db (rollup_session unrated_repos))) = true
  /\ let (s', r) := RepoSyncher._calculate_pulp_server_repo_health_rollup 100 1
                      (rollup_session unrated_repos) in
     r = Ok tt
     /\ PulpServer.repo_sync_health_rollup (Db.pulp_server (Session.committed s'))
        = Ok (Some "red")
     /\ Db.repos (Session.committed s') = unrated_repos.
Proof.
  split; [reflexivity|].
  exact (server_rollup_counts_unset_as_red 100 1 (rollup_session unrated_repos) eq_refl).
Defined.

(** C5 as stated fails when a repo has no health: no repo is red and none
    is amber, so the specification's rollup is green, but the computed
    and committed rollup is red. *)
Lemma server_rollup_unset_repo :
  spec_rollup unrated_repos = "green"
  /\ PulpServer.repo_sync_health_rollup
       (Db.pulp_server
          (Session.committed
             (fst (RepoSyncher._calculate_pulp_server_repo_health_rollup 100 1
                     (rollup_session unrated_repos)))))
     = Ok (Some "red").
Proof. vm_compute. split; reflexivity. Qed.

Lemma sync_states_read (s : Session.t) (links : list PulpServerRepoTask.t)
    (states : list string) :
  Forall2 (linked_state (Session.db s)) links states ->
  RepoSyncher.sync_states links s = (s, Ok (List.map Some states)).
Proof.
  induction 1 as [|link state links states [k [Hk Hstate]] _ IH]; [reflexivity|].
  cbn [RepoSyncher.sync_states List.map].
  unfold bind at 1. unfold TableRepository.task_get_by_id, bind, get_db, ret.
  rewrite Hk. unfold lift. rewrite Hstate. rewrite IH. reflexivity.
Qed.

Lemma filter_map_some (p : string -> bool) (states : list string) :
  List.filter (fun st => match st with Some x => p x | None => false end)
              (List.map Some states)
  = List.map Some (List.filter p states).
Proof.
  induction states as [|x l IH]; [reflexivity|].
  cbn [List.map List.filter]. destruct (p x); cbn [List.map]; now rewrite IH.
Qed.

Lemma count_completed (states : list string) :
  length (List.filter RepoSyncher.is_completed (List.map Some states))
  = length (List.filter succeeded states)
  /\ length (List.filter (fun st => negb (RepoSyncher.is_completed st)) (List.map Some states))
     = length (List.filter failed states).
Proof.
  induction states as [|x l [IH1 IH2]]; [split; reflexivity|].
  cbn [List.map List.filter]. unfold failed, succeeded in *.
  cbn [RepoSyncher.is_completed]. destruct (String.eqb x "completed");
    cbn [negb length]; split; congruence.
Qed.

Lemma repos_set_health_rows (repo_id now : Z) (value : string) (v : Z)
    (rows : list PulpServerRepo.t) :
  Enum.by_name RepoHealthStatus (lower value) = Some v ->
  Enum.by_value RepoHealthStatus v = Some value ->
  exists rows',
    TableRepository.repos_set_health repo_id value rows = Ok rows'
    /\ Forall2 (health_set repo_id value) rows
         (List.map (fun r => if Z.eqb (PulpServerRepo.id r) repo_id
                             then PulpServerRepo.set_repo_sync_health_date now r else r)
                   rows').
Proof.
  intros Hv Hname. induction rows as [|r rest (rest' & Hrest & Hall)].
  - exists []. split; constructor.
  - cbn [TableRepository.repos_set_health]. rewrite Hrest. unfold health_set.
    destruct (Z.eqb_spec (PulpServerRepo.id r) repo_id) as [Heq|Hne].
    + unfold PulpServerRepo.set_repo_sync_health. rewrite Hv. cbn [rbind].
      eexists. split; [reflexivity|]. cbn [List.map PulpServerRepo.id].
      rewrite (proj2 (Z.eqb_eq _ _) Heq).
      constructor; [|exact Hall]. split; [reflexivity|].
      unfold PulpServerRepo.repo_sync_health, PulpServerRepo.set_repo_sync_health_date.
      cbn [PulpServerRepo.repo_sync_health_id]. rewrite Hname.
      now rewrite (proj2 (Z.eqb_eq _ _) Heq).
    + cbn [rbind]. eexists. split; [reflexivity|]. cbn [List.map].
      rewrite (proj2 (Z.eqb_neq _ _) Hne).
      constructor; [|exact Hall]. split; [reflexivity|].
      now rewrite (proj2 (Z.eqb_neq _ _) Hne).
Qed.

Lemma classify_cases (states : list string) :
  states <> [] ->
  let num_success := length (List.filter succeeded states) in
  let num_fail := length (List.filter failed states) in
  classify states
  = match states with
    | first :: _ =>
        if succeeded first then "green"
        else if Nat.leb num_fail 3 && Nat.ltb 0 num_success then "amber" else "red"
    | [] => "red"
    end.
Proof.
  destruct states as [|first rest]; [congruence|]. intros _. cbn zeta. unfold classify.
  destruct (succeeded first) eqn:Hfirst; [reflexivity|].
  assert (Hpos : Nat.leb 1 (length (List.filter failed (first :: rest))) = true).
  { cbn [List.filter]. unfold failed at 1. rewrite Hfirst. reflexivity. }
  rewrite Hpos. cbn [andb].
  destruct (length (List.filter succeeded (first :: rest))); reflexivity.
Qed.

(** One pass of the loop of [_calculate_repo_health]: the repo's rows get
    the classification of its last five tasks, everything else the later
    passes read is as before, and the pass is committed. *)
Lemma one_repo_health (now : Z) (health_stage count total : nat)
    (repo : PulpServerRepo.t) (s : Session.t) (states : list string) :
  states <> [] ->
  Forall2 (linked_state (Session.db s)) (last5 (PulpServerRepo.id repo) (Session.db s))
          states ->
  exists s',
    RepoSyncher.calculate_one_repo_health now health_stage count total repo s = (s', Ok tt)
    /\ Session.committed s' = Session.db s'
    /\ Db.tasks (Session.db s') = Db.tasks (Session.db s)
    /\ Db.pulp_server_repo_tasks (Session.db s') = Db.pulp_server_repo_tasks (Session.db s)
    /\ Forall2 (health_set (PulpServerRepo.id repo) (classify states))
               (Db.repos (Session.db s)) (Db.repos (Session.db s')).
Proof.
  intros Hne Hlinks.
  pose proof (sync_states_read s _ _ Hlinks) as Hread.
  pose proof (classify_cases states Hne) as Hclass. cbn zeta in Hclass.
  destruct (count_completed states) as [Hsucc Hfail].
  destruct s as [[tasks nid stages srv repos links] c calls].
  unfold last5 in Hread. cbn [Session.db Db.pulp_server_repo_tasks Db.repos Db.tasks] in *.
  cbv [RepoSyncher.calculate_one_repo_health TableRepository.repo_tasks_filter_paged
       TableRepository.repo_update_health TableRepository.repo_update_health_date
       Db.with_repos].
  run_monad. rewrite Hread. cbv beta iota zeta.
  destruct states as [|first rest]; [congruence|]. cbn [List.map].
  change (Some first :: List.map Some rest) with (List.map Some (first :: rest)).
  rewrite Hsucc, Hfail. cbn [RepoSyncher.is_completed] in *. fold (succeeded first).
  rewrite Hclass.
  destruct (succeeded first);
    [|destruct (Nat.leb (length (List.filter failed (first :: rest))) 3
                && Nat.ltb 0 (length (List.filter succeeded (first :: rest))))];
    match goal with
    | |- context [TableRepository.repos_set_health _ ?value _] =>
        destruct (repos_set_health_rows (PulpServerRepo.id repo) now value _ repos
                    eq_refl eq_refl) as (rows' & Hset & Hall)
    end;
    rewrite Hset; cbv beta iota zeta; eexists; (split; [reflexivity|]);
    cbn [Session.committed Session.db Db.repos Db.tasks Db.pulp_server_repo_tasks];
    repeat (split; [reflexivity|]); exact Hall.
Qed.

Lemma health_computed_step (states_of : Z -> list string) (done : list PulpServerRepo.t)
    (repo : PulpServerRepo.t) (rows0 rows1 rows2 : list PulpServerRepo.t) :
  Forall2 (health_computed states_of done) rows0 rows1 ->
  Forall2 (health_set (PulpServerRepo.id repo) (classify (states_of (PulpServerRepo.id repo))))
          rows1 rows2 ->
  Forall2 (health_computed states_of (done ++ [repo])) rows0 rows2.
Proof.
  intros H01. revert rows2.
  induction H01 as [|r0 r1 rows0 rows1 [Hid01 Hh01] _ IH]; intros rows2 H12;
    inversion H12 as [|? r2 ? rest2 [Hid12 Hh12] Hrest]; subst; constructor; [|now apply IH].
  unfold health_computed. split; [congruence|].
  rewrite existsb_app. cbn [existsb]. rewrite orb_false_r, Hh12, Hid01, Z.eqb_sym.
  destruct (Z.eqb_spec (PulpServerRepo.id repo) (PulpServerRepo.id r0)) as [Heq|Hne].
  - rewrite orb_true_r. now rewrite Heq.
  - rewrite orb_false_r. exact Hh01.
Qed.

Lemma last5_states_keeps (states_of : Z -> list string) (d d' : Db.t)
    (repos : list PulpServerRepo.t) :
  Db.tasks d' = Db.tasks d ->
  Db.pulp_server_repo_tasks d' = Db.pulp_server_repo_tasks d ->
  last5_states states_of d repos -> last5_states states_of d' repos.
Proof.
  intros Htasks Hlinks. unfold last5_states, last5, linked_state.
  rewrite Htasks, Hlinks. exact (fun H => H).
Qed.

Lemma calculate_repos_health_loop (now : Z) (health_stage total : nat)
    (states_of : Z -> list string) (rows0 : list PulpServerRepo.t)
    (repos : list PulpServerRepo.t) :
  forall (done : list PulpServerRepo.t) (count : nat) (s : Session.t),
    last5_states states_of (Session.db s) repos ->
    Session.committed s = Session.db s ->
    Forall2 (health_computed states_of done) rows0 (Db.repos (Session.db s)) ->
    exists s',
      RepoSyncher.calculate_repos_health now health_stage count total repos s = (s', Ok tt)
      /\ Session.committed s' = Session.db s'
      /\ Forall2 (health_computed states_of (done ++ repos)) rows0 (Db.repos (Session.db s')).
Proof.
  induction repos as [|repo rest IH]; intros done count s Hstates Hcommitted Hdone.
  - exists s. rewrite app_nil_r. repeat split; assumption.
  - inversion Hstates as [|? ? [Hne Hlinks] Hrest]; subst.
    cbn [RepoSyncher.calculate_repos_health]. unfold bind.
    destruct (one_repo_health now health_stage (S count) total repo s _ Hne Hlinks)
      as (s1 & -> & Hc1 & Htasks & Hlinks1 & Hstep).
    destruct (IH (done ++ [repo])%list (S count) s1) as (s2 & -> & Hc2 & Hall).
    + exact (last5_states_keeps states_of _ _ rest Htasks Hlinks1 Hrest).
    + exact Hc1.
    + exact (health_computed_step states_of done repo _ _ _ Hdone Hstep).
    + exists s2. rewrite <- app_assoc in Hall. repeat split; assumption.
Qed.

(** C4 (amended): when every repo of the run has linked tasks,
    [_calculate_repo_health] commits for each of them the classification
    of its last five linked tasks, most recent first: green if the most
    recent one completed; amber if at most three of them did not complete
    (at least one did not, the most recent) and at least one completed;
    red otherwise.  A task that did not complete counts as failed
    whatever its state.  The health of the other repos is as before. *)
Theorem repo_health_is_classification (now task_id : Z) (repos : list PulpServerRepo.t)
    (s : Session.t) (states_of : Z -> list string) :
  last5_states states_of (Session.db s) repos ->
  let (s', r) := RepoSyncher._calculate_repo_health now task_id repos s in
  r = Ok tt
  /\ Session.committed s' = Session.db s'
  /\ Forall2 (health_computed states_of repos)
             (Db.repos (Session.db s)) (Db.repos (Session.committed s')).
Proof.
  intros Hstates. unfold RepoSyncher._calculate_repo_health.
  destruct s as [[tasks nid stages srv rows links] c calls].
  cbv [bind TableRepository.task_stage_add get_db modify_db commit ret Session.db
       Session.with_db Session.committed Session.calls Db.with_task_stages Db.task_stages
       Db.tasks Db.next_task_id Db.pulp_server Db.repos Db.pulp_server_repo_tasks].
  unfold try_except.
  match goal with
  | |- context [RepoSyncher.calculate_repos_health now ?hs 0 ?total repos ?s1] =>
      destruct (calculate_repos_health_loop now hs total states_of rows repos [] 0%nat s1)
        as (s2 & -> & Hc & Hall)
  end.
  - exact (last5_states_keeps states_of _ _ repos eq_refl eq_refl Hstates).
  - reflexivity.
  - cbn [Session.db Db.repos]. clear. induction rows as [|row rows IH]; constructor;
      [split; reflexivity | exact IH].
  - cbn [app] in Hall. destruct s2 as [d2 c2 calls2].
    cbn [Session.committed Session.db] in Hc, Hall. subst c2. cbv beta iota.
    split; [reflexivity|]. split; [reflexivity|]. exact Hall.
Qed.

(** The amended C4 on repo 2, synced three times: the newest task was
    canceled and the two before it completed. *)
Lemma repo_health_is_classification_witness :
  let repos := [sample_repo 2 "ext-foo" (Some "https://upstream/foo") None] in
  let states_of := fun _ : Z => ["canceled"; "completed"; "completed"] in
  last5_states states_of (Session.db health_session) repos
  /\ let (s', r) := RepoSyncher._calculate_repo_health 100 1 repos health_session in
     r = Ok tt
     /\ Session.committed s' = Session.db s'
     /\ Forall2 (health_computed states_of repos)
                (Db.repos (Session.db health_session)) (Db.repos (Session.committed s')).
Proof.
  assert (Hstates :
    last5_states (fun _ : Z => ["canceled"; "completed"; "completed"])
      (Session.db health_session)
      [sample_repo 2 "ext-foo" (Some "https://upstream/foo") None]).
  { constructor; [|constructor]. split; [discriminate|].
    repeat constructor; eexists; split; reflexivity. }
  split; [exact Hstates|].
  exact (repo_health_is_classification 100 1
           [sample_repo 2 "ext-foo" (Some "https://upstream/foo") None]
           health_session (fun _ => ["canceled"; "completed"; "completed"]) Hstates).
Defined.

(** C4 as stated fails on a task that ended in another state than failed
    or completed.  The newest of the three tasks of repo 2 was canceled
    and the two before it completed: none of them failed, so the
    specification's classification is red, and [_calculate_repo_health]
    commits amber. *)
Lemma canceled_task_counts_as_failed :
  let states := ["canceled"; "completed"; "completed"] in
  let run := RepoSyncher._calculate_repo_health 100 1
               [sample_repo 2 "ext-foo" (Some "https://upstream/foo") None]
               health_session in
  List.map (committed_state health_session)
           (List.map PulpServerRepoTask.task_id (last5 2 (Session.db health_session)))
  = List.map (fun state => Some (Ok (Some state))) states
  /\ spec_classify states = "red"
  /\ snd run = Ok tt
  /\ List.map PulpServerRepo.repo_sync_health (Db.repos (Session.committed (fst run)))
     = [Ok (Some "amber")].
Proof. vm_compute. repeat split; reflexivity. Qed.

(** ** The scheduler loop *)

Section Scheduler.
Context (be : Pulp.Backend).

Lemma dict_set_length (key : Z) (d : list Z) :
  (length (RepoSyncher.dict_set key d) <= S (length d))%nat.
Proof.
  unfold RepoSyncher.dict_set. destruct (existsb (Z.eqb key) d); [lia|].
  rewrite length_app. cbn. lia.
Qed.

Lemma dict_del_length (key : Z) (d d' : list Z) :
  RepoSyncher.dict_del key d = Ok d' -> (length d' <= length d)%nat.
Proof.
  unfold RepoSyncher.dict_del. destruct (existsb (Z.eqb key) d); [|discriminate].
  intros [= <-]. apply List.filter_length_le.
Qed.







End Scheduler.


(** The same run, pass by pass.  A child is started in the pass that
    takes it in and polled from the next pass on: two tasks are taken in
    and started, polled until their stages are through, then the third is
    taken in, and the loop ends with all three completed. *)
Example sync_loop_passes :
  let run n := RepoSyncher.sync_loop (settled_server [] []) "example.org" n 100 10 3 2
                 ([1; 2; 3], []) sync_run_session in
  snd (run 1%nat) = Ok ([1], [3; 2])
  /\ snd (run 3%nat) = Ok ([1], [])
  /\ snd (run 4%nat) = Ok ([], [1])
  /\ snd (run 6%nat) = Ok ([], [])
  /\ committed_state (fst (run 6%nat)) 1 = Some (Ok (Some "completed")).
Proof. vm_compute. repeat split; reflexivity. Qed.


(** ** Snapshots: the reuse guard *)

Section SnapshotGuard.
Context {re : PyRe} (be : Pulp.Backend) (hostname : string) (job_id : option string).
Context (_do_snapshot_repos : Z -> string -> list PulpServerRepo.t -> M unit).

Lemma snapshot_allowed_in_existing (snapshot_prefix : string) (rows : list PulpServerRepo.t) :
  existsb (fun r => re_match ("^" +:+ snapshot_prefix) (PulpServerRepo.name r)) rows = true ->
  Snapshotter.snapshot_allowed_in snapshot_prefix rows = Raise (snapshots_exist snapshot_prefix).
Proof.
  induction rows as [|r rest IH]; [discriminate|].
  cbn [existsb Snapshotter.snapshot_allowed_in].
  destruct (re_match ("^" +:+ snapshot_prefix) (PulpServerRepo.name r)); [reflexivity|].
  exact IH.
Qed.

(** C6 (amended): if [allow_snapshot_reuse] is false, the server supports
    snapshots, the parent task is there (or is created) and the reconcile
    succeeds, and some repo name after the reconcile is matched by
    [^prefix] for the dash-normalised prefix, then [snapshot_repos] raises
    "snapshots with prefix <prefix> already exist" after the reconcile,
    its only request to the server, and before any repo is selected or
    copied.  The parent task is committed as failed, finished now, with
    error message "failed to snapshot repos" and the raised error's
    traceback as detail. *)
Theorem snapshot_reuse_guard (now : Z) (snapshot_prefix : string)
    (regex_include regex_exclude : option string) (task_id : option Z) (task_args : json)
    (rows : list PulpServerRepo.t) (s : Session.t) :
  match task_id with
  | Some i => is_Some (Db.tasks (Session.db s) !! i)
  | None => True
  end ->
  PulpServer.snapshot_supported (Db.pulp_server (Session.db s)) = Some true ->
  Pulp.server_reconcile be (length (Session.calls s))
    (PulpServer.name (Db.pulp_server (Session.db s))) = Ok rows ->
  existsb (fun r => re_match ("^" +:+ Snapshotter.normalise_prefix snapshot_prefix)
                             (PulpServerRepo.name r)) rows = true ->
  let e := snapshots_exist (Snapshotter.normalise_prefix snapshot_prefix) in
  let (s', r) :=
    Snapshotter.snapshot_repos be hostname job_id _do_snapshot_repos now snapshot_prefix
      regex_include regex_exclude task_id false task_args s in
  r = Raise e
  /\ Session.calls s'
     = (Session.calls s
        ++ [CallReconcile (PulpServer.name (Db.pulp_server (Session.db s)))])%list
  /\ stage_names s' = (stage_names s ++ ["reconcile repos"])%list
  /\ exists k, Db.tasks (Session.committed s') !! parent_task_id task_id s = Some k
               /\ Task.state k = Ok (Some "failed")
               /\ Task.date_finished k = Some now
               /\ Task.error k = {[ "msg" := "failed to snapshot repos";
                                     "detail" := format_exc e ]}.
Proof.
  destruct s as [[tasks nid stages srv repos links] c calls].
  unfold stage_names, parent_task_id.
  cbn [Session.db Session.calls Db.tasks Db.pulp_server Db.next_task_id Db.task_stages].
  intros Htask Hsupported Hreconcile Hexists.
  pose proof (snapshot_allowed_in_existing _ _ Hexists) as Hguard.
  cbv [Snapshotter.snapshot_repos Snapshotter._do_reconcile Snapshotter._snapshot_allowed
       Pulp.reconcile TableRepository.task_add Db.with_repos Db.with_next_task_id].
  run_monad.
  destruct task_id as [i|]; [destruct Htask as [k Hk]|];
    repeat (first [ rewrite Hk | rewrite Hsupported | rewrite Hreconcile | rewrite Hguard
                  | rewrite lookup_insert_eq | rewrite set_state_failed
                  | rewrite bool_decide_eq_true_2 by reflexivity ];
            cbv beta iota zeta; cbn [negb]);
    rewrite ?stage_names_alter, ?List.map_app;
    (repeat split; try reflexivity);
    (eexists; split; [first [apply lookup_insert_eq | reflexivity]|];
     repeat split; reflexivity).
Qed.

End SnapshotGuard.

(** The amended C6 where two snapshots with prefix [snap1-] exist. *)
Lemma snapshot_reuse_guard_witness :
  let s := job_session snapshot_rows (Some true) in
  let be := reconciling_server snapshot_rows in
  let e := snapshots_exist "snap1-" in
  is_Some (Db.tasks (Session.db s) !! 1)
  /\ PulpServer.snapshot_supported (Db.pulp_server (Session.db s)) = Some true
  /\ Pulp.server_reconcile be 0 "pulp1" = Ok snapshot_rows
  /\ existsb (fun r => @re_match literal_re "^snap1-" (PulpServerRepo.name r)) snapshot_rows
     = true
  /\ let (s', r) :=
       @Snapshotter.snapshot_repos literal_re be "worker1" None idle_snapshot_loop 100
         "snap1" None None (Some 1) false ∅ s in
     r = Raise e
     /\ Session.calls s' = [CallReconcile "pulp1"]
     /\ stage_names s' = ["reconcile repos"]
     /\ exists k, Db.tasks (Session.committed s') !! 1 = Some k
                  /\ Task.state k = Ok (Some "failed")
                  /\ Task.date_finished k = Some 100
                  /\ Task.error k = {[ "msg" := "failed to snapshot repos";
                                        "detail" := format_exc e ]}.
Proof.
  split; [exists (blank_task 1 1); reflexivity|].
  split; [reflexivity|]. split; [reflexivity|]. split; [reflexivity|].
  exact (@snapshot_reuse_guard literal_re (reconciling_server snapshot_rows) "worker1" None
           idle_snapshot_loop 100 "snap1" None None (Some 1) ∅ snapshot_rows
           (job_session snapshot_rows (Some true))
           (ex_intro _ (blank_task 1 1) eq_refl) eq_refl eq_refl eq_refl).
Defined.

(** C6 as stated fails.  Two repo names begin with [snap1-] and reuse is
    not allowed; [snapshot_repos] fails, but only after the reconcile has
    been requested from the server, and the error message committed on
    the parent task is "failed to snapshot repos". *)
Lemma snapshot_guard_after_reconcile :
  let s := job_session snapshot_rows (Some true) in
  let run := @Snapshotter.snapshot_repos literal_re (reconciling_server snapshot_rows)
               "worker1" None idle_snapshot_loop 100 "snap1" None None (Some 1) false ∅ s in
  existsb (fun r => String.prefix "snap1-" (PulpServerRepo.name r)) (Db.repos (Session.db s))
  = true
  /\ snd run = Raise (snapshots_exist "snap1-")
  /\ Session.calls (fst run) = [CallReconcile "pulp1"]
  /\ committed_state (fst run) 1 = Some (Ok (Some "failed"))
  /\ committed_error_msg (fst run) 1 = Some "failed to snapshot repos"
  /\ committed_error_msg (fst run) 1 <> Some "snapshots with prefix snap1- already exist".
Proof. vm_compute. repeat split; try reflexivity. discriminate. Qed.

(** ** Failures that are not recorded *)

(** C7: two runs in which an exception escapes after the parent task has
    been committed as running and the task is not committed as failed.
    [snapshot_repos] on a server without snapshot support raises before
    its [try] block, whatever the snapshot loop would do; [remove_repos]
    with a regex that selects nothing marks the task failed in the open
    transaction only, and the job's [db.close()] drops that. *)
Theorem failed_runs_left_running :
  (forall loop,
     let run := @Snapshotter.snapshot_repos literal_re (reconciling_server snapshot_rows)
                  "worker1" None loop 100 "snap1" None None (Some 1) true ∅
                  (job_session snapshot_rows (Some false)) in
     snd run = Raise (PulpManagerValueError
                        "pulp server pulp1 not supported for repo snapshots")
     /\ committed_state (fst run) 1 = Some (Ok (Some "running"))
     /\ committed_date_finished (fst run) 1 = Some None)
  /\ (let run := finally_close
                   (@RepoRemover.remove_repos literal_re (reconciling_server snapshot_rows)
                      "worker1" None 100 (Some "^tmp-") None true (Some 1) ∅)
                   (job_session snapshot_rows (Some true)) in
      snd run = Raise (PulpManagerValueError
                         "No repositories found matching the regex pattern")
      /\ committed_state (fst run) 1 = Some (Ok (Some "running"))
      /\ committed_date_finished (fst run) 1 = Some None
      /\ Session.db (fst run) = Session.committed (fst run)).
Proof.
  split.
  - intros loop. vm_compute. repeat split; reflexivity.
  - vm_compute. repeat split; reflexivity.
Qed.

(** For comparison, the sibling path: when the reconcile of a sync run
    fails, [sync_repos] commits the parent task as failed and finished
    before the exception leaves it. *)
Example sync_repos_records_failure :
  let be := settled_server [] [] in
  let failing :=
    Pulp.mkBackend (Pulp.server_task be) (Pulp.server_repo be) (Pulp.server_remote be)
      (Pulp.server_publications be) (Pulp.server_banned_content be) (Pulp.server_sync be)
      (Pulp.server_modify be) (Pulp.server_publish be) (Pulp.server_delete be)
      (fun _ _ => Raise (PulpV3APIError "503")) (Pulp.server_add_repos_from be) in
  let run := finally_close
               (@RepoSyncher.sync_repos literal_re failing "example.org" "worker1" None
                  5 100 2 (Some "^ext-") None None ∅ (Some 1))
               (job_session snapshot_rows (Some true)) in
  snd run = Raise (PulpV3APIError "503")
  /\ committed_state (fst run) 1 = Some (Ok (Some "failed"))
  /\ committed_date_finished (fst run) 1 = Some (Some 100).
Proof. vm_compute. repeat split; reflexivity. Qed.

(** ** Content removal: publish or skip *)

Section RemoveContent.
Context (be : Pulp.Backend).

Lemma publish_requests_app (l1 l2 : list call) :
  publish_requests (l1 ++ l2) = (publish_requests l1 ++ publish_requests l2)%list.
Proof.
  induction l1 as [|c l1 IH]; [reflexivity|].
  destruct c; cbn [publish_requests app]; rewrite IH; reflexivity.
Qed.

Lemma poll_keeps (polls : nat) (stage : nat) (pulp_task : Pulp.Task) (s : Session.t) :
  let s' := fst (RemoveContentTask.poll be polls stage pulp_task s) in
  publish_requests (Session.calls s') = publish_requests (Session.calls s)
  /\ stage_names s' = stage_names s.
Proof.
  revert pulp_task s. induction polls as [|n IH]; intros pulp_task s.
  - cbn [RemoveContentTask.poll].
    destruct (existsb _ _); split; reflexivity.
  - cbn [RemoveContentTask.poll].
    destruct (existsb _ _); [|split; reflexivity].
    destruct s as [[tasks nid stages srv repos links] c calls].
    cbv [Pulp.get_task]. run_monad. unfold stage_names.
    destruct (contains "tasks" (Pulp.task_href pulp_task)); [|split; reflexivity].
    cbv beta iota zeta.
    destruct (Pulp.server_task be (length calls) (Pulp.task_href pulp_task)) as [t|e];
      cbv beta iota zeta.
    + match goal with
      | |- context [RemoveContentTask.poll be n stage t ?s0] =>
          destruct (IH t s0) as [Hcalls Hnames]
      end.
      cbn zeta in Hcalls, Hnames. unfold stage_names in Hnames.
      cbn [Session.db Session.calls Db.task_stages] in Hcalls, Hnames.
      rewrite publish_requests_app in Hcalls. cbn [publish_requests] in Hcalls.
      rewrite app_nil_r in Hcalls. rewrite stage_names_alter in Hnames.
      split; assumption.
    + cbn [fst Session.calls Session.db Db.task_stages].
      rewrite publish_requests_app. cbn [publish_requests]. rewrite app_nil_r.
      split; reflexivity.
Qed.

Lemma get_remote_keeps (href : option string) (s : Session.t) :
  let (s', _) := Pulp.get_remote be href s in
  publish_requests (Session.calls s') = publish_requests (Session.calls s)
  /\ stage_names s' = stage_names s.
Proof.
  destruct s as [[tasks nid stages srv repos links] c calls].
  cbv [Pulp.get_remote]. run_monad.
  repeat (case_scrutinee; cbv beta iota zeta); cbn [Session.calls];
    rewrite ?publish_requests_app; cbn [publish_requests]; rewrite ?app_nil_r;
    split; reflexivity.
Qed.

(** The publication itself (source lines 137 to 172), from any session
    and for any flatness. *)
Lemma publication_requested (polls : nat) (task_id : Z) (pulp_href version : string)
    (is_flat_repo : bool) (s : Session.t) :
  let (s', r) :=
    (repo_type <- lift (PulpHelpers.get_repo_type_from_href pulp_href) ;;
     publication_pulp_task <- Pulp.create_publication_from_repo_version be
                                version repo_type is_flat_repo ;;
     publication_stage <- TableRepository.task_stage_add
       ("publishing repo version " +:+ version) task_id
       (Some {[ "msg" := "task in state " +:+ Pulp.task_state publication_pulp_task;
                "task_href" := Pulp.task_href publication_pulp_task +:+ " " ]}) None ;;
     commit ;;;
     polled <- RemoveContentTask.poll be polls publication_stage publication_pulp_task ;;
     match polled with
     | None => ret None
     | Some publication_pulp_task =>
         if negb (String.eqb (Pulp.task_state publication_pulp_task) "completed")
         then raise (PulpManagerPulpTaskError
                       ("publication task " +:+ Pulp.task_href publication_pulp_task
                        +:+ " failed"))
         else ret (Some tt)
     end) s in
  (stage_names s' = stage_names s
   \/ stage_names s' = (stage_names s ++ ["publishing repo version " +:+ version])%list)
  /\ match PulpHelpers.get_repo_type_from_href pulp_href with
     | Ok repo_type =>
         publish_requests (Session.calls s')
         = (publish_requests (Session.calls s) ++ [(version, repo_type, is_flat_repo)])%list
     | Raise e =>
         r = Raise e
         /\ publish_requests (Session.calls s') = publish_requests (Session.calls s)
     end.
Proof.
  destruct s as [[tasks nid stages srv repos links] c calls].
  cbv [Pulp.create_publication_from_repo_version]. run_monad.
  destruct (PulpHelpers.get_repo_type_from_href pulp_href) as [repo_type|e];
    cbv beta iota zeta; [|split; [left; reflexivity | split; reflexivity]].
  destruct (Pulp.server_publish be (length calls) version repo_type is_flat_repo)
    as [publication|e]; cbv beta iota zeta.
  - match goal with
    | |- context [RemoveContentTask.poll be polls ?stage publication ?s0] =>
        destruct (poll_keeps polls stage publication s0) as [Hcalls Hnames];
        destruct (RemoveContentTask.poll be polls stage publication s0) as [s1 r1]
    end.
    cbn zeta in Hcalls, Hnames. unfold stage_names in *.
    cbn [fst Session.db Session.calls Db.task_stages] in *.
    rewrite publish_requests_app in Hcalls. cbn [publish_requests] in Hcalls.
    rewrite List.map_app in Hnames. cbn [List.map TaskStage.name] in Hnames.
    destruct r1 as [[t|]|e]; cbv beta iota zeta;
      [destruct (negb (String.eqb (Pulp.task_state t) "completed"))| |];
      cbn [Session.db Session.calls Db.task_stages];
      (split; [right; exact Hnames | exact Hcalls]).
  - unfold stage_names. cbn [Session.db Session.calls Db.task_stages].
    rewrite publish_requests_app. cbn [publish_requests].
    split; [left; reflexivity | reflexivity].
Qed.

(** C9: after the modify task has completed, the publication is skipped,
    and a stage that says so is added, exactly when the modify task
    created no resources and [force_publish] is false.  Otherwise no such
    stage is added and the one publication requested is that of the
    modify task's first created resource, or of [latest_version_href]
    when it created none, with the flatness of a DEB repository read from
    its remote; when the remote or the repo type cannot be read, nothing
    is published and the error is raised. *)
Theorem publish_after_modify_decision (polls : nat) (task_id : Z) (force_publish : bool)
    (pm_pulp_server_repo : PulpServerRepo.t) (pulp_repo : Pulp.Repository)
    (modify_pulp_task : Pulp.Task) (s : Session.t) :
  let (s', r) :=
    RemoveContentTask.publish_after_modify be polls task_id force_publish
      pm_pulp_server_repo pulp_repo modify_pulp_task s in
  if Nat.eqb (length (Pulp.created_resources modify_pulp_task)) 0 && negb force_publish
  then r = Ok (Some tt)
       /\ Session.calls s' = Session.calls s
       /\ stage_names s' = (stage_names s ++ [skipped_stage_name])%list
  else (stage_names s' = stage_names s
        \/ stage_names s'
           = (stage_names s
              ++ ["publishing repo version "
                  +:+ version_to_publish modify_pulp_task pulp_repo])%list)
       /\ match expected_publication be pm_pulp_server_repo pulp_repo modify_pulp_task s with
          | Ok request =>
              publish_requests (Session.calls s')
              = (publish_requests (Session.calls s) ++ [request])%list
          | Raise e =>
              r = Raise e
              /\ publish_requests (Session.calls s') = publish_requests (Session.calls s)
          end.
Proof.
  unfold RemoveContentTask.publish_after_modify, expected_publication.
  destruct (Nat.eqb (length (Pulp.created_resources modify_pulp_task)) 0
            && negb force_publish).
  - destruct s as [[tasks nid stages srv repos links] c calls].
    run_monad. unfold stage_names. cbn [Session.db Session.calls Db.task_stages].
    rewrite List.map_app. repeat split; reflexivity.
  - fold (version_to_publish modify_pulp_task pulp_repo).
    set (version := version_to_publish modify_pulp_task pulp_repo).
    unfold bind at 1.
    destruct (String.eqb (Pulp.repo_class pulp_repo) "deb").
    + unfold bind at 1.
      pose proof (get_remote_keeps (PulpServerRepo.remote_href pm_pulp_server_repo) s)
        as Hkeeps.
      destruct (Pulp.get_remote be (PulpServerRepo.remote_href pm_pulp_server_repo) s)
        as [s1 [remote|e]]; destruct Hkeeps as [Hcalls Hnames]; cbn [fst snd rbind] in *.
      * unfold lift at 1.
        destruct (Pulp.is_flat_repo remote) as [is_flat|e]; cbn [rbind].
        -- pose proof (publication_requested polls task_id (Pulp.repo_pulp_href pulp_repo)
                         version is_flat s1) as Htail.
           match type of Htail with
           | let (_, _) := ?run in _ => destruct run as [s2 r2]
           end.
           rewrite Hcalls, Hnames in Htail. destruct Htail as [Hstages Hreq].
           split; [exact Hstages|].
           destruct (PulpHelpers.get_repo_type_from_href (Pulp.repo_pulp_href pulp_repo));
             exact Hreq.
        -- split; [left; exact Hnames | split; [reflexivity | exact Hcalls]].
      * split; [left; exact Hnames | split; [reflexivity | exact Hcalls]].
    + unfold ret at 1. cbn [rbind].
      pose proof (publication_requested polls task_id (Pulp.repo_pulp_href pulp_repo)
                    version false s) as Htail.
      match type of Htail with
      | let (_, _) := ?run in _ => destruct run as [s2 r2]
      end.
      destruct Htail as [Hstages Hreq]. split; [exact Hstages|].
      destruct (PulpHelpers.get_repo_type_from_href (Pulp.repo_pulp_href pulp_repo));
        exact Hreq.
Qed.

End RemoveContent.

(** Whole runs of [remove_repo_content], with a [PulpManager] whose
    construction does nothing: nothing created and no force, the
    publication is skipped and the task completes; a flat DEB repo whose
    modify created a version has that version published flat; with
    [force_publish] and nothing created the latest version is
    published. *)
Example remove_repo_content_runs :
  let s := job_session [sample_repo 1 "ext-foo" (Some "https://upstream/foo") None; deb_row]
                       (Some true) in
  let skipped := RemoveContentTask.remove_repo_content (settled_server [] []) "worker1" None
                   (ret tt) 5 100 "ext-foo" "/pulp/api/v3/content/rpm/packages/abc/" 1 false s in
  let flat := RemoveContentTask.remove_repo_content
                (flat_deb_server ["/pulp/api/v3/repositories/deb/apt/4/versions/2/"])
                "worker1" None (ret tt) 5 100 "ext-deb" "/pulp/api/v3/content/deb/packages/abc/" 1
                false s in
  let forced := RemoveContentTask.remove_repo_content (settled_server [] []) "worker1" None
                  (ret tt) 5 100 "ext-foo" "/pulp/api/v3/content/rpm/packages/abc/" 1 true s in
  snd skipped = Ok (Some tt)
  /\ stage_names (fst skipped)
     = ["finding repo on pulp server"; "modifying repo content"; skipped_stage_name]
  /\ publish_requests (Session.calls (fst skipped)) = []
  /\ committed_state (fst skipped) 1 = Some (Ok (Some "completed"))
  /\ publish_requests (Session.calls (fst flat))
     = [("/pulp/api/v3/repositories/deb/apt/4/versions/2/", "deb", true)]
  /\ committed_state (fst flat) 1 = Some (Ok (Some "completed"))
  /\ publish_requests (Session.calls (fst forced))
     = [("/pulp/api/v3/repositories/rpm/rpm/1/versions/1/", "rpm", false)].
Proof. vm_compute. repeat split; reflexivity. Qed.

(** * Further properties *)

(** ** Task states read back *)

(** X1: a member of [TaskState] can be written by name, in any casing, or
    by value, and the [state] property reads the same name back: no two
    states share a value. *)
Theorem state_round_trip (k : Task.t) (n : string) (v : Z) :
  Enum.by_name TaskState n = Some v ->
  (forall s, lower s = n -> rbind (Task.set_state (PyStr s) k) Task.state = Ok (Some n))
  /\ rbind (Task.set_state (PyInt v) k) Task.state = Ok (Some n).
Proof.
  intros Hn.
  assert (Hmem : In (n, v) TaskState).
  { unfold Enum.by_name in Hn.
    destruct (find _ TaskState) as [[n' v']|] eqn:Hf; [|discriminate].
    apply find_some in Hf as [Hin Heq]. cbn in Hn, Heq.
    apply String.eqb_eq in Heq. congruence. }
  cbn in Hmem.
  repeat (destruct Hmem as [Hmem | Hmem];
          [injection Hmem as <- <-; split;
           [intros s Hs; unfold Task.set_state; rewrite Hs|]; reflexivity|]).
  contradiction.
Qed.

Lemma state_round_trip_witness :
  Enum.by_name TaskState "failed" = Some 4
  /\ (forall s, lower s = "failed" ->
        rbind (Task.set_state (PyStr s) (blank_task 1 2)) Task.state = Ok (Some "failed"))
  /\ rbind (Task.set_state (PyInt 4) (blank_task 1 2)) Task.state = Ok (Some "failed").
Proof.
  split; [reflexivity|].
  exact (state_round_trip (blank_task 1 2) "failed" 4 eq_refl).
Defined.

(** ** Hrefs and the types read from them *)

Lemma append_cons (c : ascii) (s t : string) : String c s +:+ t = String c (s +:+ t).
Proof. reflexivity. Qed.

Lemma strip_prefix_app (p s : string) : strip_prefix p (p +:+ s) = Some s.
Proof.
  induction p as [|c p IH]; [now destruct s|].
  rewrite append_cons. cbn [strip_prefix]. now rewrite Ascii.eqb_refl.
Qed.

Lemma strip_prefix_inv (p s r : string) : strip_prefix p s = Some r -> s = p +:+ r.
Proof.
  revert s. induction p as [|c p IH]; intros s H.
  - cbn in H. injection H as <-. reflexivity.
  - destruct s as [|c' s]; cbn in H; [discriminate|].
    destruct (Ascii.eqb_spec c c') as [->|]; [|discriminate].
    rewrite append_cons. f_equal. now apply IH.
Qed.

Lemma span_lower_inv (s run tail : string) :
  span_lower s = (run, tail) ->
  s = run +:+ tail /\ all_lower run = true /\ stops_run tail.
Proof.
  revert run tail. induction s as [|c s IH]; intros run tail H; cbn in H.
  - injection H as <- <-. repeat split.
  - destruct (is_lower c) eqn:Hc.
    + destruct (span_lower s) as [run' tail'] eqn:Hs. injection H as <- <-.
      destruct (IH _ _ eq_refl) as (-> & Hl & Ht).
      rewrite append_cons. cbn [all_lower]. rewrite Hc, Hl. repeat split. exact Ht.
    + injection H as <- <-. repeat split. exact Hc.
Qed.

Lemma span_lower_app (run tail : string) :
  all_lower run = true -> stops_run tail -> span_lower (run +:+ tail) = (run, tail).
Proof.
  intros Hl Ht. induction run as [|c run IH].
  - destruct tail as [|c tail]; [reflexivity|].
    cbn in Ht. change (EmptyString +:+ String c tail) with (String c tail).
    cbn [span_lower]. now rewrite Ht.
  - cbn [all_lower] in Hl. apply andb_true_iff in Hl as [Hc Hl].
    rewrite append_cons. cbn [span_lower]. rewrite Hc, (IH Hl). reflexivity.
Qed.

Lemma type_segment_app (w rest : string) :
  is_word w = true -> type_segment (w +:+ "/" +:+ rest) = Some (w, rest).
Proof.
  intros Hw. unfold type_segment.
  destruct w as [|c w]; [discriminate|]. cbn [is_word] in Hw.
  rewrite (span_lower_app (String c w) ("/" +:+ rest) Hw); reflexivity.
Qed.

Lemma type_segment_inv (s w rest : string) :
  type_segment s = Some (w, rest) -> s = w +:+ "/" +:+ rest /\ is_word w = true.
Proof.
  unfold type_segment. destruct (span_lower s) as [run tail] eqn:Hs.
  apply span_lower_inv in Hs as (-> & Hl & _).
  destruct run as [|c run]; [discriminate|].
  destruct tail as [|c' tail]; [discriminate|].
  destruct (Ascii.eqb_spec c' "/") as [->|Hne].
  - intros H. injection H as <- <-. split; [reflexivity | exact Hl].
  - intros H. exfalso. apply Hne.
    destruct c' as [[] [] [] [] [] [] [] []]; try discriminate H. reflexivity.
Qed.

Lemma href_type_app (prefix t rest : string) :
  is_word t = true -> href_type prefix (prefix +:+ t +:+ "/" +:+ rest) = Some t.
Proof.
  intros Ht. unfold href_type. rewrite strip_prefix_app. cbn [mbind option_bind].
  now rewrite type_segment_app.
Qed.

Lemma href_type_inv (prefix href t : string) :
  href_type prefix href = Some t ->
  is_word t = true /\ exists rest, href = prefix +:+ t +:+ "/" +:+ rest.
Proof.
  unfold href_type. destruct (strip_prefix prefix href) as [tail|] eqn:Hp; [|discriminate].
  cbn [mbind option_bind]. destruct (type_segment tail) as [[w rest]|] eqn:Hw; [|discriminate].
  cbn. intros H. injection H as <-.
  apply strip_prefix_inv in Hp as ->. apply type_segment_inv in Hw as [-> Hw].
  split; [exact Hw | now exists rest].
Qed.

(** X2: [get_repo_type_from_href] returns [t] exactly for the hrefs
    [/pulp/api/v3/<kind>/<t>/...] where [kind] and [t] are non-empty runs
    of lower-case letters; for every href that has no such shape it
    raises [PulpManagerValueError] with a message that names the href. *)
Theorem repo_type_from_href_shape (pulp_href : string) :
  (forall t,
     PulpHelpers.get_repo_type_from_href pulp_href = Ok t
     <-> exists kind rest,
           pulp_href = "/pulp/api/v3/" +:+ kind +:+ "/" +:+ t +:+ "/" +:+ rest
           /\ is_word kind = true /\ is_word t = true)
  /\ ((forall t kind rest,
         ~ (pulp_href = "/pulp/api/v3/" +:+ kind +:+ "/" +:+ t +:+ "/" +:+ rest
            /\ is_word kind = true /\ is_word t = true))
      <-> PulpHelpers.get_repo_type_from_href pulp_href
          = Raise (PulpManagerValueError
                     ("repo type could not be determined from pulp_href " +:+ pulp_href))).
Proof.
  assert (Hshape : forall t,
            PulpHelpers.get_repo_type_from_href pulp_href = Ok t
            <-> exists kind rest,
                  pulp_href = "/pulp/api/v3/" +:+ kind +:+ "/" +:+ t +:+ "/" +:+ rest
                  /\ is_word kind = true /\ is_word t = true).
  { intros t. unfold PulpHelpers.get_repo_type_from_href. split.
    - destruct (strip_prefix "/pulp/api/v3/" pulp_href) as [tail|] eqn:Hp;
        cbn [mbind option_bind]; [|discriminate].
      destruct (type_segment tail) as [[kind tail']|] eqn:Hk;
        cbn [mbind option_bind]; [|discriminate].
      destruct (type_segment tail') as [[w rest]|] eqn:Hw; cbn; [|discriminate].
      intros H. injection H as <-.
      apply strip_prefix_inv in Hp as ->.
      apply type_segment_inv in Hk as [-> Hk]. apply type_segment_inv in Hw as [-> Hw].
      now exists kind, rest.
    - intros (kind & rest & -> & Hk & Ht).
      rewrite strip_prefix_app. cbn [mbind option_bind].
      rewrite (type_segment_app kind _ Hk). cbn [mbind option_bind].
      now rewrite (type_segment_app t _ Ht). }
  split; [exact Hshape|]. split.
  - intros Hnone.
    destruct (PulpHelpers.get_repo_type_from_href pulp_href) as [t|e] eqn:Hr.
    + destruct (proj1 (Hshape t) eq_refl) as (kind & rest & H).
      now destruct (Hnone t kind rest).
    + clear Hshape. revert Hr. unfold PulpHelpers.get_repo_type_from_href.
      destruct (_ ≫= _); [discriminate|]. now intros [= <-].
  - intros Hraise t kind rest H.
    assert (Hok : PulpHelpers.get_repo_type_from_href pulp_href = Ok t)
      by (apply Hshape; now exists kind, rest).
    rewrite Hraise in Hok. discriminate.
Qed.

Lemma repo_type_from_href_shape_words (t rest : string) :
  is_word t = true ->
  PulpHelpers.get_repo_type_from_href ("/pulp/api/v3/repositories/" +:+ t +:+ "/" +:+ rest)
  = Ok t.
Proof.
  intros Ht. unfold PulpHelpers.get_repo_type_from_href.
  change ("/pulp/api/v3/repositories/" +:+ t +:+ "/" +:+ rest)
    with ("/pulp/api/v3/" +:+ "repositories" +:+ "/" +:+ t +:+ "/" +:+ rest).
  rewrite strip_prefix_app. cbn [mbind option_bind].
  rewrite (type_segment_app "repositories" _ eq_refl). cbn [mbind option_bind].
  now rewrite (type_segment_app t _ Ht).
Qed.

Lemma repo_types_words (t : string) : In t Pulp.repo_types -> is_word t = true.
Proof.
  cbn. intros H. repeat (destruct H as [<- | H]; [reflexivity|]). contradiction.
Qed.

Lemma repo_types_existsb (t : string) :
  existsb (String.eqb t) Pulp.repo_types = true <-> In t Pulp.repo_types.
Proof.
  rewrite existsb_exists. split.
  - intros (x & Hin & Heq). apply String.eqb_eq in Heq. now subst.
  - intros Hin. exists t. split; [exact Hin | apply String.eqb_refl].
Qed.

Section Bindings.
Context (be : Pulp.Backend).

(** X3: [get_repo] sends exactly one request, the GET of the href, when
    the href is [/pulp/api/v3/repositories/<t>/...] for one of the five
    supported types [t]; the class of the repository it returns is then
    [t], which is also what [get_repo_type_from_href] reads from the
    href.  Every other href raises [PulpV3InvalidArgumentError] and
    leaves the session, requests included, untouched. *)
Theorem get_repo_request (href : string) (s : Session.t) :
  let (s', r) := Pulp.get_repo be href s in
  (exists t rest,
      href = "/pulp/api/v3/repositories/" +:+ t +:+ "/" +:+ rest
      /\ In t Pulp.repo_types
      /\ Session.calls s' = (Session.calls s ++ [CallGet href])%list
      /\ PulpHelpers.get_repo_type_from_href href = Ok t
      /\ forall repo, r = Ok repo -> Pulp.repo_class repo = t)
  \/ ((forall t rest, href = "/pulp/api/v3/repositories/" +:+ t +:+ "/" +:+ rest ->
                      ~ In t Pulp.repo_types)
      /\ s' = s
      /\ exists msg, r = Raise (PulpV3InvalidArgumentError msg)).
Proof.
  unfold Pulp.get_repo.
  destruct (href_type "/pulp/api/v3/repositories/" href) as [t|] eqn:Ht.
  - destruct (existsb (String.eqb t) Pulp.repo_types) eqn:Hin.
    + apply repo_types_existsb in Hin.
      destruct (href_type_inv _ _ _ Ht) as [Hw [rest ->]].
      destruct s as [d c calls]. run_monad.
      destruct (Pulp.server_repo be (length calls) _) as [repo|e] eqn:Hr;
        left; exists t, rest; (split; [reflexivity|]); (split; [exact Hin|]);
        (split; [reflexivity|]); (split; [|intros repo' H; now inversion H]);
        apply repo_type_from_href_shape_words; assumption.
    + right. split; [|split; [reflexivity | eexists; reflexivity]].
      intros t' rest -> Hin'.
      rewrite (href_type_app _ t' rest (repo_types_words _ Hin')) in Ht.
      injection Ht as <-. apply repo_types_existsb in Hin'. congruence.
  - right. split; [|split; [reflexivity | eexists; reflexivity]].
    intros t' rest -> Hin'.
    rewrite (href_type_app _ t' rest (repo_types_words _ Hin')) in Ht. discriminate.
Qed.

End Bindings.

(** ** The sync scheduler: what a pass takes in *)

Lemma dict_set_In (key x : Z) (d : list Z) :
  In x (RepoSyncher.dict_set key d) <-> x = key \/ In x d.
Proof.
  unfold RepoSyncher.dict_set. destruct (existsb (Z.eqb key) d) eqn:He.
  - apply existsb_exists in He as (y & Hy & Heq). apply Z.eqb_eq in Heq. subst y.
    split; [now right | intros [-> | H]; assumption].
  - rewrite in_app_iff. cbn. intuition.
Qed.

Lemma fill_rev_takes (k : Z) (rpending in_progress rpending' in_progress' : list Z) :
  RepoSyncher.fill_rev k rpending in_progress = (rpending', in_progress') ->
  exists taken,
    rpending = (taken ++ rpending')%list
    /\ (forall x, In x in_progress' <-> In x in_progress \/ In x taken)
    /\ (rpending' = [] \/ Z.of_nat (length in_progress') = k).
Proof.
  revert in_progress. induction rpending as [|task rest IH]; intros in_progress H.
  - cbn in H. injection H as <- <-. exists []. split; [reflexivity|].
    split; [cbn; tauto | now left].
  - cbn [RepoSyncher.fill_rev] in H.
    destruct (Z.eqb_spec (Z.of_nat (length in_progress)) k) as [Heq|Hne].
    + injection H as <- <-. exists []. split; [reflexivity|].
      split; [cbn; tauto | now right].
    + destruct (IH _ H) as (taken & -> & Hin & Hend).
      exists (task :: taken). split; [reflexivity|]. split; [|exact Hend].
      intros x. rewrite Hin, dict_set_In. cbn. intuition (subst; auto).
Qed.

(** X4: a pass of the sync scheduler loses no task.  The tasks it takes
    in are the last ones of the pending list; they join the tasks in
    progress, the others stay pending in their order, and the taking
    stops only when nothing is pending or the dict holds
    [max_concurrent_syncs] tasks. *)
Theorem fill_takes_from_the_end (k : Z) (pending in_progress : list Z) :
  let (pending', in_progress') := RepoSyncher.fill k pending in_progress in
  exists taken,
    pending = (pending' ++ taken)%list
    /\ (forall x, In x in_progress' <-> In x in_progress \/ In x taken)
    /\ (pending' = [] \/ Z.of_nat (length in_progress') = k).
Proof.
  unfold RepoSyncher.fill.
  destruct (RepoSyncher.fill_rev k (rev pending) in_progress) as [rpending' in_progress'] eqn:H.
  destruct (fill_rev_takes _ _ _ _ _ H) as (taken & Hrev & Hin & Hend).
  exists (rev taken). split; [|split].
  - rewrite <- rev_app_distr, <- Hrev. symmetry. apply rev_involutive.
  - intros x. rewrite Hin, <- in_rev. tauto.
  - destruct Hend as [-> | Hlen]; [now left | now right].
Qed.

Lemma stage_task_id_setattrs (kwargs : list TaskStage.kwarg) (st : TaskStage.t) :
  TaskStage.task_id (fold_left (fun s a => TaskStage.setattr a s) kwargs st)
  = TaskStage.task_id st.
Proof.
  revert st. induction kwargs as [|a kwargs IH]; intros st; [reflexivity|].
  cbn [fold_left]. rewrite IH. destruct a; reflexivity.
Qed.

Lemma stages_of_alter_length (kwargs : list TaskStage.kwarg) (sid : nat) (task_id : Z)
    (l : list TaskStage.t) :
  length (List.filter (fun s => Z.eqb (TaskStage.task_id s) task_id)
            (alter (fun s => fold_left (fun s a => TaskStage.setattr a s) kwargs s) sid l))
  = length (List.filter (fun s => Z.eqb (TaskStage.task_id s) task_id) l).
Proof.
  revert sid. induction l as [|x l IH]; intros [|sid]; try reflexivity.
  - change (alter ?f 0%nat (x :: l)) with (f x :: l). cbn [List.filter].
    rewrite stage_task_id_setattrs. now destruct (Z.eqb _ _).
  - change (alter ?f (S sid) (x :: l)) with (x :: alter f sid l). cbn [List.filter].
    destruct (Z.eqb _ _); cbn [length]; now rewrite IH.
Qed.

Lemma fill_no_slot (pending : list Z) :
  RepoSyncher.fill 0 pending [] = (pending, []).
Proof.
  unfold RepoSyncher.fill. destruct (rev pending) as [|x l] eqn:Hr.
  - apply (f_equal (@rev Z)) in Hr. rewrite rev_involutive in Hr. now subst.
  - cbn [RepoSyncher.fill_rev length]. change (Z.eqb (Z.of_nat 0) 0) with true.
    cbv beta iota. rewrite <- Hr, rev_involutive. reflexivity.
Qed.

Section NoSlots.
Context (be : Pulp.Backend) (internal_domains : string).

Lemma sync_round_no_slot (now parent_task : Z) (total : nat) (pending : list Z)
    (s : Session.t) :
  Db.stages_of parent_task (Session.db s) <> [] ->
  exists s',
    RepoSyncher.sync_round be internal_domains now parent_task total 0 (pending, []) s
    = (s', Ok (pending, []))
    /\ Session.calls s' = Session.calls s
    /\ Db.tasks (Session.db s') = Db.tasks (Session.db s)
    /\ Db.stages_of parent_task (Session.db s') <> [].
Proof.
  intros Hst. unfold RepoSyncher.sync_round. cbn [fst snd]. rewrite fill_no_slot.
  cbn [RepoSyncher.process_tasks]. destruct s as [[tasks nid stages srv repos links] c calls].
  cbv [RepoSyncher.report_status RepoSyncher._update_overall_sync_status]. run_monad.
  cbn [Session.db Db.stages_of Db.task_stages] in Hst.
  unfold Db.stages_of. cbn [Db.task_stages].
  destruct (last (List.filter _ stages)) as [st|] eqn:Hl.
  - eexists. split; [reflexivity|]. cbn [Session.calls Session.db Db.tasks Db.task_stages].
    split; [reflexivity|]. split; [reflexivity|].
    intros Hnil. apply (f_equal (@length _)) in Hnil.
    rewrite stages_of_alter_length in Hnil. apply Hst. now apply length_zero_iff_nil.
  - apply last_None in Hl. contradiction.
Qed.

Lemma sync_loop_no_slot (rounds : nat) (now parent_task : Z) (total : nat)
    (pending : list Z) (s : Session.t) :
  pending <> [] ->
  Db.stages_of parent_task (Session.db s) <> [] ->
  exists s',
    RepoSyncher.sync_loop be internal_domains rounds now parent_task total 0 (pending, []) s
    = (s', Ok (pending, []))
    /\ Session.calls s' = Session.calls s
    /\ Db.tasks (Session.db s') = Db.tasks (Session.db s).
Proof.
  intros Hp. revert s. induction rounds as [|n IH]; intros s Hst.
  - exists s. repeat split.
  - cbn [RepoSyncher.sync_loop]. unfold RepoSyncher.sync_busy. cbn [fst snd length].
    destruct pending as [|x l]; [contradiction|]. cbn [length Nat.eqb negb orb]. unfold bind.
    destruct (sync_round_no_slot now parent_task total (x :: l) s Hst)
      as (s1 & -> & Hc1 & Ht1 & Hst1).
    destruct (IH s1 Hst1) as (s2 & -> & Hc2 & Ht2).
    exists s2. split; [reflexivity|]. split; congruence.
Qed.

(** X5: with [max_concurrent_syncs = 0] the sync scheduler never ends
    and never starts a sync.  The test that guards the taking of tasks
    is [len(tasks_in_progress) != max_concurrent_syncs], which is false
    for the empty dict, so however many passes the loop makes the
    pending list is as it was, no request has gone to the server and no
    task row has changed. *)
Theorem sync_without_slots_never_ends (rounds : nat) (now parent_task : Z)
    (repo_tasks : list Z) (s : Session.t) :
  repo_tasks <> [] ->
  let (s', r) := RepoSyncher._do_sync_repos be internal_domains rounds now parent_task
                   repo_tasks 0 s in
  r = Ok None
  /\ Session.calls s' = Session.calls s
  /\ Db.tasks (Session.db s') = Db.tasks (Session.db s).
Proof.
  intros Hp. unfold RepoSyncher._do_sync_repos.
  destruct s as [[tasks nid stages srv repos links] c calls].
  cbv [bind TableRepository.task_stage_add get_db modify_db commit ret Session.db
       Session.with_db Session.committed Session.calls Db.with_task_stages Db.task_stages
       Db.tasks Db.next_task_id Db.pulp_server Db.repos Db.pulp_server_repo_tasks].
  match goal with
  | |- context [RepoSyncher.sync_loop _ _ _ _ _ _ _ _ ?s0] =>
      destruct (sync_loop_no_slot rounds now parent_task (length repo_tasks) repo_tasks s0 Hp)
        as (s1 & -> & Hc & Ht)
  end.
  - unfold Db.stages_of. cbn [Session.db Db.task_stages].
    rewrite List.filter_app. cbn [List.filter TaskStage.task_id]. rewrite Z.eqb_refl.
    intros H. apply app_eq_nil in H as [_ H]. discriminate.
  - unfold RepoSyncher.sync_busy. cbn [fst snd length].
    destruct repo_tasks as [|x l]; [contradiction|]. cbn [length Nat.eqb negb orb].
    split; [reflexivity|]. split; [exact Hc | exact Ht].
Qed.

End NoSlots.

Lemma sync_without_slots_never_ends_witness :
  [1; 2; 3] <> []
  /\ let (s', r) := RepoSyncher._do_sync_repos (settled_server [] []) "example.org" 50 100 10
                      [1; 2; 3] 0 sync_run_session in
     r = Ok None
     /\ Session.calls s' = Session.calls sync_run_session
     /\ Db.tasks (Session.db s') = Db.tasks (Session.db sync_run_session).
Proof.
  split; [discriminate|].
  exact (sync_without_slots_never_ends (settled_server [] []) "example.org" 50 100 10
           [1; 2; 3] sync_run_session ltac:(discriminate)).
Defined.

(** ** The task service *)

(** X6: the task service does nothing for an id it does not find.
    [update_task], [complete_task], [log_task_error] and
    [add_task_stage] on an unknown task id, and [update_task_stage] on
    an unknown stage id, return without an error and leave the session
    as it was: nothing is written, committed or rolled back. *)
Theorem unknown_ids_change_nothing (s : Session.t) (now task_id : Z) (sid : nat)
    (u : TaskService.TaskUpdateInfo) (text : string) (detail : json) :
  Db.tasks (Session.db s) !! task_id = None ->
  Db.task_stages (Session.db s) !! sid = None ->
  TaskService.update_task task_id u s = (s, Ok None)
  /\ TaskService.complete_task now task_id s = (s, Ok None)
  /\ TaskServiceOps.log_task_error now task_id text s = (s, Ok tt)
  /\ TaskServiceOps.add_task_stage task_id text detail s = (s, Ok None)
  /\ TaskServiceOps.update_task_stage sid text s = (s, Ok None).
Proof.
  intros Hk Hs. destruct s as [d c calls]. cbn [Session.db] in Hk, Hs.
  cbv [TaskService.update_task TaskService.complete_task TaskServiceOps.log_task_error
       TaskServiceOps.add_task_stage TaskServiceOps.update_task_stage
       TableRepository.task_get_by_id bind get_db ret Session.db].
  rewrite Hk, Hs. repeat split.
Qed.

Lemma unknown_ids_change_nothing_witness :
  let s := completed_task_session in
  Db.tasks (Session.db s) !! 7 = None
  /\ Db.task_stages (Session.db s) !! 0%nat = None
  /\ TaskService.update_task 7 to_running s = (s, Ok None)
  /\ TaskService.complete_task 100 7 s = (s, Ok None)
  /\ TaskServiceOps.log_task_error 100 7 "boom" s = (s, Ok tt)
  /\ TaskServiceOps.add_task_stage 7 "boom" ∅ s = (s, Ok None)
  /\ TaskServiceOps.update_task_stage 0 "boom" s = (s, Ok None).
Proof.
  split; [reflexivity|]. split; [reflexivity|].
  exact (unknown_ids_change_nothing completed_task_session 100 7 0 to_running "boom" ∅
           eq_refl eq_refl).
Defined.

(** X7: [update_task] needs the key [new_state] although
    [TaskUpdateInfo] declares every key optional.  Without it the call
    raises [KeyError] and rolls the session back: the rows are those last
    committed, so changes the caller had not committed are gone. *)
Theorem update_task_requires_new_state (s : Session.t) (task_id : Z) (k : Task.t)
    (u : TaskService.TaskUpdateInfo) :
  Db.tasks (Session.db s) !! task_id = Some k ->
  TaskService.new_state u = None ->
  let (s', r) := TaskService.update_task task_id u s in
  r = Raise (KeyError "new_state")
  /\ Session.db s' = Session.committed s
  /\ Session.committed s' = Session.committed s.
Proof.
  intros Hk Hu. destruct s as [d c calls]. cbn [Session.db] in Hk.
  cbv [TaskService.update_task bind try_except TableRepository.task_get_by_id
       get_db ret raise rollback Session.db Session.committed Session.calls].
  rewrite Hk, Hu. repeat split.
Qed.

Lemma update_task_requires_new_state_witness :
  let u := TaskService.mkUpdate None (Some (Some "worker2")) None None in
  Db.tasks (Session.db completed_task_session) !! 1 = Some (blank_task 1 3)
  /\ TaskService.new_state u = None
  /\ let (s', r) := TaskService.update_task 1 u completed_task_session in
     r = Raise (KeyError "new_state")
     /\ Session.db s' = Session.committed completed_task_session
     /\ Session.committed s' = Session.committed completed_task_session.
Proof.
  split; [reflexivity|]. split; [reflexivity|].
  exact (update_task_requires_new_state completed_task_session 1 (blank_task 1 3)
           (TaskService.mkUpdate None (Some (Some "worker2")) None None) eq_refl eq_refl).
Defined.

(** X8: [update_task] merges the task arguments.  After a successful
    update every key of the update holds the update's value and every
    other key holds what the task had before; worker name and job id are
    replaced only when the update gives them.  The merged row is the
    committed one. *)
Theorem update_task_merges_args (s : Session.t) (task_id : Z) (k : Task.t)
    (u : TaskService.TaskUpdateInfo) (v : Z) :
  Db.tasks (Session.db s) !! task_id = Some k ->
  TaskService.new_state u = Some v ->
  Enum.has_value TaskState v = true ->
  let (s', r) := TaskService.update_task task_id u s in
  exists k',
    r = Ok (Some k')
    /\ Db.tasks (Session.committed s') !! task_id = Some k'
    /\ (forall key,
          Task.task_args k' !! key
          = match default ∅ (TaskService.task_args u) !! key with
            | Some x => Some x
            | None => Task.task_args k !! key
            end)
    /\ Task.worker_name k' = default (Task.worker_name k) (TaskService.worker_name u)
    /\ Task.worker_job_id k' = default (Task.worker_job_id k) (TaskService.worker_job_id u).
Proof.
  intros Hk Hu Hv. destruct s as [d c calls]. cbn [Session.db] in Hk.
  cbv [TaskService.update_task bind try_except TableRepository.task_get_by_id
       TableRepository.task_update get_db ret raise lift modify_db commit rollback
       Session.db Session.committed Session.with_db Session.calls].
  rewrite Hk, Hu, Hk.
  cbn [TableRepository.task_setattrs TableRepository.task_setattr Task.set_state rbind].
  rewrite Hv. cbn. rewrite lookup_insert_eq. eexists. split; [reflexivity|].
  split; [reflexivity|]. split; [|split; reflexivity].
  intros key. cbn. rewrite lookup_union.
  destruct (default ∅ (TaskService.task_args u) !! key) as [x|];
    destruct (Task.task_args k !! key); reflexivity.
Qed.

Lemma update_task_merges_args_witness :
  let k := queued_child 1 in
  let u := TaskService.mkUpdate (Some 2) None None (Some {[ "repo_href" := "/other/" ]}) in
  Db.tasks (Session.db sync_run_session) !! 1 = Some k
  /\ TaskService.new_state u = Some 2
  /\ Enum.has_value TaskState 2 = true
  /\ let (s', r) := TaskService.update_task 1 u sync_run_session in
     exists k',
       r = Ok (Some k')
       /\ Db.tasks (Session.committed s') !! 1 = Some k'
       /\ (forall key,
             Task.task_args k' !! key
             = match default ∅ (TaskService.task_args u) !! key with
               | Some x => Some x
               | None => Task.task_args k !! key
               end)
       /\ Task.worker_name k' = default (Task.worker_name k) (TaskService.worker_name u)
       /\ Task.worker_job_id k' = default (Task.worker_job_id k) (TaskService.worker_job_id u).
Proof.
  split; [reflexivity|]. split; [reflexivity|]. split; [reflexivity|].
  exact (update_task_merges_args sync_run_session 1 (queued_child 1)
           (TaskService.mkUpdate (Some 2) None None (Some {[ "repo_href" := "/other/" ]})) 2
           eq_refl eq_refl eq_refl).
Defined.

(** X9: [create_task] either commits a queued task or leaves no trace.
    With a task type that names a member of [TaskType] (in any casing)
    the new row gets the next id, is queued and is committed; with any
    other name the call raises [ValueError] and rolls the session back,
    so that no row is added. *)
Theorem create_task_outcome (s : Session.t) (info : TaskServiceOps.TaskInfo)
    (task_name ty : string) :
  TaskServiceOps.name info = Some task_name ->
  TaskServiceOps.task_type info = Some (PyStr ty) ->
  let (s', r) := TaskServiceOps.create_task info s in
  match Enum.by_name TaskType (lower ty) with
  | Some v =>
      exists k,
        r = Ok k
        /\ Task.id k = Db.next_task_id (Session.db s)
        /\ Task.name k = task_name
        /\ Task.state k = Ok (Some "queued")
        /\ Task.task_type_id k = Some v
        /\ Db.tasks (Session.committed s') !! Task.id k = Some k
  | None =>
      r = Raise (ValueError ("Invalid task type specified: " +:+ ty))
      /\ Session.db s' = Session.committed s
      /\ Session.committed s' = Session.committed s
  end.
Proof.
  intros Hn Ht. destruct s as [[tasks nid stages srv repos links] c calls].
  cbv [TaskServiceOps.create_task TaskServiceOps.required TaskServiceOps._commit_to_db
       TableRepository.task_add].
  rewrite Hn, Ht. run_monad.
  cbn [Task.set_task_args Task.with_task_args_str Task.set_task_type].
  destruct (Enum.by_name TaskType (lower ty)) as [v|] eqn:Hv.
  - cbn. eexists. split; [reflexivity|]. cbn.
    repeat (split; [reflexivity|]). apply lookup_insert_eq.
  - cbn. repeat split.
Qed.

Lemma create_task_outcome_witness :
  let info := TaskServiceOps.mkInfo (Some "sync pulp1") None (Some (PyStr "Repo_Sync"))
                None None in
  TaskServiceOps.name info = Some "sync pulp1"
  /\ TaskServiceOps.task_type info = Some (PyStr "Repo_Sync")
  /\ let (s', r) := TaskServiceOps.create_task info completed_task_session in
     match Enum.by_name TaskType (lower "Repo_Sync") with
     | Some v =>
         exists k,
           r = Ok k
           /\ Task.id k = Db.next_task_id (Session.db completed_task_session)
           /\ Task.name k = "sync pulp1"
           /\ Task.state k = Ok (Some "queued")
           /\ Task.task_type_id k = Some v
           /\ Db.tasks (Session.committed s') !! Task.id k = Some k
     | None =>
         r = Raise (ValueError ("Invalid task type specified: " +:+ "Repo_Sync"))
         /\ Session.db s' = Session.committed completed_task_session
         /\ Session.committed s' = Session.committed completed_task_session
     end.
Proof.
  split; [reflexivity|]. split; [reflexivity|].
  exact (create_task_outcome completed_task_session
           (TaskServiceOps.mkInfo (Some "sync pulp1") None (Some (PyStr "Repo_Sync")) None None)
           "sync pulp1" "Repo_Sync" eq_refl eq_refl).
Defined.

(** X10: [add_task_stage] makes the new stage the current one of its
    task.  For a task that exists the stage is appended with the given
    name and detail and committed, and it is the last of the task's
    stages, which is the stage the controllers take as current
    ([task.stages[-1]]); the stages that were there keep their places. *)
Theorem add_task_stage_is_current (s : Session.t) (task_id : Z) (k : Task.t)
    (stage_name : string) (detail : json) :
  Db.tasks (Session.db s) !! task_id = Some k ->
  let (s', r) := TaskServiceOps.add_task_stage task_id stage_name detail s in
  let sid := length (Db.task_stages (Session.db s)) in
  let stage := TaskStage.mk sid task_id stage_name (Some detail) None None in
  r = Ok (Some sid)
  /\ last (Db.stages_of task_id (Session.db s')) = Some stage
  /\ Db.task_stages (Session.db s') = (Db.task_stages (Session.db s) ++ [stage])%list
  /\ Session.committed s' = Session.db s'.
Proof.
  intros Hk. destruct s as [[tasks nid stages srv repos links] c calls].
  cbn [Session.db Db.tasks] in Hk.
  cbv [TaskServiceOps.add_task_stage TaskServiceOps._commit_to_db]. run_monad.
  rewrite Hk. cbv beta iota zeta. cbn [Session.db Db.task_stages Session.committed].
  split; [reflexivity|]. split; [|split; reflexivity].
  unfold Db.stages_of. cbn [Db.task_stages]. rewrite List.filter_app.
  cbn [List.filter TaskStage.task_id]. rewrite Z.eqb_refl. apply last_snoc.
Qed.

Lemma add_task_stage_is_current_witness :
  Db.tasks (Session.db sync_run_session) !! 10 = Some (blank_task 10 2)
  /\ let (s', r) := TaskServiceOps.add_task_stage 10 "calculate repo health" ∅
                      sync_run_session in
     let sid := length (Db.task_stages (Session.db sync_run_session)) in
     let stage := TaskStage.mk sid 10 "calculate repo health" (Some ∅) None None in
     r = Ok (Some sid)
     /\ last (Db.stages_of 10 (Session.db s')) = Some stage
     /\ Db.task_stages (Session.db s')
        = (Db.task_stages (Session.db sync_run_session) ++ [stage])%list
     /\ Session.committed s' = Session.db s'.
Proof.
  split; [reflexivity|].
  exact (add_task_stage_is_current sync_run_session 10 (blank_task 10 2)
           "calculate repo health" ∅ eq_refl).
Defined.

(** ** Waiting for a Pulp task *)

Section Monitor.
Context (client_get : nat -> string -> result PulpTasks.Task).

Lemma get_task_counts (href : string) (n n' : nat) (task : PulpTasks.Task) :
  PulpTasks.get_task client_get href n = (n', PulpTasks.Returns task) ->
  n' = S n /\ client_get n href = Ok task.
Proof.
  unfold PulpTasks.get_task. destruct (contains "tasks" href); [|discriminate].
  destruct (client_get n href); [|discriminate]. intros H. now inversion H.
Qed.

Lemma monitor_loop_returns_settled (polls : nat) (href : string) (pis mwc : Z)
    (task : PulpTasks.Task) (wc : Z) (n n' : nat) (task' : PulpTasks.Task) :
  PulpTasks.monitor_loop client_get polls href pis mwc task wc n
  = (n', Some (PulpTasks.Returns task')) ->
  PulpTasks.settled task' = true /\ (n <= n')%nat.
Proof.
  revert task wc n. induction polls as [|polls IH]; intros task wc n;
    cbn [PulpTasks.monitor_loop];
    destruct (existsb (String.eqb (PulpTasks.state task)) ["running"; "waiting"]) eqn:Hstate.
  - destruct (Z.eqb _ mwc); discriminate.
  - intros H. inversion H. subst. unfold PulpTasks.settled. rewrite Hstate. auto.
  - destruct (Z.eqb _ mwc); [discriminate|].
    destruct (PulpTasks.get_task client_get href n) as [n1 [task1|r]] eqn:Hget;
      [|discriminate].
    apply get_task_counts in Hget as [-> _]. intros H. apply IH in H as [Hs Hn].
    split; [exact Hs | lia].
  - intros H. inversion H. subst. unfold PulpTasks.settled. rewrite Hstate. auto.
Qed.

(** X11: what [monitor_task] returns has come to rest.  A task it
    returns is neither running nor waiting, it is not a failed one when
    [error] is set, and at least one request was made for it. *)
Theorem monitor_task_returns_settled (polls : nat) (href : string) (pis mwc : Z)
    (error : bool) (n n' : nat) (task : PulpTasks.Task) :
  PulpTasks.monitor_task client_get polls href pis mwc error n
  = (n', Some (PulpTasks.Returns task)) ->
  PulpTasks.settled task = true
  /\ (error = true -> PulpTasks.state task <> "failed")
  /\ (n < n')%nat.
Proof.
  unfold PulpTasks.monitor_task. destruct (negb (contains "tasks" href)); [discriminate|].
  destruct (PulpTasks.get_task client_get href n) as [n1 [task1|r]] eqn:Hget; [|discriminate].
  apply get_task_counts in Hget as [-> _].
  destruct (PulpTasks.monitor_loop client_get polls href pis mwc task1 0 (S n))
    as [n2 [[task2|r]|]] eqn:Hloop; try discriminate.
  apply monitor_loop_returns_settled in Hloop as [Hs Hn].
  unfold PulpTasks.settle.
  destruct (String.eqb_spec (PulpTasks.state task2) "failed") as [Hf|Hf]; cbn [andb].
  - destruct error.
    + destruct (PulpTasks.error task2); discriminate.
    + intros H. inversion H. subst. split; [exact Hs|]. split; [discriminate | lia].
  - intros H. inversion H. subst. split; [exact Hs|]. split; [intros _; exact Hf | lia].
Qed.

Lemma monitor_loop_stuck (r polls : nat) (href : string) (pis mwc : Z)
    (task : PulpTasks.Task) (wc : Z) (n : nat) :
  contains "tasks" href = true ->
  (forall m, exists t, client_get m href = Ok t /\ PulpTasks.state t = "waiting") ->
  PulpTasks.state task = "waiting" ->
  mwc - wc = Z.of_nat (S r) ->
  (r <= polls)%nat ->
  exists msg,
    PulpTasks.monitor_loop client_get polls href pis mwc task wc n
    = ((n + r)%nat, Some (PulpTasks.Raises (PulpTasks.PulpV3TaskStuckWaiting msg))).
Proof.
  intros Hhref Hwait. revert polls task wc n.
  induction r as [|r IH]; intros polls task wc n Hstate Hleft Hpolls.
  - destruct polls; cbn [PulpTasks.monitor_loop]; rewrite Hstate;
      change (existsb (String.eqb "waiting") ["running"; "waiting"]) with true;
      change (String.eqb "waiting" "waiting") with true; cbv beta iota zeta;
      (replace (Z.eqb (wc + 1) mwc) with true by (symmetry; apply Z.eqb_eq; lia));
      rewrite Nat.add_0_r; eexists; reflexivity.
  - destruct polls as [|polls]; [lia|]. cbn [PulpTasks.monitor_loop]. rewrite Hstate.
    change (existsb (String.eqb "waiting") ["running"; "waiting"]) with true.
    change (String.eqb "waiting" "waiting") with true. cbv beta iota zeta.
    replace (Z.eqb (wc + 1) mwc) with false by (symmetry; apply Z.eqb_neq; lia).
    unfold PulpTasks.get_task. rewrite Hhref.
    destruct (Hwait n) as (t & -> & Ht).
    destruct (IH polls t (wc + 1) (S n) Ht ltac:(lia) ltac:(lia)) as [msg ->].
    exists msg. f_equal. lia.
Qed.

(** X12: a task that never leaves the waiting state is given up after
    [max_wait_count] requests.  When every answer of the server shows
    the task waiting and [max_wait_count] is positive, [monitor_task]
    raises [PulpV3TaskStuckWaiting] and has then asked the server
    exactly [max_wait_count] times. *)
Theorem monitor_task_stuck_waiting (polls : nat) (href : string) (pis mwc : Z)
    (error : bool) (n : nat) :
  contains "tasks" href = true ->
  (forall m, exists t, client_get m href = Ok t /\ PulpTasks.state t = "waiting") ->
  0 < mwc ->
  (Z.to_nat mwc <= S polls)%nat ->
  exists msg,
    PulpTasks.monitor_task client_get polls href pis mwc error n
    = ((n + Z.to_nat mwc)%nat,
       Some (PulpTasks.Raises (PulpTasks.PulpV3TaskStuckWaiting msg))).
Proof.
  intros Hhref Hwait Hpos Hpolls. unfold PulpTasks.monitor_task, PulpTasks.get_task.
  rewrite Hhref. cbn [negb]. destruct (Hwait n) as (t & -> & Ht).
  destruct (monitor_loop_stuck (Z.to_nat mwc - 1) polls href pis mwc t 0 (S n)
              Hhref Hwait Ht ltac:(lia) ltac:(lia)) as [msg ->].
  exists msg. f_equal. lia.
Qed.

(** X13: with [max_wait_count = 0] a task that is found running is
    reported as stuck at once.  The count of waits is compared with the
    limit whatever the state, and both are zero at the first look, so
    [PulpV3TaskStuckWaiting] is raised after the single request that
    showed the task running. *)
Theorem monitor_task_zero_limit_running (polls : nat) (href : string) (pis : Z)
    (error : bool) (n : nat) (task : PulpTasks.Task) :
  contains "tasks" href = true ->
  client_get n href = Ok task ->
  PulpTasks.state task = "running" ->
  exists msg,
    PulpTasks.monitor_task client_get polls href pis 0 error n
    = (S n, Some (PulpTasks.Raises (PulpTasks.PulpV3TaskStuckWaiting msg))).
Proof.
  intros Hhref Hget Hstate. unfold PulpTasks.monitor_task, PulpTasks.get_task.
  rewrite Hhref, Hget. cbn [negb].
  destruct polls; cbn [PulpTasks.monitor_loop]; rewrite Hstate;
    eexists; reflexivity.
Qed.

Lemma monitor_loop_unbounded (polls : nat) (href : string) (pis mwc : Z)
    (task : PulpTasks.Task) (wc : Z) (n : nat) :
  contains "tasks" href = true ->
  (forall m, exists t, client_get m href = Ok t /\ PulpTasks.state t = "waiting") ->
  PulpTasks.state task = "waiting" ->
  mwc <= wc ->
  PulpTasks.monitor_loop client_get polls href pis mwc task wc n = ((n + polls)%nat, None).
Proof.
  intros Hhref Hwait. revert task wc n.
  induction polls as [|polls IH]; intros task wc n Hstate Hwc;
    cbn [PulpTasks.monitor_loop]; rewrite Hstate;
    change (existsb (String.eqb "waiting") ["running"; "waiting"]) with true;
    change (String.eqb "waiting" "waiting") with true; cbv beta iota zeta;
    (replace (Z.eqb (wc + 1) mwc) with false by (symmetry; apply Z.eqb_neq; lia)).
  - now rewrite Nat.add_0_r.
  - unfold PulpTasks.get_task. rewrite Hhref. destruct (Hwait n) as (t & -> & Ht).
    rewrite (IH t (wc + 1) (S n) Ht ltac:(lia)). f_equal. lia.
Qed.

(** X14: a limit of zero or less is no limit.  The count of waits is
    raised before it is compared, so it never equals such a limit: while
    the server shows the task waiting, [monitor_task] keeps asking, one
    request per pass, and neither returns nor raises. *)
Theorem monitor_task_nonpositive_limit (polls : nat) (href : string) (pis mwc : Z)
    (error : bool) (n : nat) :
  contains "tasks" href = true ->
  (forall m, exists t, client_get m href = Ok t /\ PulpTasks.state t = "waiting") ->
  mwc <= 0 ->
  PulpTasks.monitor_task client_get polls href pis mwc error n = ((n + S polls)%nat, None).
Proof.
  intros Hhref Hwait Hneg. unfold PulpTasks.monitor_task, PulpTasks.get_task.
  rewrite Hhref. cbn [negb]. destruct (Hwait n) as (t & -> & Ht).
  rewrite (monitor_loop_unbounded polls href pis mwc t 0 (S n) Hhref Hwait Ht Hneg).
  f_equal. lia.
Qed.

End Monitor.

Lemma monitor_task_returns_settled_witness :
  let task := PulpTasks.mkTask sync_task_href "completed" None in
  PulpTasks.monitor_task (PulpTasks.finishing_client 2) 5 sync_task_href 15 200 true 0
  = (3%nat, Some (PulpTasks.Returns task))
  /\ PulpTasks.settled task = true
  /\ (true = true -> PulpTasks.state task <> "failed")
  /\ (0 < 3)%nat.
Proof.
  split; [reflexivity|].
  exact (monitor_task_returns_settled (PulpTasks.finishing_client 2) 5 sync_task_href 15 200
           true 0 3 (PulpTasks.mkTask sync_task_href "completed" None) eq_refl).
Defined.

Lemma monitor_task_stuck_waiting_witness :
  let client := PulpTasks.steady_client (PulpTasks.mkTask sync_task_href "waiting" None) in
  contains "tasks" sync_task_href = true
  /\ (forall m, exists t, client m sync_task_href = Ok t /\ PulpTasks.state t = "waiting")
  /\ 0 < 3
  /\ (Z.to_nat 3 <= 6)%nat
  /\ exists msg,
       PulpTasks.monitor_task client 5 sync_task_href 15 3 true 0
       = ((0 + Z.to_nat 3)%nat,
          Some (PulpTasks.Raises (PulpTasks.PulpV3TaskStuckWaiting msg))).
Proof.
  split; [reflexivity|].
  split; [intros m; eexists; split; reflexivity|].
  split; [reflexivity|]. split; [cbn; lia|].
  apply (monitor_task_stuck_waiting
           (PulpTasks.steady_client (PulpTasks.mkTask sync_task_href "waiting" None))
           5 sync_task_href 15 3 true 0).
  - reflexivity.
  - intros m. eexists. split; reflexivity.
  - reflexivity.
  - cbn. lia.
Defined.

Lemma monitor_task_zero_limit_running_witness :
  let task := PulpTasks.mkTask sync_task_href "running" None in
  contains "tasks" sync_task_href = true
  /\ PulpTasks.finishing_client 2 0 sync_task_href = Ok task
  /\ PulpTasks.state task = "running"
  /\ exists msg,
       PulpTasks.monitor_task (PulpTasks.finishing_client 2) 5 sync_task_href 15 0 true 0
       = (1%nat, Some (PulpTasks.Raises (PulpTasks.PulpV3TaskStuckWaiting msg))).
Proof.
  split; [reflexivity|]. split; [reflexivity|]. split; [reflexivity|].
  exact (monitor_task_zero_limit_running (PulpTasks.finishing_client 2) 5 sync_task_href 15
           true 0 (PulpTasks.mkTask sync_task_href "running" None) eq_refl eq_refl eq_refl).
Defined.

Lemma monitor_task_nonpositive_limit_witness :
  let client := PulpTasks.steady_client (PulpTasks.mkTask sync_task_href "waiting" None) in
  contains "tasks" sync_task_href = true
  /\ (forall m, exists t, client m sync_task_href = Ok t /\ PulpTasks.state t = "waiting")
  /\ 0 <= 0
  /\ PulpTasks.monitor_task client 40 sync_task_href 15 0 true 0 = ((0 + 41)%nat, None).
Proof.
  split; [reflexivity|].
  split; [intros m; eexists; split; reflexivity|].
  split; [lia|].
  apply (monitor_task_nonpositive_limit
           (PulpTasks.steady_client (PulpTasks.mkTask sync_task_href "waiting" None))
           40 sync_task_href 15 0 true 0).
  - reflexivity.
  - intros m. eexists. split; reflexivity.
  - lia.
Defined.

(** ** Requests sent: composition *)

Lemma sends_weaken {A : Type} (P Q : call -> Prop) (m : M A) :
  (forall c, P c -> Q c) -> sends P m -> sends Q m.
Proof.
  intros HPQ Hm s. destruct (Hm s) as (sent & Hs & HF). exists sent.
  split; [exact Hs|]. eapply Forall_impl; eauto.
Qed.

Lemma sends_from_bind {A B : Type} (P : call -> Prop) (m : M A) (k : A -> M B)
    (s : Session.t) :
  sends_from P m s ->
  (forall a s', m s = (s', Ok a) -> sends_from P (k a) s') ->
  sends_from P (bind m k) s.
Proof.
  intros (l1 & H1 & F1) Hk. unfold sends_from, bind.
  destruct (m s) as [s1 [a|e]]; cbn [fst] in *.
  - destruct (Hk a s1 eq_refl) as (l2 & H2 & F2). exists (l1 ++ l2)%list.
    rewrite H2, H1, app_assoc. split; [reflexivity|]. apply Forall_app. now split.
  - exists l1. now split.
Qed.

Lemma sends_from_try_except {A : Type} (P : call -> Prop) (body : M A)
    (handler : exn -> M A) (s : Session.t) :
  sends_from P body s ->
  (forall e s', body s = (s', Raise e) -> sends_from P (handler e) s') ->
  sends_from P (try_except body handler) s.
Proof.
  intros (l1 & H1 & F1) Hk. unfold sends_from, try_except.
  destruct (body s) as [s1 [a|e]]; cbn [fst] in *.
  - exists l1. now split.
  - destruct (Hk e s1 eq_refl) as (l2 & H2 & F2). exists (l1 ++ l2)%list.
    rewrite H2, H1, app_assoc. split; [reflexivity|]. apply Forall_app. now split.
Qed.

Lemma sends_from_any {A : Type} (P Q : call -> Prop) (m : M A) (s : Session.t) :
  sends Q m -> (forall c, Q c -> P c) -> sends_from P m s.
Proof. intros Hm HQP. now apply (sends_weaken Q P m HQP Hm). Qed.

Lemma sends_bind {A B : Type} (P : call -> Prop) (m : M A) (k : A -> M B) :
  sends P m -> (forall a, sends P (k a)) -> sends P (bind m k).
Proof.
  intros Hm Hk s. apply sends_from_bind; [apply Hm | intros a s' _; apply Hk].
Qed.

Lemma sends_try_except {A : Type} (P : call -> Prop) (body : M A) (handler : exn -> M A) :
  sends P body -> (forall e, sends P (handler e)) -> sends P (try_except body handler).
Proof.
  intros Hm Hk s. apply sends_from_try_except; [apply Hm | intros e s' _; apply Hk].
Qed.

(** A computation that leaves the record of requests as it is. *)
Lemma sends_quiet {A : Type} (P : call -> Prop) (m : M A) :
  (forall s, Session.calls (fst (m s)) = Session.calls s) -> sends P m.
Proof.
  intros H s. exists []. rewrite app_nil_r. split; [apply H | constructor].
Qed.

Lemma sends_request {A : Type} (P : call -> Prop) (c : call) (answer : nat -> result A) :
  P c -> sends P (Pulp.request c answer).
Proof.
  intros Hc [d cm calls]. exists [c]. split; [|now repeat constructor].
  cbv [Pulp.request bind tick send lift Session.calls]. reflexivity.
Qed.

Ltac quiet :=
  apply sends_quiet; intros [[tasks nid stages srv repos links] cm calls]; run_monad;
  cbn [fst]; repeat (case_scrutinee; cbv beta iota zeta; cbn [fst]); reflexivity.

Lemma sends_ret {A : Type} (P : call -> Prop) (a : A) : sends P (ret a).
Proof. quiet. Qed.

Lemma sends_raise {A : Type} (P : call -> Prop) (e : exn) : sends P (@raise A e).
Proof. quiet. Qed.

Lemma sends_lift {A : Type} (P : call -> Prop) (r : result A) : sends P (lift r).
Proof. quiet. Qed.

Lemma sends_get_db (P : call -> Prop) : sends P get_db.
Proof. quiet. Qed.

Lemma sends_modify_db (P : call -> Prop) (f : Db.t -> Db.t) : sends P (modify_db f).
Proof. quiet. Qed.

Lemma sends_commit (P : call -> Prop) : sends P commit.
Proof. quiet. Qed.

Lemma sends_task_get_by_id (P : call -> Prop) (task_id : Z) :
  sends P (TableRepository.task_get_by_id task_id).
Proof. quiet. Qed.

Lemma sends_task_update (P : call -> Prop) (task_id : Z)
    (kwargs : list TableRepository.task_kwarg) :
  sends P (TableRepository.task_update task_id kwargs).
Proof.
  apply sends_quiet. intros [[tasks nid stages srv repos links] cm calls].
  cbv [TableRepository.task_update bind get_db lift modify_db raise Session.db Db.tasks
       Session.with_db Session.calls].
  destruct (tasks !! task_id); [|reflexivity].
  destruct (TableRepository.task_setattrs kwargs t); reflexivity.
Qed.

Lemma sends_task_add (P : call -> Prop) (name : string) (parent : option Z)
    (kwargs : list TableRepository.task_kwarg) :
  sends P (TableRepository.task_add name parent kwargs).
Proof.
  apply sends_quiet. intros [[tasks nid stages srv repos links] cm calls].
  cbv [TableRepository.task_add bind get_db lift modify_db ret Session.db Db.next_task_id
       Session.with_db Session.calls].
  destruct (TableRepository.task_setattrs kwargs _); reflexivity.
Qed.

Lemma sends_task_stage_add (P : call -> Prop) (name : string) (task_id : Z)
    (detail error : option json) :
  sends P (TableRepository.task_stage_add name task_id detail error).
Proof. quiet. Qed.

Lemma sends_task_stage_update (P : call -> Prop) (sid : nat)
    (kwargs : list TaskStage.kwarg) :
  sends P (TableRepository.task_stage_update sid kwargs).
Proof. quiet. Qed.

Create HintDb sends discriminated.
#[local] Hint Resolve sends_ret sends_raise sends_lift sends_get_db sends_modify_db
  sends_commit sends_task_get_by_id sends_task_update sends_task_add
  sends_task_stage_add sends_task_stage_update : sends.

(** Splits a computation along its binds and handlers, closing the
    table operations from the hint base. *)
Ltac sends_step :=
  first [ solve [auto with sends]
        | apply sends_request
        | apply sends_bind; [|intros ?]
        | apply sends_try_except; [|intros ?] ].

(** ** Removal of repos *)

Section Removal.
Context {re : PyRe} (be : Pulp.Backend) (hostname : string) (job_id : option string).

Lemma remove_one_sends (selected : list PulpServerRepo.t) (repo : PulpServerRepo.t) :
  In repo selected -> sends (removal_request selected) (RepoRemover.remove_one be repo).
Proof.
  intros Hin.
  assert (Hdel : forall h, In h (hrefs_of repo) ->
                           sends (removal_request selected)
                                 (RepoRemover.delete_by_href_monitor be h)).
  { intros h Hh. apply sends_request. cbn. now exists repo. }
  unfold RepoRemover.remove_one, hrefs_of in *.
  destruct (PulpServerRepo.distribution_href repo) as [dh|];
    destruct (PulpServerRepo.remote_href repo) as [rh|];
    repeat match goal with
           | |- context [PulpHelpers.truthy ?x] => destruct (PulpHelpers.truthy x)
           end;
    repeat first [solve [apply Hdel; cbn; auto] | sends_step].
Qed.

Lemma remove_each_sends (selected repos : list PulpServerRepo.t) (successful failed : nat) :
  (forall repo, In repo repos -> In repo selected) ->
  sends (removal_request selected) (RepoRemover.remove_each be repos successful failed).
Proof.
  revert successful failed. induction repos as [|repo rest IH]; intros successful failed Hsub;
    cbn [RepoRemover.remove_each]; [auto with sends|].
  apply sends_bind.
  - apply sends_try_except; [|auto with sends].
    apply sends_bind; [|auto with sends]. apply remove_one_sends. apply Hsub. now left.
  - intros [|]; apply IH; intros r Hr; apply Hsub; now right.
Qed.

Lemma reconcile_sends (selected : list PulpServerRepo.t) :
  sends (removal_request selected) (Pulp.reconcile be).
Proof.
  unfold Pulp.reconcile. repeat sends_step. exact I.
Qed.

Lemma remove_repos_sends (task_id : Z) (repos : list PulpServerRepo.t) (dry_run : bool) :
  sends (removal_request repos) (RepoRemover._remove_repos be task_id repos dry_run).
Proof.
  unfold RepoRemover._remove_repos. destruct repos as [|repo rest]; [auto with sends|].
  set (repos := repo :: rest).
  repeat sends_step.
  - destruct dry_run; [auto with sends|]. now apply remove_each_sends.
  - match goal with
    | |- context [let (_, _) := ?p in _] => destruct p as [successful failed]
    end.
    repeat sends_step.
    destruct (negb dry_run && Nat.ltb 0 successful); [apply reconcile_sends | auto with sends].
Qed.

(** X15: a failed removal does not stop the others, and every repo is
    counted once.  The loop over the repos to remove never raises; when
    it ends the numbers of successful and failed removals have grown by
    the number of repos together. *)
Theorem remove_each_counts (repos : list PulpServerRepo.t) (successful failed : nat)
    (s : Session.t) :
  exists s' successful' failed',
    RepoRemover.remove_each be repos successful failed s = (s', Ok (successful', failed'))
    /\ (successful <= successful')%nat
    /\ (failed <= failed')%nat
    /\ (successful' + failed' = successful + failed + length repos)%nat.
Proof.
  revert successful failed s. induction repos as [|repo rest IH]; intros successful failed s.
  - exists s, successful, failed. cbn. repeat split; lia.
  - cbn [RepoRemover.remove_each]. unfold bind at 1. unfold try_except.
    destruct (bind (RepoRemover.remove_one be repo) (fun _ => ret true) s) as [s1 [ok|e]] eqn:H1.
    + assert (ok = true) as ->.
      { unfold bind, ret in H1. destruct (RepoRemover.remove_one be repo s) as [s0 [[]|e]];
          now inversion H1. }
      destruct (IH (S successful) failed s1) as (s' & a & b & -> & Ha & Hb & Hsum).
      exists s', a, b. cbn [length]. repeat split; lia.
    + unfold ret. destruct (IH successful (S failed) s1) as (s' & a & b & -> & Ha & Hb & Hsum).
      exists s', a, b. cbn [length]. repeat split; lia.
Qed.

Ltac sends_cases :=
  repeat first
    [ sends_step
    | match goal with
      | |- sends _ (match ?x with _ => _ end) => destruct x
      | |- sends _ (if ?x then _ else _) => destruct x
      end ].

Lemma get_repos_for_removal_quiet (P : call -> Prop) (task_id : Z)
    (regex_include regex_exclude : option string) :
  sends P (RepoRemover._get_repos_for_removal job_id task_id regex_include regex_exclude).
Proof. unfold RepoRemover._get_repos_for_removal. sends_cases. Qed.

Lemma get_repos_for_removal_selects (task_id : Z) (regex_include regex_exclude : option string)
    (s s' : Session.t) (repos : list PulpServerRepo.t) :
  RepoRemover._get_repos_for_removal job_id task_id regex_include regex_exclude s
  = (s', Ok repos) ->
  repos = PulpHelpers.get_pulp_server_repos (Db.repos (Session.db s))
            regex_include regex_exclude false.
Proof.
  destruct s as [[tasks nid stages srv rows links] cm calls].
  cbv [RepoRemover._get_repos_for_removal]. run_monad.
  destruct (PulpHelpers.get_pulp_server_repos rows regex_include regex_exclude false);
    intros H; now inversion H.
Qed.

Lemma remove_repos_dry_quiet (task_id : Z) (repos : list PulpServerRepo.t) :
  sends no_request (RepoRemover._remove_repos be task_id repos true).
Proof.
  unfold RepoRemover._remove_repos. destruct repos as [|repo rest]; [auto with sends|].
  cbn [negb andb]. sends_cases.
Qed.

Lemma no_request_nil (sent : list call) : Forall no_request sent -> sent = [].
Proof. destruct sent as [|c sent]; [reflexivity|]. intros H. inversion H. contradiction. Qed.

(** X16: a dry run of [remove_repos] sends nothing to the Pulp server.
    Whatever the regexes select, whatever task it runs under and however
    it ends, the record of requests is the one it started with: nothing
    is deleted and no reconcile is asked for. *)
Theorem dry_run_sends_nothing (now : Z) (regex_include regex_exclude : option string)
    (task_id : option Z) (task_args : json) (s : Session.t) :
  Session.calls (fst (RepoRemover.remove_repos be hostname job_id now regex_include
                        regex_exclude true task_id task_args s))
  = Session.calls s.
Proof.
  assert (H : sends no_request
                (RepoRemover.remove_repos be hostname job_id now regex_include regex_exclude
                   true task_id task_args)).
  { unfold RepoRemover.remove_repos.
    destruct (PulpHelpers.is_none regex_include && PulpHelpers.is_none regex_exclude);
      [auto with sends|].
    apply sends_bind; [sends_cases|]. intros tid.
    apply sends_try_except; [|intros e; sends_cases].
    apply sends_bind; [apply get_repos_for_removal_quiet|]. intros repos.
    apply sends_bind; [apply remove_repos_dry_quiet|]. intros _. sends_cases. }
  destruct (H s) as (sent & Hs & HF). apply no_request_nil in HF. subst sent.
  now rewrite app_nil_r in Hs.
Qed.

(** X17: [remove_repos] deletes nothing but what it selected.  Every
    DELETE it sends is for the repository, distribution or remote href of
    a repo that [get_pulp_server_repos] selects, by the regexes of the
    call, from the rows the session holds at the start (with
    [exclude_no_remote] off).  Besides those deletions and the GETs that
    follow their tasks it sends only the reconcile: no request that
    changes or publishes a repository. *)
Theorem removal_touches_selected_only (now : Z) (regex_include regex_exclude : option string)
    (dry_run : bool) (task_id : option Z) (task_args : json) (s : Session.t) :
  sends_from
    (removal_request
       (PulpHelpers.get_pulp_server_repos (Db.repos (Session.db s))
          regex_include regex_exclude false))
    (RepoRemover.remove_repos be hostname job_id now regex_include regex_exclude
       dry_run task_id task_args)
    s.
Proof.
  unfold RepoRemover.remove_repos.
  destruct (PulpHelpers.is_none regex_include && PulpHelpers.is_none regex_exclude);
    [apply sends_raise|].
  apply sends_from_bind;
    [apply (sends_from_any _ no_request); [sends_cases | intros c []]|].
  intros tid s1 Hsetup.
  assert (Hrows : Db.repos (Session.db s1) = Db.repos (Session.db s)).
  { destruct s as [[tasks nid stages srv rows links] cm calls]. revert Hsetup.
    destruct task_id as [i|]; run_monad; cbv [TableRepository.task_add];  run_monad;
      repeat (case_scrutinee; cbv beta iota zeta); intros H; inversion H; reflexivity. }
  rewrite <- Hrows. clear Hrows Hsetup s.
  apply sends_from_try_except;
    [|intros e s' _; apply (sends_from_any _ no_request); [sends_cases | intros c []]].
  apply sends_from_bind;
    [apply (sends_from_any _ no_request);
     [apply get_repos_for_removal_quiet | intros c []]|].
  intros repos s2 Hget. apply get_repos_for_removal_selects in Hget. subst repos.
  revert s2.
  match goal with
  | |- forall s2, sends_from ?P ?m s2 => change (sends P m)
  end.
  apply sends_bind; [apply remove_repos_sends|]. intros _. sends_cases.
Qed.

End Removal.

(** ** Snapshots: the prefix and the selection *)

Lemma substring_at_end (p suffix : string) :
  String.substring (String.length p) (String.length suffix) (p +:+ suffix) = suffix.
Proof.
  induction p as [|c p IH]; [|exact IH].
  change (EmptyString +:+ suffix) with suffix. cbn [String.length].
  induction suffix as [|c suffix IH]; [reflexivity|].
  cbn [String.length String.substring]. now rewrite IH.
Qed.

Lemma length_append (p q : string) :
  String.length (p +:+ q) = (String.length p + String.length q)%nat.
Proof. induction p as [|c p IH]; [reflexivity|]. rewrite append_cons. cbn. now rewrite IH. Qed.

Lemma endswith_append (p suffix : string) : endswith (p +:+ suffix) suffix = true.
Proof.
  unfold endswith. rewrite length_append.
  replace (String.length p + String.length suffix - String.length suffix)%nat
    with (String.length p) by lia.
  rewrite substring_at_end, String.eqb_refl.
  apply andb_true_iff. split; [|reflexivity]. apply Nat.leb_le. lia.
Qed.

Lemma normalise_prefix_dash (snapshot_prefix : string) :
  endswith (Snapshotter.normalise_prefix snapshot_prefix) "-" = true.
Proof.
  unfold Snapshotter.normalise_prefix.
  destruct (endswith snapshot_prefix "-") eqn:He; cbn [negb];
    [exact He | apply endswith_append].
Qed.

Section SnapshotPrefix.
Context {re : PyRe} (be : Pulp.Backend) (hostname : string) (job_id : option string).
Context (_do_snapshot_repos : Z -> string -> list PulpServerRepo.t -> M unit).

(** X18: [snapshot_repos] works with a prefix that ends in a dash, and
    adds at most one.  The prefix it uses ends in ["-"]; a prefix given
    without the dash and the same prefix given with it are the same run
    of [snapshot_repos], whatever the snapshot loop does. *)
Theorem snapshot_prefix_gets_one_dash (now : Z) (snapshot_prefix : string)
    (regex_include regex_exclude : option string) (task_id : option Z)
    (allow_snapshot_reuse : bool) (task_args : json) (s : Session.t) :
  endswith (Snapshotter.normalise_prefix snapshot_prefix) "-" = true
  /\ Snapshotter.normalise_prefix (Snapshotter.normalise_prefix snapshot_prefix)
     = Snapshotter.normalise_prefix snapshot_prefix
  /\ Snapshotter.snapshot_repos be hostname job_id _do_snapshot_repos now
       (Snapshotter.normalise_prefix snapshot_prefix) regex_include regex_exclude task_id
       allow_snapshot_reuse task_args s
     = Snapshotter.snapshot_repos be hostname job_id _do_snapshot_repos now
         snapshot_prefix regex_include regex_exclude task_id
         allow_snapshot_reuse task_args s.
Proof.
  assert (Hidem : Snapshotter.normalise_prefix (Snapshotter.normalise_prefix snapshot_prefix)
                  = Snapshotter.normalise_prefix snapshot_prefix).
  { unfold Snapshotter.normalise_prefix at 1. now rewrite normalise_prefix_dash. }
  split; [apply normalise_prefix_dash|]. split; [exact Hidem|].
  unfold Snapshotter.snapshot_repos. cbv zeta. now rewrite Hidem.
Qed.

(** X19: what is snapshotted.  [_get_repos_for_snapshot] returns, in
    the order of the rows, the repos that the regexes select, that have
    a remote feed and whose type is [rpm] or [deb]: a repo without a
    feed is never snapshotted, and neither is one of another type. *)
Theorem snapshot_selection (task_id : Z) (regex_include regex_exclude : option string)
    (s : Session.t) :
  snd (Snapshotter._get_repos_for_snapshot task_id regex_include regex_exclude s)
  = Ok (List.filter
          (fun repo =>
             selected regex_include regex_exclude true repo
             && existsb (String.eqb (PulpServerRepo.repo_type repo)) ["rpm"; "deb"])
          (Db.repos (Session.db s))).
Proof.
  destruct s as [[tasks nid stages srv repos links] c calls].
  cbv [Snapshotter._get_repos_for_snapshot]. run_monad. cbn [snd].
  rewrite get_pulp_server_repos_filter. f_equal.
  unfold Snapshotter.SUPPORTED_FOR_SNAPSHOT.
  induction repos as [|repo rest IH]; [reflexivity|].
  cbn [List.filter]. destruct (selected regex_include regex_exclude true repo);
    cbn [andb List.filter]; [|exact IH].
  destruct (existsb _ _); now rewrite IH.
Qed.

End SnapshotPrefix.

(** ** Snapshots: the loop *)

Section SnapshotScheduler.
Context (be : Pulp.Backend) (max_concurrent_snapshots : option Z).
Context (_start_snapshot : PulpServerRepo.t -> string -> M Task.t).

Abbreviation limit := (SnapshotLoop.snapshot_limit max_concurrent_snapshots).

Lemma start_snapshots_bound (snapshot_prefix : string) (left : list PulpServerRepo.t)
    (in_progress : list Z) (failed : list PulpServerRepo.t) (s : Session.t) :
  Z.of_nat (length in_progress) <= limit ->
  match SnapshotLoop.start_snapshots max_concurrent_snapshots _start_snapshot
          snapshot_prefix left in_progress failed s with
  | (_, Ok st) => Z.of_nat (length (SnapshotLoop.snapshots_in_progress st)) <= limit
  | (_, Raise _) => True
  end.
Proof.
  revert in_progress failed s.
  induction left as [|repo rest IH]; intros in_progress failed s Hb;
    cbn [SnapshotLoop.start_snapshots];
    (destruct max_concurrent_snapshots as [k|] eqn:Hmax; [|exact I]);
    destruct (Z.ltb_spec (Z.of_nat (length in_progress)) k) as [Hlt|Hge]; try exact Hb.
  unfold bind at 1.
  destruct (try_except _ _ s) as [s1 [[task|]|e]]; [| |exact I].
  - destruct (SnapshotLoop.not_running task); apply IH; [exact Hb|].
    pose proof (dict_set_length (Task.id task) in_progress).
    unfold SnapshotLoop.snapshot_limit in *. rewrite ?Hmax in *.
    cbn [from_option id] in *. lia.
  - apply IH. exact Hb.
Qed.

Lemma progress_one_shrinks (now task_id : Z) (in_progress : list Z) (s : Session.t) :
  match SnapshotLoop.progress_one be now task_id in_progress s with
  | (_, Ok in_progress') => (length in_progress' <= length in_progress)%nat
  | (_, Raise _) => True
  end.
Proof.
  unfold SnapshotLoop.progress_one, bind.
  destruct (try_except _ _ s) as [s1 [[|]|e]]; [| |exact I].
  - unfold lift. destruct (RepoSyncher.dict_del task_id in_progress) eqn:Hd; [|exact I].
    now apply dict_del_length in Hd.
  - unfold ret. lia.
Qed.

Lemma progress_all_shrinks (now : Z) (copy in_progress : list Z) (s : Session.t) :
  match SnapshotLoop.progress_all be now copy in_progress s with
  | (_, Ok in_progress') => (length in_progress' <= length in_progress)%nat
  | (_, Raise _) => True
  end.
Proof.
  revert in_progress s. induction copy as [|task_id rest IH]; intros in_progress s.
  - cbn. lia.
  - cbn [SnapshotLoop.progress_all]. unfold bind.
    pose proof (progress_one_shrinks now task_id in_progress s) as Hone.
    destruct (SnapshotLoop.progress_one be now task_id in_progress s)
      as [s1 [in_progress1|e]]; [|exact I].
    specialize (IH in_progress1 s1).
    destruct (SnapshotLoop.progress_all be now rest in_progress1 s1)
      as [s2 [in_progress2|e]]; [lia|exact I].
Qed.

Lemma snapshot_round_bound (now : Z) (snapshot_prefix : string) (total snapshot_stage : nat)
    (st : SnapshotLoop.loop_state) (s : Session.t) :
  Z.of_nat (length (SnapshotLoop.snapshots_in_progress st)) <= limit ->
  match SnapshotLoop.snapshot_round be max_concurrent_snapshots _start_snapshot now
          snapshot_prefix total snapshot_stage st s with
  | (_, Ok st') => Z.of_nat (length (SnapshotLoop.snapshots_in_progress st')) <= limit
  | (_, Raise _) => True
  end.
Proof.
  intros Hb. unfold SnapshotLoop.snapshot_round. unfold bind at 1.
  pose proof (start_snapshots_bound snapshot_prefix (SnapshotLoop.repos_left st)
                (SnapshotLoop.snapshots_in_progress st) (SnapshotLoop.snapshots_failed st)
                s Hb) as Hstart.
  destruct (SnapshotLoop.start_snapshots _ _ _ _ _ _ s) as [s1 [st1|e]]; [|exact I].
  unfold bind at 1.
  pose proof (progress_all_shrinks now (SnapshotLoop.snapshots_in_progress st1)
                (SnapshotLoop.snapshots_in_progress st1) s1) as Hprog.
  destruct (SnapshotLoop.progress_all be now _ _ s1) as [s2 [ip|e]]; [|exact I].
  unfold bind at 1.
  destruct (TableRepository.task_stage_get snapshot_stage s2) as [s3 [stage|e]]; [|exact I].
  unfold bind at 1.
  destruct (TableRepository.task_stage_update _ _ s3) as [s4 [[]|e]]; [|exact I].
  unfold bind, commit, ret. cbn [SnapshotLoop.snapshots_in_progress fst snd]. lia.
Qed.

(** X20: the snapshots in progress never outnumber
    [max_concurrent_snapshots].  Whatever the server answers, whatever
    starting a snapshot does and however many passes the loop has made,
    the dict of snapshots in progress holds at most that many tasks (none
    when the limit is zero or less) at the end of a pass and after the
    next pass has started new ones.  No positive limit is needed: the
    loop compares with [<]. *)
Theorem snapshots_in_flight_bound (rounds : nat) (now : Z) (snapshot_prefix : string)
    (snapshot_stage : nat) (repos_to_snapshot : list PulpServerRepo.t) (s : Session.t) :
  match SnapshotLoop.snapshot_loop be max_concurrent_snapshots _start_snapshot rounds now
          snapshot_prefix (length repos_to_snapshot) snapshot_stage
          (repos_to_snapshot, [], []) s with
  | (s', Ok st) =>
      Z.of_nat (length (SnapshotLoop.snapshots_in_progress st))
      <= SnapshotLoop.snapshot_limit max_concurrent_snapshots
      /\ match SnapshotLoop.start_snapshots max_concurrent_snapshots _start_snapshot
                 snapshot_prefix (SnapshotLoop.repos_left st)
                 (SnapshotLoop.snapshots_in_progress st)
                 (SnapshotLoop.snapshots_failed st) s' with
         | (_, Ok st1) =>
             Z.of_nat (length (SnapshotLoop.snapshots_in_progress st1))
             <= SnapshotLoop.snapshot_limit max_concurrent_snapshots
         | (_, Raise _) => True
         end
  | (_, Raise _) => True
  end.
Proof.
  assert (Hloop : forall rounds st s0,
            Z.of_nat (length (SnapshotLoop.snapshots_in_progress st)) <= limit ->
            match SnapshotLoop.snapshot_loop be max_concurrent_snapshots _start_snapshot
                    rounds now snapshot_prefix (length repos_to_snapshot) snapshot_stage
                    st s0 with
            | (_, Ok st') =>
                Z.of_nat (length (SnapshotLoop.snapshots_in_progress st')) <= limit
            | (_, Raise _) => True
            end).
  { induction rounds0 as [|n IH]; intros st s0 Hb; [exact Hb|].
    cbn [SnapshotLoop.snapshot_loop]. destruct (SnapshotLoop.snapshot_busy st); [|exact Hb].
    unfold bind.
    pose proof (snapshot_round_bound now snapshot_prefix (length repos_to_snapshot)
                  snapshot_stage st s0 Hb) as Hround.
    destruct (SnapshotLoop.snapshot_round _ _ _ _ _ _ _ st s0) as [s1 [st1|e]]; [|exact I].
    apply IH. exact Hround. }
  specialize (Hloop rounds (repos_to_snapshot, [], []) s
                ltac:(unfold SnapshotLoop.snapshot_limit; cbn; lia)).
  destruct (SnapshotLoop.snapshot_loop _ _ _ _ _ _ _ _ _ s) as [s' [st|e]]; [|exact I].
  split; [exact Hloop|]. now apply start_snapshots_bound.
Qed.

End SnapshotScheduler.

Section SnapshotEdges.
Context (be : Pulp.Backend).
Context (_start_snapshot : PulpServerRepo.t -> string -> M Task.t).

Lemma start_snapshots_no_slot (k : Z) (snapshot_prefix : string)
    (left failed : list PulpServerRepo.t) (s : Session.t) :
  k <= 0 ->
  SnapshotLoop.start_snapshots (Some k) _start_snapshot snapshot_prefix left [] failed s
  = (s, Ok (left, [], failed)).
Proof.
  intros Hk. destruct left as [|repo rest]; cbn [SnapshotLoop.start_snapshots length];
    destruct (Z.ltb_spec (Z.of_nat 0) k); try reflexivity; lia.
Qed.

Lemma snapshot_round_no_slot (k : Z) (now : Z) (snapshot_prefix : string)
    (total snapshot_stage : nat) (left failed : list PulpServerRepo.t) (s : Session.t) :
  k <= 0 ->
  (snapshot_stage < length (Db.task_stages (Session.db s)))%nat ->
  exists s',
    SnapshotLoop.snapshot_round be (Some k) _start_snapshot now snapshot_prefix total
      snapshot_stage (left, [], failed) s
    = (s', Ok (left, [], failed))
    /\ Session.calls s' = Session.calls s
    /\ Db.tasks (Session.db s') = Db.tasks (Session.db s)
    /\ (snapshot_stage < length (Db.task_stages (Session.db s')))%nat.
Proof.
  intros Hk Hsid. unfold SnapshotLoop.snapshot_round.
  cbn [SnapshotLoop.repos_left SnapshotLoop.snapshots_in_progress
       SnapshotLoop.snapshots_failed fst snd].
  unfold bind at 1. rewrite (start_snapshots_no_slot k snapshot_prefix left failed s Hk).
  cbn [SnapshotLoop.repos_left SnapshotLoop.snapshots_in_progress
       SnapshotLoop.snapshots_failed fst snd SnapshotLoop.progress_all].
  destruct s as [[tasks nid stages srv repos links] c calls].
  cbn [Session.db Db.task_stages] in Hsid.
  destruct (lookup_lt_is_Some_2 stages snapshot_stage Hsid) as [stage Hstage].
  run_monad. rewrite Hstage. cbv beta iota zeta.
  eexists. split; [reflexivity|]. cbn [Session.calls Session.db Db.tasks Db.task_stages].
  split; [reflexivity|]. split; [reflexivity|]. now rewrite length_alter.
Qed.

Lemma snapshot_loop_no_slot (k : Z) (rounds : nat) (now : Z) (snapshot_prefix : string)
    (total snapshot_stage : nat) (left failed : list PulpServerRepo.t) (s : Session.t) :
  k <= 0 ->
  left <> [] ->
  (snapshot_stage < length (Db.task_stages (Session.db s)))%nat ->
  exists s',
    SnapshotLoop.snapshot_loop be (Some k) _start_snapshot rounds now snapshot_prefix total
      snapshot_stage (left, [], failed) s
    = (s', Ok (left, [], failed))
    /\ Session.calls s' = Session.calls s
    /\ Db.tasks (Session.db s') = Db.tasks (Session.db s).
Proof.
  intros Hk Hleft. revert s. induction rounds as [|n IH]; intros s Hsid.
  - exists s. repeat split.
  - cbn [SnapshotLoop.snapshot_loop]. unfold SnapshotLoop.snapshot_busy.
    cbn [SnapshotLoop.repos_left SnapshotLoop.snapshots_in_progress fst snd].
    destruct left as [|repo rest]; [contradiction|]. cbn [length Nat.eqb negb orb].
    unfold bind.
    destruct (snapshot_round_no_slot k now snapshot_prefix total snapshot_stage
                (repo :: rest) failed s Hk Hsid) as (s1 & -> & Hc1 & Ht1 & Hsid1).
    destruct (IH s1 Hsid1) as (s2 & -> & Hc2 & Ht2).
    exists s2. split; [reflexivity|]. split; congruence.
Qed.

(** X21: with [max_concurrent_snapshots] zero or negative the snapshot
    loop never ends and never starts a snapshot.  There is a repo left
    to snapshot at every pass and no room to start it, so however many
    passes the loop makes the run is not over, nothing has been sent to
    the server and no task row has been added or changed. *)
Theorem snapshots_without_slots_never_end (k : Z) (rounds : nat) (now task_id : Z)
    (snapshot_prefix : string) (repos_to_snapshot : list PulpServerRepo.t) (s : Session.t) :
  k <= 0 ->
  repos_to_snapshot <> [] ->
  let (s', r) := SnapshotLoop._do_snapshot_repos be (Some k) _start_snapshot rounds now
                   task_id snapshot_prefix repos_to_snapshot s in
  r = Ok None
  /\ Session.calls s' = Session.calls s
  /\ Db.tasks (Session.db s') = Db.tasks (Session.db s).
Proof.
  intros Hk Hrepos. unfold SnapshotLoop._do_snapshot_repos.
  destruct s as [[tasks nid stages srv repos links] c calls].
  cbv [bind TableRepository.task_stage_add get_db modify_db commit ret Session.db
       Session.with_db Session.committed Session.calls Db.with_task_stages Db.task_stages
       Db.tasks Db.next_task_id Db.pulp_server Db.repos Db.pulp_server_repo_tasks].
  match goal with
  | |- context [SnapshotLoop.snapshot_loop _ _ _ _ _ _ _ ?sid _ ?s0] =>
      destruct (snapshot_loop_no_slot k rounds now snapshot_prefix
                  (length repos_to_snapshot) sid repos_to_snapshot [] s0 Hk Hrepos)
        as (s1 & -> & Hc & Ht)
  end.
  - cbn [Session.db Db.task_stages]. rewrite length_app. cbn. lia.
  - unfold SnapshotLoop.snapshot_busy.
    cbn [SnapshotLoop.repos_left SnapshotLoop.snapshots_in_progress fst snd].
    destruct repos_to_snapshot as [|repo rest]; [contradiction|].
    cbn [length Nat.eqb negb orb]. split; [reflexivity|]. split; [exact Hc | exact Ht].
Qed.

Lemma forallb_no_failure {A : Type} (p : A -> bool) (l : list A) :
  Nat.ltb 0 (length (List.filter (fun x => negb (p x)) l)) = negb (forallb p l).
Proof.
  induction l as [|x l IH]; [reflexivity|].
  cbn [List.filter forallb]. destruct (p x); cbn [negb andb length]; [exact IH|reflexivity].
Qed.

Section Starts.
Context (max_concurrent_snapshots : option Z).
Context (starts : PulpServerRepo.t -> bool).
Hypothesis Hstarts : SnapshotLoop.start_outcome _start_snapshot starts.

#[local] Abbreviation fails := (fun repo => negb (starts repo)).

(** The repos that failed to start so far, followed by those of the
    repos left that will fail, are the repos of the run that fail. *)
Lemma start_snapshots_failed (snapshot_prefix : string) (left : list PulpServerRepo.t) :
  forall in_progress failed s,
    match SnapshotLoop.start_snapshots max_concurrent_snapshots _start_snapshot
            snapshot_prefix left in_progress failed s with
    | (_, Ok st) =>
        (SnapshotLoop.snapshots_failed st ++ List.filter fails (SnapshotLoop.repos_left st))%list
        = (failed ++ List.filter fails left)%list
    | (_, Raise _) => True
    end.
Proof.
  induction left as [|repo rest IH]; intros in_progress failed s.
  - cbn [SnapshotLoop.start_snapshots]. destruct max_concurrent_snapshots as [limit|];
      [|exact I]. destruct (Z.ltb _ limit); reflexivity.
  - cbn [SnapshotLoop.start_snapshots]. destruct max_concurrent_snapshots as [limit|] eqn:Hmax;
      [|exact I].
    destruct (Z.ltb _ limit); [|reflexivity].
    unfold bind at 1. unfold try_except, bind at 1.
    pose proof (Hstarts repo (snapshot_prefix +:+ PulpServerRepo.name repo) s) as Hone.
    destruct (_start_snapshot repo (snapshot_prefix +:+ PulpServerRepo.name repo) s)
      as [s1 [snapshot_task|e]]; unfold ret; cbv beta iota zeta.
    + destruct (SnapshotLoop.not_running snapshot_task).
      * specialize (IH in_progress (failed ++ [repo])%list s1).
        destruct (SnapshotLoop.start_snapshots _ _ _ rest in_progress _ s1) as [s2 [st|e]];
          [|exact I].
        rewrite IH. cbn [List.filter]. symmetry in Hone. rewrite Hone.
        now rewrite <- app_assoc.
      * specialize (IH (RepoSyncher.dict_set (Task.id snapshot_task) in_progress) failed s1).
        destruct (SnapshotLoop.start_snapshots _ _ _ rest _ failed s1) as [s2 [st|e]];
          [|exact I].
        rewrite IH. cbn [List.filter]. symmetry in Hone. now rewrite Hone.
    + specialize (IH in_progress (failed ++ [repo])%list s1).
      destruct (SnapshotLoop.start_snapshots _ _ _ rest in_progress _ s1) as [s2 [st|e']];
        [|exact I].
      rewrite IH. cbn [List.filter]. rewrite Hone. cbn [negb]. now rewrite <- app_assoc.
Qed.

Lemma snapshot_round_failed (now : Z) (snapshot_prefix : string) (total snapshot_stage : nat)
    (st : SnapshotLoop.loop_state) (s : Session.t) :
  match SnapshotLoop.snapshot_round be max_concurrent_snapshots _start_snapshot now
          snapshot_prefix total snapshot_stage st s with
  | (_, Ok st') =>
      (SnapshotLoop.snapshots_failed st' ++ List.filter fails (SnapshotLoop.repos_left st'))%list
      = (SnapshotLoop.snapshots_failed st ++ List.filter fails (SnapshotLoop.repos_left st))%list
  | (_, Raise _) => True
  end.
Proof.
  unfold SnapshotLoop.snapshot_round. unfold bind at 1.
  pose proof (start_snapshots_failed snapshot_prefix (SnapshotLoop.repos_left st)
                (SnapshotLoop.snapshots_in_progress st) (SnapshotLoop.snapshots_failed st) s)
    as Hstart.
  destruct (SnapshotLoop.start_snapshots _ _ _ _ _ _ s) as [s1 [st1|e]]; [|exact I].
  unfold bind at 1.
  destruct (SnapshotLoop.progress_all _ _ _ _ s1) as [s2 [in_progress|e]]; [|exact I].
  unfold bind at 1.
  destruct (TableRepository.task_stage_get snapshot_stage s2) as [s3 [stage|e]]; [|exact I].
  unfold bind at 1.
  destruct (TableRepository.task_stage_update _ _ s3) as [s4 [[]|e]]; [|exact I].
  unfold bind at 1. destruct (commit s4) as [s5 [[]|e]]; [|exact I].
  unfold ret. exact Hstart.
Qed.

Lemma snapshot_loop_failed (rounds : nat) (now : Z) (snapshot_prefix : string)
    (total snapshot_stage : nat) :
  forall st s,
    match SnapshotLoop.snapshot_loop be max_concurrent_snapshots _start_snapshot rounds now
            snapshot_prefix total snapshot_stage st s with
    | (_, Ok st') =>
        (SnapshotLoop.snapshots_failed st'
         ++ List.filter fails (SnapshotLoop.repos_left st'))%list
        = (SnapshotLoop.snapshots_failed st
           ++ List.filter fails (SnapshotLoop.repos_left st))%list
    | (_, Raise _) => True
    end.
Proof.
  induction rounds as [|n IH]; intros st s; [reflexivity|].
  cbn [SnapshotLoop.snapshot_loop]. destruct (SnapshotLoop.snapshot_busy st); [|reflexivity].
  unfold bind.
  pose proof (snapshot_round_failed now snapshot_prefix total snapshot_stage st s) as Hround.
  destruct (SnapshotLoop.snapshot_round _ _ _ _ _ _ _ st s) as [s1 [st1|e]]; [|exact I].
  specialize (IH st1 s1).
  destruct (SnapshotLoop.snapshot_loop _ _ _ _ _ _ _ _ st1 s1) as [s2 [st2|e]]; [|exact I].
  congruence.
Qed.

(** X22: how [_do_snapshot_repos] ends.  When the loop is over, the
    task of the run is committed as finished at [now], and its error is
    always written.  If every repo of the run could be started the state
    is completed and the message empty, also when a started snapshot
    failed later; if one could not be started the state is failed and
    the message is one fixed text that does not name the repos that
    failed (the call of [join] sits outside the braces of the f-string
    and is part of the text). *)
Theorem snapshot_run_outcome (rounds : nat) (now task_id : Z) (snapshot_prefix : string)
    (repos_to_snapshot : list PulpServerRepo.t) (s s' : Session.t) :
  SnapshotLoop._do_snapshot_repos be max_concurrent_snapshots _start_snapshot rounds now
    task_id snapshot_prefix repos_to_snapshot s = (s', Ok (Some tt)) ->
  exists k,
    Db.tasks (Session.committed s') !! task_id = Some k
    /\ Task.date_finished k = Some now
    /\ Task.state k
       = Ok (Some (if forallb starts repos_to_snapshot then "completed" else "failed"))
    /\ Task.error k
       = {[ "msg" := if forallb starts repos_to_snapshot then EmptyString
                     else SnapshotLoop.FAILED_MSG ]}.
Proof.
  unfold SnapshotLoop._do_snapshot_repos. unfold bind at 1.
  destruct (TableRepository.task_stage_add _ _ _ _ s) as [s0 [sid|e]]; [|discriminate].
  unfold bind at 1. destruct (commit s0) as [s1 [[]|e]]; [|discriminate].
  unfold bind at 1.
  pose proof (snapshot_loop_failed rounds now snapshot_prefix (length repos_to_snapshot) sid
                (repos_to_snapshot, [], []) s1) as Hinv.
  destruct (SnapshotLoop.snapshot_loop _ _ _ _ _ _ _ _ _ s1) as [s2 [st|e]]; [|discriminate].
  destruct (SnapshotLoop.snapshot_busy st) eqn:Hbusy; [discriminate|].
  assert (Hfailed : SnapshotLoop.snapshots_failed st = List.filter fails repos_to_snapshot).
  { unfold SnapshotLoop.snapshot_busy in Hbusy. apply orb_false_iff in Hbusy as [Hleft _].
    destruct (SnapshotLoop.repos_left st) as [|r l]; [|discriminate Hleft].
    cbn [List.filter SnapshotLoop.snapshots_failed SnapshotLoop.repos_left fst snd app]
      in Hinv.
    now rewrite app_nil_r in Hinv. }
  rewrite Hfailed, forallb_no_failure.
  destruct s2 as [[tasks nid stages srv repos links] c calls]. run_monad.
  destruct (tasks !! task_id) as [k0|]; [|discriminate].
  destruct (forallb starts repos_to_snapshot); cbn [negb].
  - rewrite set_state_completed. cbv beta iota zeta. intros H. inversion H. subst.
    cbn [Session.committed Db.tasks]. rewrite lookup_insert_eq. eexists.
    repeat split; reflexivity.
  - rewrite set_state_failed. cbv beta iota zeta. intros H. inversion H. subst.
    cbn [Session.committed Db.tasks]. rewrite lookup_insert_eq. eexists.
    repeat split; reflexivity.
Qed.

End Starts.

End SnapshotEdges.

Lemma snapshots_without_slots_never_end_witness :
  0 <= 0
  /\ fed_repos <> []
  /\ let (s', r) := SnapshotLoop._do_snapshot_repos (settled_server [] []) (Some 0)
                      unreachable_start 25 100 10 "snap-" fed_repos sync_run_session in
     r = Ok None
     /\ Session.calls s' = Session.calls sync_run_session
     /\ Db.tasks (Session.db s') = Db.tasks (Session.db sync_run_session).
Proof.
  split; [lia|]. split; [discriminate|].
  exact (snapshots_without_slots_never_end (settled_server [] []) unreachable_start 0 25 100 10
           "snap-" fed_repos sync_run_session ltac:(lia) ltac:(discriminate)).
Defined.

Lemma unreachable_start_fails :
  SnapshotLoop.start_outcome unreachable_start (fun _ => false).
Proof. intros repo repo_snapshot_name s. reflexivity. Qed.

(** X22 on a run in which the one snapshot could not be started: the run
    ends as failed. *)
Lemma snapshot_run_outcome_witness :
  let run := SnapshotLoop._do_snapshot_repos (settled_server [] []) (Some 2)
               unreachable_start 5 100 10 "snap-" fed_repos sync_run_session in
  SnapshotLoop.start_outcome unreachable_start (fun _ => false)
  /\ run = (fst run, Ok (Some tt))
  /\ exists k,
       Db.tasks (Session.committed (fst run)) !! 10 = Some k
       /\ Task.date_finished k = Some 100
       /\ Task.state k = Ok (Some "failed")
       /\ Task.error k = {[ "msg" := SnapshotLoop.FAILED_MSG ]}.
Proof.
  split; [exact unreachable_start_fails|]. split; [vm_compute; reflexivity|].
  apply (snapshot_run_outcome (settled_server [] []) unreachable_start (Some 2)
           (fun _ => false) unreachable_start_fails 5 100 10 "snap-" fed_repos
           sync_run_session).
  vm_compute. reflexivity.
Defined.

Example snapshot_run_fails_without_names :
  let run := SnapshotLoop._do_snapshot_repos (settled_server [] []) (Some 2)
               unreachable_start 5 100 10 "snap-" fed_repos sync_run_session in
  committed_state (fst run) 10 = Some (Ok (Some "failed"))
  /\ committed_error_msg (fst run) 10 = Some SnapshotLoop.FAILED_MSG.
Proof. vm_compute. split; reflexivity. Qed.

(** ** The entry points on a task id that no row has *)

Section EntryPoints.
Context {re : PyRe} (be : Pulp.Backend).
Context (internal_domains hostname : string) (job_id : option string).
Context (_do_snapshot_repos : Z -> string -> list PulpServerRepo.t -> M unit).

(** X23: a task id that no row has stops the three controllers before
    they write or send anything, each with an exception of its own kind:
    [sync_repos] raises [PulpManagerTaskNotFoundError], [snapshot_repos]
    and [remove_repos] raise [PulpManagerValueError].  In all three the
    session, with its committed rows and its record of requests, is as
    before. *)
Theorem unknown_task_id_stops_entry_points (s : Session.t) (task_id : Z) (now : Z)
    (rounds : nat) (max_concurrent_syncs : Z) (regex regex_exclude : option string)
    (source : option string) (task_args : json) (snapshot_prefix : string)
    (allow_snapshot_reuse dry_run : bool) :
  Db.tasks (Session.db s) !! task_id = None ->
  regex <> None ->
  RepoSyncher.sync_repos be internal_domains hostname job_id rounds now max_concurrent_syncs
    regex regex_exclude source task_args (Some task_id) s
  = (s, Raise (PulpManagerTaskNotFoundError
                 ("task with id " +:+ pretty task_id +:+ " not found")))
  /\ Snapshotter.snapshot_repos be hostname job_id _do_snapshot_repos now snapshot_prefix
       regex regex_exclude (Some task_id) allow_snapshot_reuse task_args s
     = (s, Raise (PulpManagerValueError ("task with ID " +:+ pretty task_id +:+ " not found")))
  /\ RepoRemover.remove_repos be hostname job_id now regex regex_exclude dry_run
       (Some task_id) task_args s
     = (s, Raise (PulpManagerValueError ("Task with ID " +:+ pretty task_id +:+ " not found"))).
Proof.
  intros Hk Hre. destruct s as [d c calls]. cbn [Session.db] in Hk.
  split; [|split].
  - cbv [RepoSyncher.sync_repos RepoSyncher._get_task_entry bind
         TableRepository.task_get_by_id get_db ret raise Session.db].
    now rewrite Hk.
  - cbv [Snapshotter.snapshot_repos bind TableRepository.task_get_by_id get_db ret raise
         Session.db].
    now rewrite Hk.
  - destruct regex as [p|]; [|contradiction].
    cbv [RepoRemover.remove_repos PulpHelpers.is_none andb bind
         TableRepository.task_get_by_id get_db ret raise Session.db].
    now rewrite Hk.
Qed.

End EntryPoints.

Lemma unknown_task_id_stops_entry_points_witness :
  let s := completed_task_session in
  Db.tasks (Session.db s) !! 7 = None
  /\ Some "^ext-" <> None
  /\ @RepoSyncher.sync_repos literal_re (settled_server [] []) "example.org" "worker1" None
       5 100 2 (Some "^ext-") None None ∅ (Some 7) s
     = (s, Raise (PulpManagerTaskNotFoundError ("task with id " +:+ pretty 7 +:+ " not found")))
  /\ @Snapshotter.snapshot_repos literal_re (settled_server [] []) "worker1" None
       (idle_snapshot_loop) 100 "snap-" (Some "^ext-") None (Some 7) true ∅ s
     = (s, Raise (PulpManagerValueError ("task with ID " +:+ pretty 7 +:+ " not found")))
  /\ @RepoRemover.remove_repos literal_re (settled_server [] []) "worker1" None 100
       (Some "^ext-") None false (Some 7) ∅ s
     = (s, Raise (PulpManagerValueError ("Task with ID " +:+ pretty 7 +:+ " not found"))).
Proof.
  split; [reflexivity|]. split; [discriminate|].
  exact (@unknown_task_id_stops_entry_points literal_re (settled_server [] []) "example.org"
           "worker1" None idle_snapshot_loop completed_task_session 7 100 5 2
           (Some "^ext-") None None ∅ "snap-" true false eq_refl ltac:(discriminate)).
Defined.

(** ** Content removal from a repo the server does not have *)

Lemma set_state_running (k : Task.t) :
  Task.set_state (PyStr "running") k = Ok (Task.with_state_id (Some 2) k).
Proof. reflexivity. Qed.

Section ContentRemovalEdges.
Context (be : Pulp.Backend) (hostname : string) (job_id : option string).
Context (new_pulp_manager : M unit).

(** X24: asked to remove content from a repo whose name no row of the
    server has, the [remove_repo_content] job sends nothing to Pulp once
    its [PulpManager] is constructed, whatever the constructor did.  It
    raises [PulpManagerEntityNotFoundError], and before the exception
    leaves the job the task is committed as failed and finished at
    [now], with the text of the exception as its error message. *)
Theorem content_removal_unknown_repo (s s0 : Session.t) (polls : nat) (now task_id : Z)
    (repo_name content_href : string) (force_publish : bool) (k : Task.t) :
  new_pulp_manager s = (s0, Ok tt) ->
  Db.tasks (Session.db s0) !! task_id = Some k ->
  List.filter (fun r => String.eqb (PulpServerRepo.name r) repo_name)
              (Db.repos (Session.db s0)) = [] ->
  let (s', r) := RemoveContentTask.remove_repo_content be hostname job_id new_pulp_manager
                   polls now repo_name content_href task_id force_publish s in
  let msg := "repo with name " +:+ repo_name +:+ " on pulp server "
             +:+ PulpServer.name (Db.pulp_server (Session.db s0)) +:+ " not found" in
  r = Raise (PulpManagerEntityNotFoundError msg)
  /\ Session.calls s' = Session.calls s0
  /\ Session.db s' = Session.committed s'
  /\ exists k',
       Db.tasks (Session.committed s') !! task_id = Some k'
       /\ Task.state k' = Ok (Some "failed")
       /\ Task.date_finished k' = Some now
       /\ Task.error k' !! "msg" = Some msg.
Proof.
  intros Hnew Hk Hrepo.
  unfold RemoveContentTask.remove_repo_content, finally_close.
  unfold bind at 1. unfold try_except at 1. rewrite Hnew. clear Hnew s.
  destruct s0 as [[tasks nid stages srv repos links] c calls].
  cbn [Session.db Db.tasks Db.repos] in Hk, Hrepo.
  cbv [RemoveContentTask.remove_repo_content_body]. run_monad.
  rewrite Hk. cbv beta iota zeta. rewrite set_state_running.
  cbv beta iota zeta. rewrite Hrepo. cbv beta iota zeta.
  rewrite lookup_insert_eq. cbv beta iota zeta.
  cbn [is_pulp_task_error]. rewrite set_state_failed. cbv beta iota zeta.
  cbn [fst Session.calls Session.db Session.committed Db.tasks].
  split; [reflexivity|]. split; [reflexivity|]. split; [reflexivity|].
  rewrite lookup_insert_eq. eexists. split; [reflexivity|].
  split; [reflexivity|]. split; [reflexivity|].
  cbn [Task.error Task.error_str Task.set_error Task.with_error_str Task.with_date_finished
       Task.with_state_id exn_str].
  apply lookup_insert_eq.
Qed.

End ContentRemovalEdges.

(** X24 with a constructor that asks the server for its signing
    services: that request is the only one of the run. *)
Lemma content_removal_unknown_repo_witness :
  let s := sync_run_session in
  let s0 := fst (asking_pulp_manager s) in
  asking_pulp_manager s = (s0, Ok tt)
  /\ Db.tasks (Session.db s0) !! 1 = Some (queued_child 1)
  /\ List.filter (fun r => String.eqb (PulpServerRepo.name r) "ext-foo")
                 (Db.repos (Session.db s0)) = []
  /\ let (s', r) := RemoveContentTask.remove_repo_content (settled_server [] []) "worker1"
                      None asking_pulp_manager 5 100 "ext-foo"
                      "/pulp/api/v3/content/rpm/packages/1/" 1 false s in
     let msg := "repo with name " +:+ "ext-foo" +:+ " on pulp server "
                +:+ PulpServer.name (Db.pulp_server (Session.db s0)) +:+ " not found" in
     r = Raise (PulpManagerEntityNotFoundError msg)
     /\ Session.calls s' = Session.calls s0
     /\ Session.db s' = Session.committed s'
     /\ exists k',
          Db.tasks (Session.committed s') !! 1 = Some k'
          /\ Task.state k' = Ok (Some "failed")
          /\ Task.date_finished k' = Some 100
          /\ Task.error k' !! "msg" = Some msg.
Proof.
  split; [reflexivity|]. split; [reflexivity|]. split; [reflexivity|].
  exact (content_removal_unknown_repo (settled_server [] []) "worker1" None
           asking_pulp_manager sync_run_session (fst (asking_pulp_manager sync_run_session))
           5 100 1 "ext-foo" "/pulp/api/v3/content/rpm/packages/1/" false (queued_child 1)
           eq_refl eq_refl eq_refl).
Defined.

(** ** The sync scheduler below zero *)

(** X25: a negative [max_concurrent_syncs] is no bound at all.  The
    number of tasks in progress never equals it, so one pass of the
    scheduler takes in every pending task. *)
Theorem fill_negative_limit_takes_all (k : Z) (pending in_progress : list Z) :
  k < 0 ->
  let (pending', in_progress') := RepoSyncher.fill k pending in_progress in
  pending' = []
  /\ forall x, In x in_progress' <-> In x in_progress \/ In x pending.
Proof.
  intros Hk. unfold RepoSyncher.fill.
  destruct (RepoSyncher.fill_rev k (rev pending) in_progress) as [rpending' in_progress'] eqn:H.
  destruct (fill_rev_takes _ _ _ _ _ H) as (taken & Hrev & Hin & Hend).
  destruct Hend as [-> | Hlen]; [|lia].
  split; [reflexivity|]. rewrite app_nil_r in Hrev. subst taken.
  intros x. rewrite Hin, <- in_rev. reflexivity.
Qed.

Lemma fill_negative_limit_takes_all_witness :
  -1 < 0
  /\ let (pending', in_progress') := RepoSyncher.fill (-1) [1; 2; 3] [] in
     pending' = []
     /\ forall x, In x in_progress' <-> In x [] \/ In x [1; 2; 3].
Proof.
  split; [lia|]. exact (fill_negative_limit_takes_all (-1) [1; 2; 3] [] ltac:(lia)).
Defined.

(** ** Snapshots: a Pulp task that has come to rest *)

Section SnapshotProgress.
Context (be : Pulp.Backend).

(** X26: [_progress_snapshot] ends the snapshot task when the Pulp task
    of its current stage has come to rest in any state but completed, or
    has completed the publication stage.  It asks the server once, for
    that task; the snapshot task is then committed as finished at [now],
    as completed when the Pulp task completed and as failed otherwise (a
    canceled or skipped Pulp task fails the snapshot), and [True] is
    returned, which takes the task out of the loop. *)
Theorem progress_snapshot_ends_task (s : Session.t) (now task_id : Z) (k : Task.t)
    (stage : TaskStage.t) (href : string) (pulp_task : Pulp.Task) :
  Db.tasks (Session.db s) !! task_id = Some k ->
  last (Db.stages_of task_id (Session.db s)) = Some stage ->
  TaskStage.detail stage !! "task_href" = Some href ->
  contains "tasks" href = true ->
  Pulp.server_task be (length (Session.calls s)) href = Ok pulp_task ->
  existsb (String.eqb (Pulp.task_state pulp_task)) ["running"; "waiting"] = false ->
  negb (String.eqb (Pulp.task_state pulp_task) "completed")
  || String.eqb (TaskStage.name stage) SnapshotLoop.PUBLISH_STAGE_NAME = true ->
  let (s', r) := SnapshotLoop._progress_snapshot be now task_id s in
  r = Ok true
  /\ Session.calls s' = (Session.calls s ++ [CallGet href])%list
  /\ exists k',
       Db.tasks (Session.committed s') !! task_id = Some k'
       /\ Task.date_finished k' = Some now
       /\ Task.state k'
          = Ok (Some (if String.eqb (Pulp.task_state pulp_task) "completed"
                      then "completed" else "failed")).
Proof.
  intros Hk Hstage Hhref Htasks Hanswer Hrest Hend.
  destruct s as [[tasks nid stages srv repos links] c calls].
  cbn [Session.db Session.calls Db.tasks] in *.
  cbv [SnapshotLoop._progress_snapshot Pulp.get_task]. run_monad.
  rewrite Hstage. cbv beta iota zeta. rewrite Hhref. cbv beta iota zeta.
  rewrite Htasks. run_monad. rewrite Hanswer. cbv beta iota zeta.
  rewrite Hrest. cbn [negb]. cbv beta iota zeta. rewrite Hend. cbv beta iota zeta.
  rewrite Hk. cbv beta iota zeta.
  destruct (String.eqb (Pulp.task_state pulp_task) "completed"); cbn [negb];
    rewrite ?set_state_failed, ?set_state_completed; cbv beta iota zeta;
    cbn [Session.calls Session.committed Db.tasks];
    (split; [reflexivity|]); (split; [reflexivity|]);
    rewrite lookup_insert_eq; eexists; repeat split.
Qed.

End SnapshotProgress.

Lemma progress_snapshot_ends_task_witness :
  let s := child_session rpm_repo_href in
  let pulp_task := Pulp.mkTask sync_task_href "canceled" [] in
  Db.tasks (Session.db s) !! 1 = Some (child_task rpm_repo_href)
  /\ last (Db.stages_of 1 (Session.db s)) = Some sync_stage
  /\ TaskStage.detail sync_stage !! "task_href" = Some sync_task_href
  /\ contains "tasks" sync_task_href = true
  /\ Pulp.server_task canceling_server (length (Session.calls s)) sync_task_href = Ok pulp_task
  /\ existsb (String.eqb (Pulp.task_state pulp_task)) ["running"; "waiting"] = false
  /\ negb (String.eqb (Pulp.task_state pulp_task) "completed")
     || String.eqb (TaskStage.name sync_stage) SnapshotLoop.PUBLISH_STAGE_NAME = true
  /\ let (s', r) := SnapshotLoop._progress_snapshot canceling_server 100 1 s in
     r = Ok true
     /\ Session.calls s' = (Session.calls s ++ [CallGet sync_task_href])%list
     /\ exists k',
          Db.tasks (Session.committed s') !! 1 = Some k'
          /\ Task.date_finished k' = Some 100
          /\ Task.state k'
             = Ok (Some (if String.eqb (Pulp.task_state pulp_task) "completed"
                         then "completed" else "failed")).
Proof.
  do 7 (split; [reflexivity|]).
  exact (progress_snapshot_ends_task canceling_server (child_session rpm_repo_href) 100 1
           (child_task rpm_repo_href) sync_stage sync_task_href
           (Pulp.mkTask sync_task_href "canceled" [])
           eq_refl eq_refl eq_refl eq_refl eq_refl eq_refl eq_refl).
Defined.

(** ** The child tasks of a sync run *)

Section ChildTasks.
Context (hostname : string) (job_id : option string).

Lemma seq_ids_shift (nid : Z) (n : nat) :
  List.map (fun i => nid + Z.of_nat i) (seq 1 n)
  = List.map (fun i => nid + 1 + Z.of_nat i) (seq 0 n).
Proof.
  rewrite <- seq_shift, List.map_map. apply List.map_ext. intros i. lia.
Qed.

Lemma add_repo_tasks_rows (now : Z) (server_name : string) (parent_task : Z)
    (repos : list PulpServerRepo.t) :
  forall tasks nid stages srv rows links c calls,
  exists tasks' links',
    RepoSyncher.add_repo_tasks hostname job_id now server_name parent_task repos
      (Session.mk (Db.mk tasks nid stages srv rows links) c calls)
    = (Session.mk (Db.mk tasks' (nid + Z.of_nat (length repos)) stages srv rows links')
         c calls,
       Ok (List.map (fun i => nid + Z.of_nat i) (seq 0 (length repos))))
    /\ (forall j, j < nid -> tasks' !! j = tasks !! j)
    /\ (forall i repo,
          repos !! i = Some repo ->
          tasks' !! (nid + Z.of_nat i)
          = Some (sync_child hostname job_id server_name parent_task (nid + Z.of_nat i) repo)
          /\ In (PulpServerRepoTask.mk (PulpServerRepo.id repo) (nid + Z.of_nat i) now)
                links')
    /\ (forall link, In link links -> In link links').
Proof.
  induction repos as [|repo rest IH]; intros tasks nid stages srv rows links c calls.
  - exists tasks, links. cbn [length Z.of_nat]. rewrite Z.add_0_r.
    split; [reflexivity|]. split; [reflexivity|]. split; [|auto].
    intros i r Hi. discriminate.
  - cbn [RepoSyncher.add_repo_tasks]. cbv [TableRepository.task_add]. run_monad.
    cbv [Db.with_pulp_server_repo_tasks Db.with_next_task_id]. run_monad.
    cbn [Task.set_task_args Task.with_task_args_str Task.with_worker_job_id
         Task.with_worker_name Task.with_state_id Task.with_task_type_id Task.id Task.name
         Task.parent_task_id Task.task_type_id Task.task_args_str Task.date_started
         Task.date_finished Task.date_last_updated Task.state_id Task.worker_name
         Task.worker_job_id Task.error_str].
    match goal with
    | |- context [RepoSyncher.add_repo_tasks _ _ _ _ _ rest
                    {| Session.db := {| Db.tasks := ?t1; Db.next_task_id := ?n1;
                                        Db.pulp_server_repo_tasks := ?l1 |} |}] =>
        destruct (IH t1 n1 stages srv rows l1 c calls)
          as (tasks' & links' & -> & Hkeep & Hrows & Hlinks)
    end.
    exists tasks', links'. split; [|split; [|split]].
    + cbn [length seq List.map]. rewrite Z.add_0_r, seq_ids_shift.
      replace (nid + 1 + Z.of_nat (length rest)) with (nid + Z.of_nat (S (length rest)))
        by lia.
      reflexivity.
    + intros j Hj. rewrite Hkeep by lia. apply lookup_insert_ne. lia.
    + intros [|i] r Hi.
      * cbn in Hi. injection Hi as <-. rewrite Z.add_0_r. split.
        -- rewrite Hkeep by lia. apply lookup_insert_eq.
        -- apply Hlinks. apply in_app_iff. right. now left.
      * cbn in Hi. destruct (Hrows i r Hi) as [Hrow Hlink].
        replace (nid + Z.of_nat (S i)) with (nid + 1 + Z.of_nat i) by lia. now split.
    + intros link Hl. apply Hlinks. apply in_app_iff. now left.
Qed.

(** X27: [_generate_tasks] stages one child task per repo.  The child
    of the [i]-th repo gets the [i]-th id after the ids in use; it is
    queued, of type [repo_sync], under the parent task, carries the
    repo's href in its arguments and is linked to the repo.  The rows
    are committed, the rows with smaller ids are as before, no request
    is sent, and the ids come back in the order of the repos. *)
Theorem generate_tasks_one_per_repo (now : Z) (server_name : string) (parent_task : Z)
    (repos : list PulpServerRepo.t) (s : Session.t) :
  let (s', r) := RepoSyncher._generate_tasks hostname job_id now server_name repos
                   parent_task s in
  let first := Db.next_task_id (Session.db s) in
  r = Ok (List.map (fun i => first + Z.of_nat i) (seq 0 (length repos)))
  /\ Session.committed s' = Session.db s'
  /\ Session.calls s' = Session.calls s
  /\ Db.next_task_id (Session.db s') = first + Z.of_nat (length repos)
  /\ (forall j, j < first ->
                Db.tasks (Session.db s') !! j = Db.tasks (Session.db s) !! j)
  /\ (forall i repo,
        repos !! i = Some repo ->
        Db.tasks (Session.db s') !! (first + Z.of_nat i)
        = Some (sync_child hostname job_id server_name parent_task (first + Z.of_nat i) repo)
        /\ In (PulpServerRepoTask.mk (PulpServerRepo.id repo) (first + Z.of_nat i) now)
              (Db.pulp_server_repo_tasks (Session.db s'))).
Proof.
  destruct s as [[tasks nid stages srv rows links] c calls].
  unfold RepoSyncher._generate_tasks, bind.
  destruct (add_repo_tasks_rows now server_name parent_task repos tasks nid stages srv rows
              links c calls) as (tasks' & links' & -> & Hkeep & Hrows & _).
  cbv [commit ret Session.db Session.committed Session.calls Db.next_task_id Db.tasks
       Db.pulp_server_repo_tasks].
  repeat (split; [reflexivity|]). split; [exact Hkeep | exact Hrows].
Qed.

End ChildTasks.

(** ** A child sync that cannot be started *)

Lemma set_state_failed_to_start (k : Task.t) :
  Task.set_state (PyStr "failed_to_start") k = Ok (Task.with_state_id (Some 6) k).
Proof. reflexivity. Qed.

Section FailedStart.
Context (be : Pulp.Backend) (internal_domains : string).

(** X28: in one pass of the sync loop over a child task that has no stage
    yet, when the server answers the request for the child's repository
    with an error, the child is given up and the pass goes on.
    [_start_sync] records the child as [failed_to_start], finished at
    [now], with a sync stage that holds the error, and commits; the loop
    takes the child out of the tasks in progress; the stage just added is
    not polled in this pass, since [task.stages] still reads as empty, so
    the one request of the pass is the GET of the repository and the pass
    returns the dict without the child. *)
Theorem failed_start_ends_child (s : Session.t) (now task_id : Z) (k : Task.t)
    (href t : string) (e : exn) (in_progress : list Z) :
  Db.tasks (Session.db s) !! task_id = Some k ->
  Db.stages_of task_id (Session.db s) = [] ->
  Task.task_args k !! "repo_href" = Some href ->
  href_type "/pulp/api/v3/repositories/" href = Some t ->
  existsb (String.eqb t) Pulp.repo_types = true ->
  Pulp.server_repo be (length (Session.calls s)) href = Raise e ->
  existsb (Z.eqb task_id) in_progress = true ->
  let (s', r) := RepoSyncher.process_task be internal_domains now task_id in_progress s in
  r = Ok (List.filter (fun x => negb (Z.eqb x task_id)) in_progress)
  /\ Session.calls s' = (Session.calls s ++ [CallGet href])%list
  /\ Session.committed s' = Session.db s'
  /\ (exists stage,
        Db.stages_of task_id (Session.db s') = [stage]
        /\ TaskStage.name stage = RepoSyncher.SYNC_STAGE_NAME
        /\ TaskStage.detail stage = ∅
        /\ TaskStage.error stage
           = {[ "msg" := "unexpected error occured starting repo sync  for repo " +:+ href;
                "detail" := format_exc e ]})
  /\ exists k', Db.tasks (Session.db s') !! task_id = Some k'
       /\ Task.state k' = Ok (Some "failed_to_start")
       /\ Task.date_finished k' = Some now.
Proof.
  intros Hk Hst Harg Hty Hsup Hans Hin.
  destruct s as [[tasks nid stages srv repos links] c calls].
  cbn [Session.db Session.calls Db.tasks Db.task_stages] in *.
  cbv [RepoSyncher.process_task RepoSyncher._start_sync Pulp.get_repo]. run_monad.
  rewrite Hst. cbv beta iota zeta. rewrite Hk. cbv beta iota zeta.
  rewrite Harg. cbv beta iota zeta. rewrite Hty, Hsup. run_monad.
  rewrite Hans. cbv beta iota zeta.
  repeat (first [rewrite Hk | rewrite Harg | rewrite lookup_insert_eq
                | rewrite set_state_failed_to_start];
          cbv beta iota zeta).
  unfold RepoSyncher.dict_del. rewrite Hin. cbv beta iota zeta.
  rewrite alter_at_end. unfold Db.stages_of in *. cbn [Db.task_stages last] in *.
  cbn [fold_left TaskStage.setattr TaskStage.id TaskStage.task_id TaskStage.name
       TaskStage.detail_str TaskStage.error_str TaskStage.date_last_updated].
  cbn [Session.db Session.committed Session.calls Db.tasks Db.task_stages].
  rewrite List.filter_app, Hst. cbn [List.filter app TaskStage.task_id].
  rewrite Z.eqb_refl.
  repeat (split; [reflexivity|]).
  split; [eexists; repeat split; reflexivity|].
  eexists. split; [apply lookup_insert_eq|]. split; reflexivity.
Qed.

End FailedStart.

Lemma failed_start_ends_child_witness :
  let (s', r) := RepoSyncher.process_task repoless_server "example.com" 100 1 [1; 2]
                   unstarted_child_session in
  r = Ok [2]
  /\ Session.calls s' = [CallGet rpm_repo_href]
  /\ Session.committed s' = Session.db s'
  /\ (exists stage,
        Db.stages_of 1 (Session.db s') = [stage]
        /\ TaskStage.name stage = RepoSyncher.SYNC_STAGE_NAME
        /\ TaskStage.detail stage = ∅
        /\ TaskStage.error stage
           = {[ "msg" := "unexpected error occured starting repo sync  for repo "
                         +:+ rpm_repo_href;
                "detail" := format_exc (PulpV3APIError "not found") ]})
  /\ exists k', Db.tasks (Session.db s') !! 1 = Some k'
       /\ Task.state k' = Ok (Some "failed_to_start")
       /\ Task.date_finished k' = Some 100.
Proof.
  apply (failed_start_ends_child repoless_server "example.com" unstarted_child_session 100 1
           (unstarted_child rpm_repo_href) rpm_repo_href "rpm"
           (PulpV3APIError "not found") [1; 2]); reflexivity.
Defined.

(** ** Logging an error on a task, rewording a stage *)

Lemma set_state_failed_id (k : Task.t) :
  Task.set_state (PyInt 4) k = Ok (Task.with_state_id (Some 4) k).
Proof. reflexivity. Qed.

(** X29: [log_task_error] fails a task whatever its state was.  For a task
    that exists, also one that has already completed or been canceled, the
    task ends in state [failed] with the error [{"message": error_trace}]
    and the time of the call as its finishing time; its name, parent,
    type, arguments, start time and worker are as before, all other tasks
    and the stages are untouched, nothing is sent to the server, and the
    change is committed. *)
Theorem log_task_error_fails_any_task (s : Session.t) (now task_id : Z) (k : Task.t)
    (error_trace : string) :
  Db.tasks (Session.db s) !! task_id = Some k ->
  let (s', r) := TaskServiceOps.log_task_error now task_id error_trace s in
  r = Ok tt
  /\ (exists k',
        Db.tasks (Session.db s') !! task_id = Some k'
        /\ Task.state k' = Ok (Some "failed")
        /\ Task.error k' = {[ "message" := error_trace ]}
        /\ Task.date_finished k' = Some now
        /\ Task.id k' = Task.id k
        /\ Task.name k' = Task.name k
        /\ Task.parent_task_id k' = Task.parent_task_id k
        /\ Task.task_type_id k' = Task.task_type_id k
        /\ Task.task_args_str k' = Task.task_args_str k
        /\ Task.date_started k' = Task.date_started k
        /\ Task.worker_name k' = Task.worker_name k
        /\ Task.worker_job_id k' = Task.worker_job_id k)
  /\ (forall other, other <> task_id ->
        Db.tasks (Session.db s') !! other = Db.tasks (Session.db s) !! other)
  /\ Db.task_stages (Session.db s') = Db.task_stages (Session.db s)
  /\ Session.calls s' = Session.calls s
  /\ Session.committed s' = Session.db s'.
Proof.
  intros Hk. destruct s as [[tasks nid stages srv repos links] c calls].
  cbn [Session.db Session.calls Db.tasks Db.task_stages] in *.
  cbv [TaskServiceOps.log_task_error TaskServiceOps._commit_to_db]. run_monad.
  repeat (first [rewrite Hk | rewrite lookup_insert_eq | rewrite set_state_failed_id];
          cbv beta iota zeta).
  cbn [Session.db Session.committed Session.calls Db.tasks Db.task_stages].
  split; [reflexivity|]. split; [eexists; repeat split; reflexivity|].
  split; [|repeat split; reflexivity].
  intros other Hother. now rewrite !lookup_insert_ne by congruence.
Qed.

Lemma log_task_error_fails_any_task_witness :
  Db.tasks (Session.db completed_task_session) !! 1 = Some (blank_task 1 3)
  /\ let (s', r) := TaskServiceOps.log_task_error 100 1 "boom" completed_task_session in
     r = Ok tt
     /\ (exists k',
           Db.tasks (Session.db s') !! 1 = Some k'
           /\ Task.state k' = Ok (Some "failed")
           /\ Task.error k' = {[ "message" := "boom" ]}
           /\ Task.date_finished k' = Some 100
           /\ Task.id k' = Task.id (blank_task 1 3)
           /\ Task.name k' = Task.name (blank_task 1 3)
           /\ Task.parent_task_id k' = Task.parent_task_id (blank_task 1 3)
           /\ Task.task_type_id k' = Task.task_type_id (blank_task 1 3)
           /\ Task.task_args_str k' = Task.task_args_str (blank_task 1 3)
           /\ Task.date_started k' = Task.date_started (blank_task 1 3)
           /\ Task.worker_name k' = Task.worker_name (blank_task 1 3)
           /\ Task.worker_job_id k' = Task.worker_job_id (blank_task 1 3))
     /\ (forall other, other <> 1 ->
           Db.tasks (Session.db s') !! other
           = Db.tasks (Session.db completed_task_session) !! other)
     /\ Db.task_stages (Session.db s') = Db.task_stages (Session.db completed_task_session)
     /\ Session.calls s' = Session.calls completed_task_session
     /\ Session.committed s' = Session.db s'.
Proof.
  split; [reflexivity|].
  exact (log_task_error_fails_any_task completed_task_session 100 1 (blank_task 1 3)
           "boom" eq_refl).
Defined.

(** X30: [update_task_stage] replaces the detail of the stage, it does not
    add to it.  For a stage that exists the detail becomes exactly
    [{"msg": message}]: every key that was stored before is gone, among
    them the [task_href] by which the sync and snapshot controllers find the
    Pulp task of the stage.  The stage's task, name and error and all other
    stages are as before, and the change is committed. *)
Theorem update_task_stage_replaces_detail (s : Session.t) (task_stage_id : nat)
    (stage : TaskStage.t) (message : string) :
  Db.task_stages (Session.db s) !! task_stage_id = Some stage ->
  let (s', r) := TaskServiceOps.update_task_stage task_stage_id message s in
  r = Ok (Some task_stage_id)
  /\ (exists stage',
        Db.task_stages (Session.db s') !! task_stage_id = Some stage'
        /\ TaskStage.detail stage' = {[ "msg" := message ]}
        /\ TaskStage.detail stage' !! "task_href" = None
        /\ TaskStage.task_id stage' = TaskStage.task_id stage
        /\ TaskStage.name stage' = TaskStage.name stage
        /\ TaskStage.error stage' = TaskStage.error stage)
  /\ (forall other, other <> task_stage_id ->
        Db.task_stages (Session.db s') !! other = Db.task_stages (Session.db s) !! other)
  /\ Db.tasks (Session.db s') = Db.tasks (Session.db s)
  /\ Session.committed s' = Session.db s'.
Proof.
  intros Hstage. destruct s as [[tasks nid stages srv repos links] c calls].
  cbn [Session.db Db.tasks Db.task_stages] in *.
  cbv [TaskServiceOps.update_task_stage TaskServiceOps._commit_to_db]. run_monad.
  rewrite Hstage. cbv beta iota zeta.
  cbn [Session.db Session.committed Db.tasks Db.task_stages].
  split; [reflexivity|]. split; [|split; [|split; reflexivity]].
  - eexists. split; [rewrite list_lookup_alter_eq, Hstage; reflexivity|].
    repeat split; reflexivity.
  - intros other Hother. now rewrite list_lookup_alter_ne by congruence.
Qed.

Lemma update_task_stage_replaces_detail_witness :
  Db.task_stages (Session.db (child_session rpm_repo_href)) !! 0%nat = Some sync_stage
  /\ let (s', r) := TaskServiceOps.update_task_stage 0 "half way"
                      (child_session rpm_repo_href) in
     r = Ok (Some 0%nat)
     /\ (exists stage',
           Db.task_stages (Session.db s') !! 0%nat = Some stage'
           /\ TaskStage.detail stage' = {[ "msg" := "half way" ]}
           /\ TaskStage.detail stage' !! "task_href" = None
           /\ TaskStage.task_id stage' = TaskStage.task_id sync_stage
           /\ TaskStage.name stage' = TaskStage.name sync_stage
           /\ TaskStage.error stage' = TaskStage.error sync_stage)
     /\ (forall other, other <> 0%nat ->
           Db.task_stages (Session.db s') !! other
           = Db.task_stages (Session.db (child_session rpm_repo_href)) !! other)
     /\ Db.tasks (Session.db s') = Db.tasks (Session.db (child_session rpm_repo_href))
     /\ Session.committed s' = Session.db s'.
Proof.
  split; [reflexivity|].
  exact (update_task_stage_replaces_detail (child_session rpm_repo_href) 0 sync_stage
           "half way" eq_refl).
Defined.
